(** * BudgetBud: the ledger store and its persistence codec

    A shallow embedding of [budgetbudd.py]: the [Transaction] and [Goal]
    records, the [DataManager] (totals, category totals, the six mutators,
    [load] and [save]) and the progress computation of
    [BudgetBuddy.refresh_goals_table], followed by the properties of the
    ledger that the specification states and by further properties of
    the code.

    Conventions.
    - Text is a [string] whose characters are the code points below 256;
      the progress bar, which has a character beyond them, is a list of
      code points.
    - A value decoded from JSON is a [pyval]; a dict is an association
      list in insertion order.  An int decoded from a file has at most
      4300 digits, the interpreter's limit.
    - [decimal.Decimal] is modelled by its representation (sign,
      coefficient, exponent, or a special value) under the default
      context: 28 significant digits, ROUND_HALF_EVEN, Emax = 999999,
      Emin = -999999, traps on InvalidOperation, DivisionByZero and
      Overflow.  A result above Emax raises Overflow, a subnormal result
      is rounded at Etiny.  The exponent of a Decimal is an unbounded
      integer here; the library holds exponents up to about 10^18 in
      absolute value and its constructor raises InvalidOperation for a
      text beyond that.
    - Indices are Python ints; [list.pop] converts its argument to a
      [ssize_t] of 64 bits.
    - The data file is modelled by what [json.loads(path.read_text())]
      makes of it: a decoded value, a JSONDecodeError, or another
      exception.
    - A method of [DataManager] is a function from the world (the object's
      two lists, the data file, the warnings shown) to an outcome and a new
      world; an exception leaves the world as the method left it. *)

From Stdlib Require Import ZArith NArith List String Ascii Bool Lia.
From Stdlib Require Import Permutation.
Import ListNotations.

Set Warnings "-register-all".

(** ** Exceptions and results *)

Inductive exn : Type :=
| KeyError
| TypeError
| AttributeError
| IndexError
| InvalidOperation
| DivisionByZero
| ValueError (msg : string)
| Overflow                    (* decimal.Overflow *)
| OverflowError
| UnicodeDecodeError
| RecursionError
| OSError.

Inductive result (A : Type) : Type :=
| Ok (a : A)
| Raise (e : exn).

Arguments Ok {A} a.
Arguments Raise {A} e.

Definition rbind {A B : Type} (r : result A) (k : A -> result B) : result B :=
  match r with
  | Ok a => k a
  | Raise e => Raise e
  end.

Declare Scope result_scope.
Delimit Scope result_scope with result.
Notation "x <- r ;; k" := (rbind r (fun x => k))
  (at level 61, r at next level, right associativity) : result_scope.
Open Scope result_scope.

(** [[f(x) for x in l]]: the first exception aborts the comprehension. *)
Fixpoint traverse {A B : Type} (f : A -> result B) (l : list A) : result (list B) :=
  match l with
  | [] => Ok []
  | x :: r =>
      y <- f x ;;
      ys <- traverse f r ;;
      Ok (y :: ys)
  end.

(** ** Values decoded from JSON *)

Inductive pyval : Type :=
| JNull
| JBool (b : bool)
| JInt (z : Z)
| JFloat (repr : string)      (* a float, carried by its [repr] *)
| JStr (s : string)
| JArr (items : list pyval)
| JObj (fields : list (string * pyval)).

Fixpoint assoc {V : Type} (k : string) (kv : list (string * V)) : option V :=
  match kv with
  | [] => None
  | (k', v) :: r => if String.eqb k k' then Some v else assoc k r
  end.

(** [d[key]] *)
Definition py_getitem (d : pyval) (key : string) : result pyval :=
  match d with
  | JObj kv =>
      match assoc key kv with
      | Some v => Ok v
      | None => Raise KeyError
      end
  | _ => Raise TypeError
  end.

(** [d.get(key, default)] *)
Definition py_get (d : pyval) (key : string) (default : pyval) : result pyval :=
  match d with
  | JObj kv =>
      match assoc key kv with
      | Some v => Ok v
      | None => Ok default
      end
  | _ => Raise AttributeError
  end.

(** [iter(v)], as a list comprehension walks it. *)
Definition py_iter (v : pyval) : result (list pyval) :=
  match v with
  | JArr l => Ok l
  | JStr s => Ok (map (fun c => JStr (String c EmptyString)) (list_ascii_of_string s))
  | JObj kv => Ok (map (fun p => JStr (fst p)) kv)
  | _ => Raise TypeError
  end.

(** [v == s] for a string literal [s] *)
Definition py_eq_str (v : pyval) (s : string) : bool :=
  match v with
  | JStr s' => String.eqb s' s
  | _ => false
  end.

(** ** Decimal digits *)

Definition is_digit (c : ascii) : bool :=
  let n := N_of_ascii c in (48 <=? n)%N && (n <=? 57)%N.

Definition digit_val (c : ascii) : N := (N_of_ascii c - 48)%N.

Definition digit_char (d : N) : ascii := ascii_of_N (48 + d).

(** [int(s)] for a run of digits *)
Definition N_of_digits (s : list ascii) : N :=
  fold_left (fun acc c => (10 * acc + digit_val c)%N) s 0%N.

(** The digits of [n], least significant first; nothing for zero. *)
Fixpoint digits_rev (fuel : nat) (n : N) : list ascii :=
  match fuel with
  | O => []
  | S f =>
      if (n =? 0)%N then []
      else digit_char (n mod 10) :: digits_rev f (n / 10)
  end.

(** [str(n)] for a natural number *)
Definition N_digits (n : N) : list ascii :=
  if (n =? 0)%N then ["0"%char]
  else rev (digits_rev (S (N.to_nat (N.log2 n))) n).

Definition Z_digits (z : Z) : list ascii :=
  if (z <? 0)%Z then "-"%char :: N_digits (Z.abs_N z) else N_digits (Z.abs_N z).

Definition zeros (n : nat) : list ascii := repeat "0"%char n.

(** ** decimal.Decimal *)

Inductive Decimal : Type :=
| Dfin (sign : bool) (coeff : N) (exp : Z)            (* (-1)^sign * coeff * 10^exp *)
| Dinf (sign : bool)
| Dnan (sign : bool) (signaling : bool) (payload : N).

Definition Decimal_of_Z (z : Z) : Decimal := Dfin (z <? 0)%Z (Z.abs_N z) 0.

Definition signed (s : bool) (c : N) : Z := if s then (- Z.of_N c)%Z else Z.of_N c.

Definition sign_chars (s : bool) : list ascii := if s then ["-"%char] else [].

(** ['E' + "%+d" % x] *)
Definition exponent_chars (x : Z) : list ascii :=
  "E"%char :: (if (x <? 0)%Z then "-"%char else "+"%char) :: N_digits (Z.abs_N x).

(** [Decimal.__str__]: scientific notation when the exponent is positive or
    there are more than six leading zeros. *)
Definition Decimal_str_chars (d : Decimal) : list ascii :=
  match d with
  | Dinf s => sign_chars s ++ list_ascii_of_string "Infinity"
  | Dnan s false p =>
      sign_chars s ++ list_ascii_of_string "NaN"
        ++ (if (p =? 0)%N then [] else N_digits p)
  | Dnan s true p =>
      sign_chars s ++ list_ascii_of_string "sNaN"
        ++ (if (p =? 0)%N then [] else N_digits p)
  | Dfin s c e =>
      let int_ := N_digits c in
      let len := Z.of_nat (List.length int_) in
      let leftdigits := (e + len)%Z in
      let dotplace :=
        if (e <=? 0)%Z && (-6 <? leftdigits)%Z then leftdigits else 1%Z in
      let intpart :=
        if (dotplace <=? 0)%Z then ["0"%char]
        else if (len <=? dotplace)%Z then int_ ++ zeros (Z.to_nat (dotplace - len))
        else firstn (Z.to_nat dotplace) int_ in
      let fracpart :=
        if (dotplace <=? 0)%Z then "."%char :: zeros (Z.to_nat (- dotplace)) ++ int_
        else if (len <=? dotplace)%Z then []
        else "."%char :: skipn (Z.to_nat dotplace) int_ in
      let exp :=
        if (leftdigits =? dotplace)%Z then []
        else exponent_chars (leftdigits - dotplace) in
      sign_chars s ++ intpart ++ fracpart ++ exp
  end.

Definition Decimal_str (d : Decimal) : string :=
  string_of_list_ascii (Decimal_str_chars d).

(** [str.strip()]: the white space below code point 256. *)
Definition is_space (c : ascii) : bool :=
  let n := N_of_ascii c in
  ((9 <=? n)%N && (n <=? 13)%N) || ((28 <=? n)%N && (n <=? 32)%N)
  || (n =? 133)%N || (n =? 160)%N.

Fixpoint lstrip (s : list ascii) : list ascii :=
  match s with
  | c :: r => if is_space c then lstrip r else s
  | [] => []
  end.

Definition strip (s : list ascii) : list ascii := rev (lstrip (rev (lstrip s))).

Definition is_underscore (c : ascii) : bool := (N_of_ascii c =? 95)%N.

Definition remove_underscores (s : list ascii) : list ascii :=
  filter (fun c => negb (is_underscore c)) s.

Definition lower (c : ascii) : ascii :=
  let n := N_of_ascii c in
  if (65 <=? n)%N && (n <=? 90)%N then ascii_of_N (n + 32) else c.

Fixpoint span (p : ascii -> bool) (s : list ascii) : list ascii * list ascii :=
  match s with
  | c :: r =>
      if p c then let (a, b) := span p r in (c :: a, b) else ([], s)
  | [] => ([], [])
  end.

Definition chars_eqb (a b : list ascii) : bool :=
  String.eqb (string_of_list_ascii a) (string_of_list_ascii b).

(** Neither white space nor an underscore: [strip] and the removal of
    underscores leave a text of such characters as it is. *)
Definition clean (c : ascii) : bool := negb (is_space c) && negb (is_underscore c).

(** An optional sign. *)
Definition split_sign (s : list ascii) : bool * list ascii :=
  match s with
  | c :: r =>
      if Ascii.eqb c "-" then (true, r)
      else if Ascii.eqb c "+" then (false, r)
      else (false, s)
  | [] => (false, s)
  end.

Fixpoint strip_prefix (p s : list ascii) : option (list ascii) :=
  match p, s with
  | [], _ => Some s
  | a :: p', c :: s' => if Ascii.eqb a c then strip_prefix p' s' else None
  | _ :: _, [] => None
  end.

(** An optional exponent part (E, an optional sign, digits) up to the end
    of the text. *)
Definition parse_exponent (s : list ascii) : option Z :=
  match s with
  | [] => Some 0%Z
  | c :: r =>
      if Ascii.eqb (lower c) "e" then
        let (neg, ds) := split_sign r in
        match ds with
        | [] => None
        | _ :: _ =>
            if forallb is_digit ds then Some (signed neg (N_of_digits ds))
            else None
        end
      else None
  end.

(** An optional fractional part (a dot and a run of digits) and what
    follows it. *)
Definition split_fraction (s : list ascii) : list ascii * list ascii :=
  match s with
  | c :: r => if Ascii.eqb c "." then span is_digit r else ([], s)
  | [] => ([], s)
  end.

(** An infinity, or a NaN with its payload, in any letter case. *)
Definition parse_special (sign : bool) (s : list ascii) : option Decimal :=
  let l := map lower s in
  if chars_eqb l (list_ascii_of_string "inf")
     || chars_eqb l (list_ascii_of_string "infinity")
  then Some (Dinf sign)
  else
    let (signaling, r) :=
      match strip_prefix (list_ascii_of_string "s") l with
      | Some r => (true, r)
      | None => (false, l)
      end in
    match strip_prefix (list_ascii_of_string "nan") r with
    | Some diag =>
        if forallb is_digit diag then Some (Dnan sign signaling (N_of_digits diag))
        else None
    | None => None
    end.

(** The alternatives of the numeric-string grammar after the sign: a
    number with at least one digit, or a special value. *)
Definition parse_unsigned (sign : bool) (s : list ascii) : option Decimal :=
  let (intpart, r1) := span is_digit s in
  let (fracpart, r2) := split_fraction r1 in
  match intpart ++ fracpart with
  | _ :: _ =>
      match parse_exponent r2 with
      | Some e =>
          Some (Dfin sign (N_of_digits (intpart ++ fracpart))
                  (e - Z.of_nat (List.length fracpart)))
      | None => None
      end
  | [] => parse_special sign s
  end.

Definition Decimal_parse (text : list ascii) : option Decimal :=
  let (sign, r) := split_sign (remove_underscores (strip text)) in
  parse_unsigned sign r.

(** The text of a number: digits, an optional dot and digits, an optional
    exponent. *)
Definition number_chars (ip : list ascii) (dot : bool) (fp : list ascii)
    (ex : option Z) : list ascii :=
  ip ++ (if dot then "."%char :: fp else [])
     ++ match ex with Some x => exponent_chars x | None => [] end.

(** The head of what follows a run of digits is no digit. *)
Definition stops_digits (rest : list ascii) : bool :=
  match rest with
  | [] => true
  | c :: _ => negb (is_digit c)
  end.

(** [Decimal(text)] for a [str]: the grammar of the library.  A text
    whose exponent is beyond the exponents the library holds (about 10^18
    in absolute value) denotes here the Decimal with that exponent; the
    library raises InvalidOperation for it. *)
Definition Decimal_new (text : string) : result Decimal :=
  match Decimal_parse (list_ascii_of_string text) with
  | Some d => Ok d
  | None => Raise InvalidOperation
  end.

(** [to_decimal(text)]: the form's conversion, which reports a bad number
    as a [ValueError]. *)
Definition to_decimal (text : string) : result Decimal :=
  match Decimal_new text with
  | Ok d => Ok d
  | Raise InvalidOperation => Raise (ValueError "Amount must be a number.")
  | Raise e => Raise e
  end.

(** ** Decimal arithmetic in the default context *)

Definition prec : Z := 28.

Definition Emax : Z := 999999.

Definition Emin : Z := -999999.

(** [context.Etiny()]: [Emin - prec + 1] *)
Definition Etiny : Z := -1000026.

(** [context.Etop()]: [Emax - prec + 1] *)
Definition Etop : Z := 999972.

(** [len(self._int)] *)
Definition ndigits (c : N) : Z := Z.of_nat (List.length (N_digits c)).

Definition pow10 (k : Z) : N := Z.to_N (10 ^ k).

(** [_fix_nan]: the payload keeps its last [prec] digits. *)
Definition fix_nan (s sg : bool) (p : N) : Decimal :=
  Dnan s sg (p mod pow10 prec).

(** [_fix]: fit a result to the context.  A zero has its exponent brought
    into [Etiny, Emax].  A number whose adjusted exponent is above [Emax]
    signals Overflow, which the context traps.  Otherwise the coefficient
    is rounded, half to even, to [prec] significant digits, or to the
    exponent [Etiny] when the number is subnormal; Subnormal, Underflow,
    Inexact, Rounded and Clamped are signalled without a trap. *)
Definition Decimal_fix (d : Decimal) : result Decimal :=
  match d with
  | Dnan s sg p => Ok (fix_nan s sg p)
  | Dinf _ => Ok d
  | Dfin s c e =>
      if (c =? 0)%N then Ok (Dfin s 0 (Z.min (Z.max e Etiny) Emax))
      else
        let exp_min := (ndigits c + e - prec)%Z in
        if (Etop <? exp_min)%Z then Raise Overflow
        else
          let exp_min := Z.max exp_min Etiny in
          if (e <? exp_min)%Z then
            let k := (exp_min - e)%Z in
            let q := (c / pow10 k)%N in
            let r := (c mod pow10 k)%N in
            let half := (5 * pow10 (k - 1))%N in
            let up := (half <? r)%N || ((r =? half)%N && N.odd q) in
            let q' := if up then (q + 1)%N else q in
            let coeff := if (prec <? ndigits q')%Z then (q' / 10)%N else q' in
            let exp_min := if (prec <? ndigits q')%Z then (exp_min + 1)%Z else exp_min in
            if (Etop <? exp_min)%Z then Raise Overflow
            else Ok (Dfin s coeff exp_min)
          else Ok d
  end.

(** [_check_nans]: a signaling NaN traps, a quiet NaN is the result. *)
Definition check_nans (x y : Decimal) : option (result Decimal) :=
  match x, y with
  | Dnan _ true _, _ => Some (Raise InvalidOperation)
  | _, Dnan _ true _ => Some (Raise InvalidOperation)
  | Dnan s false p, _ => Some (Ok (fix_nan s false p))
  | _, Dnan s false p => Some (Ok (fix_nan s false p))
  | _, _ => None
  end.

(** [Decimal.__add__] *)
Definition Decimal_add (x y : Decimal) : result Decimal :=
  match check_nans x y with
  | Some r => r
  | None =>
      match x, y with
      | Dinf sx, Dinf sy => if Bool.eqb sx sy then Ok x else Raise InvalidOperation
      | Dinf _, _ => Ok x
      | _, Dinf _ => Ok y
      | Dfin sx cx ex, Dfin sy cy ey =>
          let e := Z.min ex ey in
          let v := (signed sx cx * 10 ^ (ex - e) + signed sy cy * 10 ^ (ey - e))%Z in
          if (v =? 0)%Z then Decimal_fix (Dfin (sx && sy) 0 e)
          else Decimal_fix (Dfin (v <? 0)%Z (Z.abs_N v) e)
      | _, _ => Raise InvalidOperation
      end
  end.

(** [copy_negate] *)
Definition Decimal_negate (d : Decimal) : Decimal :=
  match d with
  | Dfin s c e => Dfin (negb s) c e
  | Dinf s => Dinf (negb s)
  | Dnan s sg p => Dnan (negb s) sg p
  end.

(** [Decimal.__sub__] *)
Definition Decimal_sub (x y : Decimal) : result Decimal :=
  match check_nans x y with
  | Some r => r
  | None => Decimal_add x (Decimal_negate y)
  end.

(** The quotient loop of [__truediv__]: an exact quotient sheds trailing
    zeros while its exponent is below the ideal one. *)
Fixpoint shed_zeros (fuel : nat) (coeff : N) (e ideal : Z) : N * Z :=
  match fuel with
  | O => (coeff, e)
  | S f =>
      if (e <? ideal)%Z && (coeff mod 10 =? 0)%N
      then shed_zeros f (coeff / 10) (e + 1) ideal
      else (coeff, e)
  end.

(** [Decimal.__truediv__] *)
Definition Decimal_div (x y : Decimal) : result Decimal :=
  match check_nans x y with
  | Some r => r
  | None =>
      match x, y with
      | Dinf _, Dinf _ => Raise InvalidOperation
      | Dinf sx, Dfin sy _ _ => Ok (Dinf (xorb sx sy))
      | Dfin sx _ _, Dinf sy => Ok (Dfin (xorb sx sy) 0 Etiny)
      | Dfin sx cx ex, Dfin sy cy ey =>
          let sign := xorb sx sy in
          if (cy =? 0)%N then
            if (cx =? 0)%N then Raise InvalidOperation else Raise DivisionByZero
          else if (cx =? 0)%N then Decimal_fix (Dfin sign 0 (ex - ey))
          else
            let shift := (ndigits cy - ndigits cx + prec + 1)%Z in
            let e := (ex - ey - shift)%Z in
            let num := if (0 <=? shift)%Z then (cx * pow10 shift)%N else cx in
            let den := if (0 <=? shift)%Z then cy else (cy * pow10 (- shift))%N in
            let coeff := (num / den)%N in
            let remainder := (num mod den)%N in
            let (coeff', e') :=
              if (remainder =? 0)%N
              then shed_zeros (Z.to_nat (ex - ey - e)) coeff e (ex - ey)
              else (if (coeff mod 5 =? 0)%N then (coeff + 1)%N else coeff, e) in
            Decimal_fix (Dfin sign coeff' e')
      | _, _ => Raise InvalidOperation
      end
  end.

Definition is_nan (d : Decimal) : bool :=
  match d with
  | Dnan _ _ _ => true
  | _ => false
  end.

(** [_cmp] on two numbers that are not NaN *)
Definition Decimal_cmp (x y : Decimal) : comparison :=
  match x, y with
  | Dfin sx cx ex, Dfin sy cy ey =>
      let e := Z.min ex ey in
      (signed sx cx * 10 ^ (ex - e) ?= signed sy cy * 10 ^ (ey - e))%Z
  | _, _ =>
      let inf d :=
        match d with
        | Dinf true => (-1)%Z
        | Dinf false => 1%Z
        | _ => 0%Z
        end in
      (inf x ?= inf y)%Z
  end.

(** [<], [>], [>=] trap on any NaN ([_compare_check_nans]). *)
Definition Decimal_order (test : comparison -> bool) (x y : Decimal) : result bool :=
  if is_nan x || is_nan y then Raise InvalidOperation
  else Ok (test (Decimal_cmp x y)).

Definition is_Gt (c : comparison) : bool := match c with Gt => true | _ => false end.
Definition is_Lt (c : comparison) : bool := match c with Lt => true | _ => false end.
Definition is_Eq (c : comparison) : bool := match c with Eq => true | _ => false end.

Definition Decimal_gt := Decimal_order is_Gt.
Definition Decimal_lt := Decimal_order is_Lt.
Definition Decimal_ge := Decimal_order (fun c => negb (is_Lt c)).

(** [Decimal.__eq__]: a signaling NaN traps, a quiet NaN equals nothing. *)
Definition Decimal_eq (x y : Decimal) : result bool :=
  match check_nans x y with
  | Some (Raise e) => Raise e
  | Some (Ok _) => Ok false
  | None => Ok (is_Eq (Decimal_cmp x y))
  end.

(** ** Binary floating point: the result of [float(d)] *)

Inductive pyfloat : Type :=
| Ffin (neg : bool) (m : N) (e : Z)       (* (-1)^neg * m * 2^e *)
| Finf (neg : bool)
| Fnan.

(** The double nearest to [n / d] (ties to even), [d] positive. *)
Definition float_of_ratio (neg : bool) (n d : N) : pyfloat :=
  if (n =? 0)%N then Ffin neg 0 0
  else
    let zn := Z.of_N n in
    let zd := Z.of_N d in
    let b0 := (Z.log2 zn - Z.log2 zd)%Z in
    let reaches :=
      if (0 <=? b0)%Z then (zd * 2 ^ b0 <=? zn)%Z else (zd <=? zn * 2 ^ (- b0))%Z in
    let b := if reaches then b0 else (b0 - 1)%Z in
    let e2 := Z.max (b - 52) (-1074) in
    let num := if (0 <=? e2)%Z then zn else (zn * 2 ^ (- e2))%Z in
    let den := if (0 <=? e2)%Z then (zd * 2 ^ e2)%Z else zd in
    let q := (num / den)%Z in
    let r := (num mod den)%Z in
    let up := (den <? 2 * r)%Z || ((2 * r =? den)%Z && Z.odd q) in
    let m := if up then (q + 1)%Z else q in
    if (971 <? e2)%Z || ((e2 =? 971)%Z && (m =? 2 ^ 53)%Z) then Finf neg
    else Ffin neg (Z.to_N m) e2.

(** [Decimal.__float__] *)
Definition Decimal_float (d : Decimal) : result pyfloat :=
  match d with
  | Dnan _ true _ => Raise (ValueError "Cannot convert signaling NaN to float")
  | Dnan _ false _ => Ok Fnan
  | Dinf s => Ok (Finf s)
  | Dfin s c e =>
      if (0 <=? e)%Z then Ok (float_of_ratio s (c * pow10 e) 1)
      else Ok (float_of_ratio s c (pow10 (- e)))
  end.

(** [f < z] for a float and an int, compared exactly *)
Definition float_lt_Z (f : pyfloat) (z : Z) : bool :=
  match f with
  | Fnan => false
  | Finf neg => neg
  | Ffin neg m e =>
      let v := signed neg m in
      if (0 <=? e)%Z then (v * 2 ^ e <? z)%Z else (v <? z * 2 ^ (- e))%Z
  end.

(** ** Numbers as the totals hold them: [int] or [Decimal] *)

Inductive number : Type :=
| Int (z : Z)
| Dec (d : Decimal).

Definition to_Decimal (n : number) : Decimal :=
  match n with
  | Int z => Decimal_of_Z z
  | Dec d => d
  end.

(** [a + b]; [int + Decimal] is [Decimal.__radd__], which adds the
    converted int to the Decimal. *)
Definition py_add (a b : number) : result number :=
  match a, b with
  | Int x, Int y => Ok (Int (x + y))
  | Int x, Dec d => r <- Decimal_add d (Decimal_of_Z x) ;; Ok (Dec r)
  | Dec d, _ => r <- Decimal_add d (to_Decimal b) ;; Ok (Dec r)
  end.

(** [a - b] *)
Definition py_sub (a b : number) : result number :=
  match a, b with
  | Int x, Int y => Ok (Int (x - y))
  | _, _ => r <- Decimal_sub (to_Decimal a) (to_Decimal b) ;; Ok (Dec r)
  end.

(** [a / b] with a Decimal divisor *)
Definition py_div (a : number) (b : Decimal) : result Decimal :=
  Decimal_div (to_Decimal a) b.

(** [a > b]; [int > Decimal] is the reflected [Decimal.__lt__]. *)
Definition py_gt (a b : number) : result bool :=
  match a, b with
  | Int x, Int y => Ok (y <? x)%Z
  | Int x, Dec d => Decimal_lt d (Decimal_of_Z x)
  | Dec d, _ => Decimal_gt d (to_Decimal b)
  end.

(** [a >= b] *)
Definition py_ge (a b : number) : result bool :=
  match a, b with
  | Int x, Int y => Ok (y <=? x)%Z
  | Int x, Dec d => Decimal_order (fun c => negb (is_Gt c)) d (Decimal_of_Z x)
  | Dec d, _ => Decimal_ge d (to_Decimal b)
  end.

(** [a == b] *)
Definition py_eq (a b : number) : result bool :=
  match a, b with
  | Int x, Int y => Ok (x =? y)%Z
  | Int x, Dec d => Decimal_eq d (Decimal_of_Z x)
  | Dec d, _ => Decimal_eq d (to_Decimal b)
  end.

(** [max(a, b)]: [b] replaces [a] only when [b > a]. *)
Definition py_max (a b : number) : result number :=
  g <- py_gt b a ;; Ok (if g then b else a).

(** [sum(...)]: a left fold from the int 0. *)
Fixpoint py_sum_from (acc : number) (l : list Decimal) : result number :=
  match l with
  | [] => Ok acc
  | d :: r => acc' <- py_add acc (Dec d) ;; py_sum_from acc' r
  end.

Definition py_sum (l : list Decimal) : result number := py_sum_from (Int 0) l.

(** ** The data classes *)

Definition CATEGORIES : list string :=
  ["Food"; "Rent"; "Entertainment"; "Transport"; "Utilities"; "Savings"; "Other"]%string.

Record Transaction : Type := mkTransaction {
  date : pyval;
  description : pyval;
  amount : Decimal;
  kind : pyval;               (* "Income" or "Expense" *)
  category : pyval            (* chosen from CATEGORIES *)
}.

Record Goal : Type := mkGoal {
  name : pyval;
  target : Decimal
}.

(** [sys.get_int_max_str_digits()]: [int(text)] and [str(int)] raise
    ValueError for more digits, so that no int decoded from a file has
    more. *)
Definition max_str_digits : Z := 4300.

(** [str(v)], which [from_json] hands to [Decimal].  The int of a [JInt] is
    one that [json.loads] gives: it has at most [max_str_digits] digits and
    [str] returns its digits.  The quoting of a
    string inside a list or dict is simplified (single quotes, no
    escapes): such a text starts with a bracket and is no number. *)
Fixpoint py_repr (v : pyval) : string :=
  match v with
  | JNull => "None"
  | JBool true => "True"
  | JBool false => "False"
  | JInt z => string_of_list_ascii (Z_digits z)
  | JFloat r => r
  | JStr s => "'" ++ s ++ "'"
  | JArr l => "[" ++ String.concat ", " (map py_repr l) ++ "]"
  | JObj kv =>
      "{" ++ String.concat ", "
               (map (fun p : string * pyval =>
                       let (k, x) := p in "'" ++ k ++ "': " ++ py_repr x) kv)
          ++ "}"
  end%string.

Definition py_str (v : pyval) : string :=
  match v with
  | JStr s => s
  | _ => py_repr v
  end.

Definition Transaction_to_json (t : Transaction) : pyval :=
  JObj [("date", date t); ("description", description t);
        ("amount", JStr (Decimal_str (amount t))); ("kind", kind t);
        ("category", category t)]%string.

Definition Transaction_from_json (d : pyval) : result Transaction :=
  da <- py_getitem d "date" ;;
  de <- py_getitem d "description" ;;
  am <- py_getitem d "amount" ;;
  a <- Decimal_new (py_str am) ;;
  k <- py_getitem d "kind" ;;
  c <- py_get d "category" (JStr "Other") ;;
  Ok (mkTransaction da de a k c).

Definition Goal_to_json (g : Goal) : pyval :=
  JObj [("name", name g); ("target", JStr (Decimal_str (target g)))]%string.

Definition Goal_from_json (d : pyval) : result Goal :=
  n <- py_getitem d "name" ;;
  tg <- py_getitem d "target" ;;
  t <- Decimal_new (py_str tg) ;;
  Ok (mkGoal n t).

(** ** Lists addressed by a Python index *)

(** The position an index denotes in a list of length [len]: negative
    indices count from the end. *)
Definition position (len : nat) (i : Z) : option nat :=
  if (0 <=? i)%Z then
    if (i <? Z.of_nat len)%Z then Some (Z.to_nat i) else None
  else
    if (- Z.of_nat len <=? i)%Z then Some (Z.to_nat (Z.of_nat len + i)) else None.

(** [l[i] = x] *)
Definition list_setitem {A : Type} (l : list A) (i : Z) (x : A) : result (list A) :=
  match position (List.length l) i with
  | Some n => Ok (firstn n l ++ x :: skipn (S n) l)
  | None => Raise IndexError
  end.

(** The indices that fit a C [ssize_t] of 64 bits. *)
Definition fits_ssize_t (i : Z) : bool :=
  (- 2 ^ 63 <=? i)%Z && (i <? 2 ^ 63)%Z.

(** [l.pop(i)], the popped element dropped.  [pop] converts its argument
    to a [ssize_t] and raises OverflowError for an int that does not fit;
    an index that denotes a position always fits, a list having fewer than
    [2^63] elements, so the conversion is looked at for the other indices
    only. *)
Definition list_pop {A : Type} (l : list A) (i : Z) : result (list A) :=
  match position (List.length l) i with
  | Some n => Ok (firstn n l ++ skipn (S n) l)
  | None => if fits_ssize_t i then Raise IndexError else Raise OverflowError
  end.

(** ** DataManager *)

(** What [json.loads(self.path.read_text())] makes of the data file. *)
Inductive FileContent : Type :=
| Malformed (text : string)         (* json.loads raises JSONDecodeError *)
| JsonText (data : pyval)           (* json.loads returns [data] *)
| Unreadable (e : exn).             (* read_text or json.loads raises [e],
                                       which is no JSONDecodeError:
                                       UnicodeDecodeError for bytes that are
                                       no text, RecursionError for nesting
                                       beyond the interpreter's limit,
                                       ValueError for an integer of more
                                       than 4300 digits, OSError *)

Record World : Type := mkWorld {
  transactions : list Transaction;          (* self.transactions *)
  goals : list Goal;                        (* self.goals *)
  file : option FileContent;                (* the file at self.path, if it exists *)
  writes : nat;                             (* calls of write_text so far *)
  warnings : list (string * string)         (* messagebox.showwarning calls so far *)
}.

Definition set_transactions (l : list Transaction) (w : World) : World :=
  mkWorld l (goals w) (file w) (writes w) (warnings w).

Definition set_goals (l : list Goal) (w : World) : World :=
  mkWorld (transactions w) l (file w) (writes w) (warnings w).

Definition outcome : Type := (result unit * World)%type.

Definition income_total (w : World) : result number :=
  py_sum (map amount (filter (fun t => py_eq_str (kind t) "Income") (transactions w))).

Definition expense_total (w : World) : result number :=
  py_sum (map amount (filter (fun t => py_eq_str (kind t) "Expense") (transactions w))).

Definition balance (w : World) : result number :=
  i <- income_total w ;;
  e <- expense_total w ;;
  py_sub i e.

Definition savings_total (w : World) : result number :=
  b <- balance w ;;
  py_max (Dec (Decimal_of_Z 0)) b.

(** The dict of totals: keys in insertion order. *)
Definition totals_dict : Type := list (string * Decimal).

(** [totals[key]] for a key of any type: a list or dict is unhashable, and
    only a string can equal one of the keys. *)
Definition dict_getitem (totals : totals_dict) (key : pyval) : result Decimal :=
  match key with
  | JStr k =>
      match assoc k totals with
      | Some v => Ok v
      | None => Raise KeyError
      end
  | JArr _ | JObj _ => Raise TypeError
  | _ => Raise KeyError
  end.

(** [totals[k] = v] *)
Fixpoint dict_setitem (totals : totals_dict) (k : string) (v : Decimal) : totals_dict :=
  match totals with
  | [] => [(k, v)]
  | (k', v') :: r =>
      if String.eqb k k' then (k', v) :: r else (k', v') :: dict_setitem r k v
  end.

(** [totals[t.category] += t.amount] *)
Definition add_to_category (totals : totals_dict) (t : Transaction) : result totals_dict :=
  old <- dict_getitem totals (category t) ;;
  new <- Decimal_add old (amount t) ;;
  match category t with
  | JStr k => Ok (dict_setitem totals k new)
  | _ => Raise TypeError
  end.

Fixpoint category_loop (totals : totals_dict) (l : list Transaction) : result totals_dict :=
  match l with
  | [] => Ok totals
  | t :: r =>
      if py_eq_str (kind t) "Expense" then
        totals' <- add_to_category totals t ;;
        category_loop totals' r
      else category_loop totals r
  end.

Definition category_totals (w : World) : result totals_dict :=
  category_loop (map (fun c : string => (c, Decimal_of_Z 0)) CATEGORIES) (transactions w).

(** [save]: the file then holds the text of [obj], which [json.loads]
    decodes to [obj] again. *)
Definition save (w : World) : outcome :=
  let obj :=
    JObj [("transactions", JArr (map Transaction_to_json (transactions w)));
          ("goals", JArr (map Goal_to_json (goals w)))]%string in
  (Ok tt, mkWorld (transactions w) (goals w) (Some (JsonText obj))
            (S (writes w)) (warnings w)).

Definition add_transaction (t : Transaction) (w : World) : outcome :=
  save (set_transactions (transactions w ++ [t]) w).

Definition update_transaction (index : Z) (t : Transaction) (w : World) : outcome :=
  match list_setitem (transactions w) index t with
  | Ok l => save (set_transactions l w)
  | Raise e => (Raise e, w)
  end.

Definition delete_transaction (index : Z) (w : World) : outcome :=
  match list_pop (transactions w) index with
  | Ok l => save (set_transactions l w)
  | Raise e => (Raise e, w)
  end.

Definition add_goal (g : Goal) (w : World) : outcome :=
  save (set_goals (goals w ++ [g]) w).

Definition update_goal (index : Z) (g : Goal) (w : World) : outcome :=
  match list_setitem (goals w) index g with
  | Ok l => save (set_goals l w)
  | Raise e => (Raise e, w)
  end.

Definition delete_goal (index : Z) (w : World) : outcome :=
  match list_pop (goals w) index with
  | Ok l => save (set_goals l w)
  | Raise e => (Raise e, w)
  end.

(** [[from_json(d) for d in data.get(key, [])]] *)
Definition load_list {A : Type} (from_json : pyval -> result A) (data : pyval)
    (key : string) : result (list A) :=
  v <- py_get data key (JArr []) ;;
  l <- py_iter v ;;
  traverse from_json l.

Definition load (w : World) : outcome :=
  match file w with
  | None => (Ok tt, w)
  | Some (Unreadable e) => (Raise e, w)
  | Some (Malformed _) =>
      (Ok tt, mkWorld (transactions w) (goals w) (file w) (writes w)
                (warnings w ++ [("Warning", "Could not read data file.")]%string))
  | Some (JsonText loaded) =>
      let data :=
        match loaded with
        | JArr _ => JObj [("transactions", loaded); ("goals", JArr [])]%string
        | _ => loaded
        end in
      match load_list Transaction_from_json data "transactions" with
      | Raise e => (Raise e, w)
      | Ok ts =>
          let w' := set_transactions ts w in
          match load_list Goal_from_json data "goals" with
          | Raise e => (Raise e, w')
          | Ok gs => (Ok tt, set_goals gs w')
          end
      end
  end.

(** [DataManager(path)]: two empty lists, then [load]. *)
Definition DataManager_init (f : option FileContent) : outcome :=
  load (mkWorld [] [] f 0 []).

(** ** Goal progress, as [refresh_goals_table] computes it *)

Inductive pyreal : Type :=
| RInt (z : Z)
| RFloat (f : pyfloat).

(** [min(1, x)]: [x] replaces 1 only when [x < 1]. *)
Definition py_min_1 (x : pyreal) : pyreal :=
  match x with
  | RInt z => if (z <? 1)%Z then x else RInt 1
  | RFloat f => if float_lt_Z f 1 then x else RInt 1
  end.

(** [pct = min(1, float(bal / g.target) if g.target > 0 else 1)] *)
Definition goal_pct (bal : number) (g : Goal) : result pyreal :=
  positive <- py_gt (Dec (target g)) (Int 0) ;;
  x <- (if positive : bool
        then q <- py_div bal (target g) ;; f <- Decimal_float q ;; Ok (RFloat f)
        else Ok (RInt 1)) ;;
  Ok (py_min_1 x).

Definition goal_progress (w : World) (g : Goal) : result pyreal :=
  bal <- balance w ;;
  goal_pct bal g.

(** [x * n] for the progress [x] and a small int [n] (here 20, which a
    float holds exactly): an int product, or the float nearest to the
    product. *)
Definition py_mul (x : pyreal) (n : Z) : pyreal :=
  match x with
  | RInt z => RInt (z * n)
  | RFloat Fnan => RFloat Fnan
  | RFloat (Finf neg) =>
      RFloat (if (n =? 0)%Z then Fnan else Finf (xorb neg (n <? 0)%Z))
  | RFloat (Ffin neg m e) =>
      let s := xorb neg (n <? 0)%Z in
      RFloat (if (0 <=? e)%Z
              then float_of_ratio s (m * Z.abs_N n * Z.to_N (2 ^ e)) 1
              else float_of_ratio s (m * Z.abs_N n) (Z.to_N (2 ^ (- e))))
  end.

(** [math.ceil(x)] *)
Definition math_ceil (x : pyreal) : result Z :=
  match x with
  | RInt z => Ok z
  | RFloat Fnan => Raise (ValueError "cannot convert float NaN to integer")
  | RFloat (Finf _) => Raise OverflowError
  | RFloat (Ffin neg m e) =>
      let v := signed neg m in
      if (0 <=? e)%Z then Ok (v * 2 ^ e)%Z else Ok (- ((- v) / 2 ^ (- e)))%Z
  end.

Definition bar_len : Z := 20.

(** The code points of the two characters of the bar: the full block
    U+2588 and the space. *)
Definition full_block : N := 9608.

Definition blank : N := 32.

(** [bar = "\u2588" * filled + " " * (bar_len - filled)] with
    [filled = math.ceil(pct * bar_len)], as the list of its code points; a
    string repeated a negative number of times is empty. *)
Definition goal_bar (pct : pyreal) : result (list N) :=
  filled <- math_ceil (py_mul pct bar_len) ;;
  Ok (repeat full_block (Z.to_nat filled) ++ repeat blank (Z.to_nat (bar_len - filled))).

(** [f <= z] and [z <= f] for a float and an int, compared exactly *)
Definition float_le_Z (f : pyfloat) (z : Z) : bool :=
  match f with
  | Fnan => false
  | Finf neg => neg
  | Ffin neg m e =>
      let v := signed neg m in
      if (0 <=? e)%Z then (v * 2 ^ e <=? z)%Z else (v <=? z * 2 ^ (- e))%Z
  end.

Definition Z_le_float (z : Z) (f : pyfloat) : bool :=
  match f with
  | Fnan => false
  | Finf neg => negb neg
  | Ffin neg m e =>
      let v := signed neg m in
      if (0 <=? e)%Z then (z <=? v * 2 ^ e)%Z else (z * 2 ^ (- e) <=? v)%Z
  end.

Definition at_most_1 (x : pyreal) : bool :=
  match x with
  | RInt z => (z <=? 1)%Z
  | RFloat f => float_le_Z f 1
  end.

Definition at_least_0 (x : pyreal) : bool :=
  match x with
  | RInt z => (0 <=? z)%Z
  | RFloat f => Z_le_float 0 f
  end.

(** The figure lies in the interval [0, 1]. *)
Definition in_unit_interval (x : pyreal) : bool := at_least_0 x && at_most_1 x.

(** The world after a successful mutation: the new lists, written out. *)
Definition saved (ts : list Transaction) (gs : list Goal) (w : World) : World :=
  mkWorld ts gs
    (Some (JsonText
             (JObj [("transactions", JArr (map Transaction_to_json ts));
                    ("goals", JArr (map Goal_to_json gs))]%string)))
    (S (writes w)) (warnings w).

(** ** Sequences of mutations *)

Inductive op : Type :=
| AddTransaction (t : Transaction)
| UpdateTransaction (index : Z) (t : Transaction)
| DeleteTransaction (index : Z)
| AddGoal (g : Goal)
| UpdateGoal (index : Z) (g : Goal)
| DeleteGoal (index : Z).

Definition apply_op (o : op) (w : World) : outcome :=
  match o with
  | AddTransaction t => add_transaction t w
  | UpdateTransaction i t => update_transaction i t w
  | DeleteTransaction i => delete_transaction i w
  | AddGoal g => add_goal g w
  | UpdateGoal i g => update_goal i g w
  | DeleteGoal i => delete_goal i w
  end.

(** The calls are made one after the other; a call that raises leaves the
    world as it was and the next call is made all the same. *)
Fixpoint run (ops : list op) (w : World) : World :=
  match ops with
  | [] => w
  | o :: r => run r (snd (apply_op o w))
  end.

(** ** The invariants of the data model *)

Definition is_finite (d : Decimal) : bool :=
  match d with
  | Dfin _ _ _ => true
  | _ => false
  end.

Definition finite_number (n : number) : bool :=
  match n with
  | Int _ => true
  | Dec d => is_finite d
  end.

(** What arithmetic on finite numbers gives: a finite number, or the
    Overflow that the context traps. *)
Definition finite_or_overflow (r : result Decimal) : Prop :=
  r = Raise Overflow \/ exists z, r = Ok z /\ is_finite z = true.

Definition number_or_overflow (r : result number) : Prop :=
  r = Raise Overflow \/ exists n, r = Ok n /\ finite_number n = true.

(** Every amount of the ledger is a finite number. *)
Definition finite_ledger (w : World) : bool :=
  forallb (fun t => is_finite (amount t)) (transactions w).

Definition finite_op (o : op) : bool :=
  match o with
  | AddTransaction t | UpdateTransaction _ t => is_finite (amount t)
  | _ => true
  end.

Definition in_categories (v : pyval) : bool :=
  match v with
  | JStr c => existsb (String.eqb c) CATEGORIES
  | _ => false
  end.

Definition is_expense (t : Transaction) : bool := py_eq_str (kind t) "Expense".

(** Every expense carries a category of the fixed enumeration. *)
Definition expenses_categorised (w : World) : bool :=
  forallb (fun t => if is_expense t then in_categories (category t) else true)
    (transactions w).

Definition expense_amounts (w : World) : list Decimal :=
  map amount (filter is_expense (transactions w)).

(** The value of a finite Decimal in units of [10^E]. *)
Definition scaled (E : Z) (d : Decimal) : Z :=
  match d with
  | Dfin s c e => (signed s c * 10 ^ (e - E))%Z
  | _ => 0%Z
  end.

Definition abs_total (E : Z) (l : list Decimal) : Z :=
  fold_right (fun d acc => (Z.abs (scaled E d) + acc)%Z) 0%Z l.

Definition total (E : Z) (l : list Decimal) : Z :=
  fold_right (fun d acc => (scaled E d + acc)%Z) 0%Z l.

(** A finite Decimal whose exponent lies between [E] and [Etop]: a
    multiple of [10^E] that, with at most [prec] digits, is not above the
    largest number of the context. *)
Definition exponent_from (E : Z) (d : Decimal) : bool :=
  match d with
  | Dfin _ _ e => (E <=? e)%Z && (e <=? Etop)%Z
  | _ => false
  end.

Definition number_from (E : Z) (n : number) : bool :=
  match n with
  | Int _ => true
  | Dec d => exponent_from E d
  end.

Definition num_scaled (E : Z) (n : number) : Z := scaled E (to_Decimal n).

(** The amounts are multiples of [10^E], [Etiny <= E <= 0], with
    exponents up to [Etop], whose absolute values add up to less than
    [10^prec] units of [10^E]: no sum of them needs rounding, none is
    subnormal and none overflows. *)
Definition within_precision (E : Z) (l : list Decimal) : bool :=
  (Etiny <=? E)%Z && (E <=? 0)%Z && forallb (exponent_from E) l
  && (abs_total E l <? 10 ^ prec)%Z.

(** ** The shape of a data file *)

(** The two record lists [load] reads from decoded data. *)
Definition file_records (data : pyval) : option (list pyval * list pyval) :=
  match data with
  | JArr ts => Some (ts, [])
  | JObj kv =>
      match assoc "transactions"%string kv, assoc "goals"%string kv with
      | Some (JArr ts), Some (JArr gs) => Some (ts, gs)
      | Some (JArr ts), None => Some (ts, [])
      | None, Some (JArr gs) => Some ([], gs)
      | None, None => Some ([], [])
      | _, _ => None
      end
  | _ => None
  end.

Definition has_fields (keys : list string) (d : pyval) : bool :=
  match d with
  | JObj kv =>
      forallb (fun k => match assoc k kv with Some _ => true | None => false end) keys
  | _ => false
  end.

Definition transaction_shaped : pyval -> bool :=
  has_fields ["date"; "description"; "amount"; "kind"]%string.

Definition goal_shaped : pyval -> bool := has_fields ["name"; "target"]%string.

(** The record's monetary field holds a text that is no decimal number. *)
Definition bad_money (key : string) (d : pyval) : bool :=
  match py_getitem d key with
  | Ok (JStr s) =>
      match Decimal_new s with
      | Ok _ => false
      | Raise _ => true
      end
  | _ => false
  end.

(** The exceptions of [from_json]: TypeError for a value that cannot be
    indexed by a key, KeyError for a missing key, InvalidOperation from
    [Decimal]. *)
Definition reading_error (e : exn) : Prop :=
  e = TypeError \/ e = KeyError \/ e = InvalidOperation.

(** ** Sample data *)

Definition income_1000 : Transaction :=
  mkTransaction (JStr "01/15/2025 09:30") (JStr "Salary")
    (Dfin false 100000 (-2)) (JStr "Income") (JStr "Other").

Definition food_200_50 : Transaction :=
  mkTransaction (JStr "01/16/2025 18:05") (JStr "Groceries")
    (Dfin false 20050 (-2)) (JStr "Expense") (JStr "Food").

Definition holiday_goal : Goal := mkGoal (JStr "Holiday") (Dfin false 100000 (-2)).

Definition sample_world : World :=
  mkWorld [income_1000; food_200_50] [holiday_goal] None 0 [].

(** A record whose category is none of [CATEGORIES]. *)
Definition pets_record : pyval :=
  JObj [("date", JStr "01/17/2025 12:00"); ("description", JStr "Vet");
        ("amount", JStr "12.00"); ("kind", JStr "Expense");
        ("category", JStr "Pets")]%string.

(** A record whose amount is no number. *)
Definition twelve_record : pyval :=
  JObj [("date", JStr "01/17/2025 12:00"); ("description", JStr "Vet");
        ("amount", JStr "twelve"); ("kind", JStr "Expense");
        ("category", JStr "Other")]%string.

(** A ledger 50 in the red and a goal of 100. *)
Definition spend_50 : Transaction :=
  mkTransaction (JStr "02/01/2025 08:00") (JStr "Taxi")
    (Dfin false 50 0) (JStr "Expense") (JStr "Transport").

Definition goal_100 : Goal := mkGoal (JStr "Bike") (Dfin false 100 0).

Definition overdrawn_world : World := mkWorld [spend_50] [goal_100] None 0 [].

(** A ledger with one expense whose category is none of [CATEGORIES]. *)
Definition pets_world : World :=
  mkWorld [mkTransaction (JStr "01/17/2025 12:00") (JStr "Vet")
             (Dfin false 1200 (-2)) (JStr "Expense") (JStr "Pets")]
    [] None 0 [].

(** An income whose amount is the NaN that [to_decimal("NaN")] gives. *)
Definition nan_income : Transaction :=
  mkTransaction (JStr "04/01/2025 08:00") (JStr "Refund")
    (Dnan false false 0) (JStr "Income") (JStr "Other").

(** Expenses of 1E+28, 4 and 4: a total of 29 digits. *)
Definition food_1E28 : Transaction :=
  mkTransaction (JStr "03/01/2025 08:00") (JStr "Banquet")
    (Dfin false 1 28) (JStr "Expense") (JStr "Food").

Definition rent_4 : Transaction :=
  mkTransaction (JStr "03/02/2025 08:00") (JStr "Rent")
    (Dfin false 4 0) (JStr "Expense") (JStr "Rent").

Definition huge_world : World := mkWorld [food_1E28; rent_4; rent_4] [] None 0 [].

(** ** Restarting the program *)

(** A new DataManager on the file of [w] starts with the lists of [w]. *)
Definition recovers (w : World) : Prop :=
  fst (DataManager_init (file w)) = Ok tt
  /\ transactions (snd (DataManager_init (file w))) = transactions w
  /\ goals (snd (DataManager_init (file w))) = goals w.

(** Neither a list nor an object. *)
Definition scalar (v : pyval) : bool :=
  match v with
  | JArr _ | JObj _ => false
  | _ => true
  end.



(** The field a record object holds under [key], when it has one. *)
Definition field (key : string) (d : pyval) : option pyval :=
  match d with
  | JObj kv => assoc key kv
  | _ => None
  end.

Definition is_object (d : pyval) : bool :=
  match d with
  | JObj _ => true
  | _ => false
  end.

(** A decoded value that is neither a text nor a number. *)
Definition no_number (v : pyval) : bool :=
  match v with
  | JNull | JBool _ | JArr _ | JObj _ => true
  | _ => false
  end.


(** ** Sums by category *)

(** A left fold of [+] over Decimals from [acc]. *)
Fixpoint Decimal_sum_from (acc : Decimal) (l : list Decimal) : result Decimal :=
  match l with
  | [] => Ok acc
  | d :: r => acc' <- Decimal_add acc d ;; Decimal_sum_from acc' r
  end.

(** The amounts of the expenses of category [c], in the order of the
    ledger. *)
Definition expenses_of (c : string) (l : list Transaction) : list Decimal :=
  map amount (filter (fun t => is_expense t && py_eq_str (category t) c) l).

Definition is_income (t : Transaction) : bool := py_eq_str (kind t) "Income".

Definition income_amounts (w : World) : list Decimal :=
  map amount (filter is_income (transactions w)).


(** The two signals of the arithmetic that the context traps besides
    DivisionByZero. *)
Definition trapped (e : exn) : Prop := e = InvalidOperation \/ e = Overflow.

(** A total that a NaN has reached: the sum trapped, or it is a NaN. *)
Definition poisoned (r : result number) : Prop :=
  (exists e, r = Raise e /\ trapped e) \/ exists d, r = Ok (Dec d) /\ is_nan d = true.

(** A ledger with one income that is a quiet NaN. *)
Definition nan_world : World := mkWorld [income_1000; nan_income] [] None 0 [].

(** A Decimal that is at least 1: a positive coefficient [c] with
    [c * 10^e >= 1], or the positive infinity. *)
Definition at_least_one (d : Decimal) : Prop :=
  match d with
  | Dfin false c e => (1 <= Z.of_N c)%Z /\ (10 ^ (- e) <= Z.of_N c)%Z
  | Dinf false => True
  | _ => False
  end.

(** A quotient that is at least 1, unless the division overflows. *)
Definition at_least_one_or_overflow (r : result Decimal) : Prop :=
  r = Raise Overflow \/ exists d, r = Ok d /\ at_least_one d.

(** * Properties *)

(** ** Mutators and the two sequences *)

Lemma save_keeps_lists (w : World) :
  transactions (snd (save w)) = transactions w /\ goals (snd (save w)) = goals w.
Proof. split; reflexivity. Qed.

(** C10: every transaction mutator leaves the goals as they are and every
    goal mutator leaves the transactions as they are, whatever the
    starting ledger and the arguments, whether the call succeeds or
    raises. *)
Theorem mutators_frame (w : World) (t : Transaction) (g : Goal) (i : Z) :
  goals (snd (add_transaction t w)) = goals w
  /\ goals (snd (update_transaction i t w)) = goals w
  /\ goals (snd (delete_transaction i w)) = goals w
  /\ transactions (snd (add_goal g w)) = transactions w
  /\ transactions (snd (update_goal i g w)) = transactions w
  /\ transactions (snd (delete_goal i w)) = transactions w.
Proof.
  unfold add_transaction, update_transaction, delete_transaction,
    add_goal, update_goal, delete_goal.
  repeat split; try reflexivity.
  - destruct (list_setitem (transactions w) i t); reflexivity.
  - destruct (list_pop (transactions w) i); reflexivity.
  - destruct (list_setitem (goals w) i g); reflexivity.
  - destruct (list_pop (goals w) i); reflexivity.
Qed.

(** ** Positions *)

Lemma position_out_of_range (len : nat) (i : Z) :
  (i < - Z.of_nat len \/ Z.of_nat len <= i)%Z -> position len i = None.
Proof.
  intros H. unfold position.
  destruct (Z.leb_spec 0 i).
  - destruct (Z.ltb_spec i (Z.of_nat len)); [lia | reflexivity].
  - destruct (Z.leb_spec (- Z.of_nat len) i); [lia | reflexivity].
Qed.

Lemma position_in_range (len : nat) (i : Z) :
  (- Z.of_nat len <= i < Z.of_nat len)%Z ->
  position len i = Some (Z.to_nat (i mod Z.of_nat len)).
Proof.
  intros H. unfold position.
  destruct (Z.leb_spec 0 i).
  - destruct (Z.ltb_spec i (Z.of_nat len)); [| lia].
    rewrite Z.mod_small by lia. reflexivity.
  - destruct (Z.leb_spec (- Z.of_nat len) i); [| lia].
    replace (i mod Z.of_nat len)%Z with (Z.of_nat len + i)%Z; [reflexivity |].
    apply Z.mod_unique with (q := (-1)%Z); lia.
Qed.

(** C3, as the code has it: an index outside [-len, len) makes update and
    delete raise with the world untouched (same lists, same file, no
    write); the exception is IndexError, except that delete raises
    OverflowError for an index that does not fit a 64-bit [ssize_t]
    (below [-2^63] or from [2^63] on).  An index inside [-len, len),
    negative ones counting from the end, replaces or removes the element at
    position [index mod len] and writes the file once. *)
Theorem index_contract (w : World) (i : Z) (t : Transaction) (g : Goal) :
  let nt := Z.of_nat (List.length (transactions w)) in
  let ng := Z.of_nat (List.length (goals w)) in
  ((i < - nt \/ nt <= i)%Z ->
     update_transaction i t w = (Raise IndexError, w)
     /\ delete_transaction i w
        = (Raise (if fits_ssize_t i then IndexError else OverflowError), w))
  /\ ((i < - ng \/ ng <= i)%Z ->
     update_goal i g w = (Raise IndexError, w)
     /\ delete_goal i w
        = (Raise (if fits_ssize_t i then IndexError else OverflowError), w))
  /\ ((- nt <= i < nt)%Z ->
     let p := Z.to_nat (i mod nt) in
     update_transaction i t w =
       (Ok tt, saved (firstn p (transactions w) ++ t :: skipn (S p) (transactions w))
                 (goals w) w)
     /\ delete_transaction i w =
       (Ok tt, saved (firstn p (transactions w) ++ skipn (S p) (transactions w))
                 (goals w) w))
  /\ ((- ng <= i < ng)%Z ->
     let p := Z.to_nat (i mod ng) in
     update_goal i g w =
       (Ok tt, saved (transactions w)
                 (firstn p (goals w) ++ g :: skipn (S p) (goals w)) w)
     /\ delete_goal i w =
       (Ok tt, saved (transactions w)
                 (firstn p (goals w) ++ skipn (S p) (goals w)) w)).
Proof.
  intros nt ng. repeat split.
  - unfold update_transaction, list_setitem.
    rewrite position_out_of_range by assumption. reflexivity.
  - unfold delete_transaction, list_pop.
    rewrite position_out_of_range by assumption.
    destruct (fits_ssize_t i); reflexivity.
  - unfold update_goal, list_setitem.
    rewrite position_out_of_range by assumption. reflexivity.
  - unfold delete_goal, list_pop.
    rewrite position_out_of_range by assumption.
    destruct (fits_ssize_t i); reflexivity.
  - unfold update_transaction, list_setitem.
    rewrite position_in_range by assumption. reflexivity.
  - unfold delete_transaction, list_pop.
    rewrite position_in_range by assumption. reflexivity.
  - unfold update_goal, list_setitem.
    rewrite position_in_range by assumption. reflexivity.
  - unfold delete_goal, list_pop.
    rewrite position_in_range by assumption. reflexivity.
Qed.

(** C3 as the specification states it fails at index -1 of a ledger with
    one transaction and one goal: -1 is below every position, yet update and
    delete succeed on the last element and write the file. *)
Lemma negative_index_reaches_last_element :
  let w := mkWorld [food_200_50] [holiday_goal] None 0 [] in
  (-1 < 0)%Z
  /\ update_transaction (-1) income_1000 w = (Ok tt, saved [income_1000] [holiday_goal] w)
  /\ delete_transaction (-1) w = (Ok tt, saved [] [holiday_goal] w)
  /\ delete_goal (-1) w = (Ok tt, saved [food_200_50] [] w)
  /\ writes (snd (delete_transaction (-1) w)) = 1%nat
  /\ fst (update_transaction (-1) income_1000 w) <> Raise IndexError.
Proof.
  cbv zeta. repeat split; try reflexivity; discriminate.
Qed.

(** The contract at index 2 of two transactions, at index -1 of one goal
    and at index [2^63]. *)
Lemma index_contract_witness :
  update_transaction 2 food_200_50 sample_world = (Raise IndexError, sample_world)
  /\ delete_goal (-1) sample_world
     = (Ok tt, saved [income_1000; food_200_50] [] sample_world)
  /\ delete_transaction (2 ^ 63) sample_world = (Raise OverflowError, sample_world).
Proof.
  split; [| split].
  - refine (proj1 (proj1 (index_contract sample_world 2 food_200_50 holiday_goal) _)).
    right. simpl. lia.
  - refine (proj2 (proj2 (proj2 (proj2
              (index_contract sample_world (-1) food_200_50 holiday_goal))) _)).
    simpl. lia.
  - refine (proj2 (proj1 (index_contract sample_world (2 ^ 63) food_200_50 holiday_goal) _)).
    right. simpl. lia.
Defined.

(** ** Loading *)

(** C6: the except clause of [load] catches JSONDecodeError alone.  A
    data file on which [json.loads] raises it makes the constructor show
    the warning and return with an empty ledger, the file left as it is
    and nothing written; with no data file the ledger is empty and no
    warning is shown.  But a file that cannot be read or decoded for
    another reason (UnicodeDecodeError for bytes that are no text,
    RecursionError for brackets nested beyond the interpreter's limit,
    ValueError for an integer of more than 4300 digits) makes [load], and
    with it the constructor, raise that exception: no warning is shown and
    there is no ledger to go on with. *)
Theorem load_unreadable_or_absent (text : string) (e : exn) :
  DataManager_init (Some (Malformed text))
    = (Ok tt, mkWorld [] [] (Some (Malformed text)) 0
                [("Warning", "Could not read data file.")]%string)
  /\ DataManager_init None = (Ok tt, mkWorld [] [] None 0 [])
  /\ (forall ts gs n ws,
        load (mkWorld ts gs (Some (Malformed text)) n ws)
        = (Ok tt, mkWorld ts gs (Some (Malformed text)) n
                    (ws ++ [("Warning", "Could not read data file.")]%string)))
  /\ DataManager_init (Some (Unreadable e))
     = (Raise e, mkWorld [] [] (Some (Unreadable e)) 0 [])
  /\ (forall ts gs n ws,
        load (mkWorld ts gs (Some (Unreadable e)) n ws)
        = (Raise e, mkWorld ts gs (Some (Unreadable e)) n ws)).
Proof. repeat split. Qed.

Lemma traverse_Forall2 {A B : Type} (f : A -> result B) (l : list A) (r : list B) :
  traverse f l = Ok r -> Forall2 (fun x y => f x = Ok y) l r.
Proof.
  revert r. induction l as [| x l IH]; simpl; intros r H.
  - inversion H. constructor.
  - destruct (f x) as [y |] eqn:Hx; simpl in H; [| discriminate].
    destruct (traverse f l) as [ys |]; simpl in H; [| discriminate].
    inversion H. subst r. constructor; auto.
Qed.

(** C8: a file that decodes to a bare list of transaction records is read
    as the object with that list under "transactions" and no goals: the
    ledger holds the transactions of the records, one for one and in
    order, and no goal. *)
Theorem load_legacy_list (records : list pyval) (ts : list Transaction) :
  traverse Transaction_from_json records = Ok ts ->
  DataManager_init (Some (JsonText (JArr records)))
    = (Ok tt, mkWorld ts [] (Some (JsonText (JArr records))) 0 [])
  /\ DataManager_init
       (Some (JsonText (JObj [("transactions", JArr records);
                              ("goals", JArr [])]%string)))
     = (Ok tt, mkWorld ts []
                 (Some (JsonText (JObj [("transactions", JArr records);
                                        ("goals", JArr [])]%string))) 0 [])
  /\ Forall2 (fun d t => Transaction_from_json d = Ok t) records ts.
Proof.
  intros H. split; [| split].
  - unfold DataManager_init, load, load_list. simpl. rewrite H. reflexivity.
  - unfold DataManager_init, load, load_list. simpl. rewrite H. reflexivity.
  - apply traverse_Forall2. exact H.
Qed.

(** A bare list of the two sample records. *)
Lemma load_legacy_list_witness :
  DataManager_init
    (Some (JsonText (JArr [Transaction_to_json income_1000;
                           Transaction_to_json food_200_50])))
  = (Ok tt, mkWorld [income_1000; food_200_50] []
              (Some (JsonText (JArr [Transaction_to_json income_1000;
                                     Transaction_to_json food_200_50]))) 0 []).
Proof.
  refine (proj1 (load_legacy_list
                   [Transaction_to_json income_1000; Transaction_to_json food_200_50]
                   [income_1000; food_200_50] _)).
  reflexivity.
Defined.

(** A record without a category is read with the category "Other". *)
Lemma missing_category_defaults_to_Other :
  Transaction_from_json
    (JObj [("date", JStr "01/17/2025 12:00"); ("description", JStr "Vet");
           ("amount", JStr "12.00"); ("kind", JStr "Expense")]%string)
  = Ok (mkTransaction (JStr "01/17/2025 12:00") (JStr "Vet") (Dfin false 1200 (-2))
          (JStr "Expense") (JStr "Other")).
Proof. reflexivity. Qed.

(** C2, evaluated where the code departs from it: the category "Pets" is
    none of the seven, [from_json] keeps it as it is, the constructor
    loads the record, and [category_totals] then raises KeyError. *)
Lemma unknown_category_is_kept :
  in_categories (JStr "Pets") = false
  /\ Transaction_from_json pets_record
     = Ok (mkTransaction (JStr "01/17/2025 12:00") (JStr "Vet") (Dfin false 1200 (-2))
             (JStr "Expense") (JStr "Pets"))
  /\ fst (DataManager_init (Some (JsonText (JArr [pets_record])))) = Ok tt
  /\ map category
       (transactions (snd (DataManager_init (Some (JsonText (JArr [pets_record]))))))
     = [JStr "Pets"]
  /\ category_totals (snd (DataManager_init (Some (JsonText (JArr [pets_record])))))
     = Raise KeyError.
Proof. repeat split. Qed.

(** ** Monetary texts that are no numbers *)

Lemma Decimal_new_raises (s : string) (e : exn) :
  Decimal_new s = Raise e -> e = InvalidOperation.
Proof.
  unfold Decimal_new. destruct (Decimal_parse _); intros H; inversion H; reflexivity.
Qed.

Lemma Decimal_new_cases (s : string) :
  (exists d, Decimal_new s = Ok d) \/ Decimal_new s = Raise InvalidOperation.
Proof.
  unfold Decimal_new. destruct (Decimal_parse _); [left; eauto | right; reflexivity].
Qed.

(** What the form reports as a ValueError is what [from_json] lets through
    as InvalidOperation. *)
Lemma to_decimal_ValueError (s : string) :
  Decimal_new s = Raise InvalidOperation
  <-> to_decimal s = Raise (ValueError "Amount must be a number.").
Proof.
  unfold to_decimal. split; intros H.
  - rewrite H. reflexivity.
  - destruct (Decimal_new_cases s) as [[d Hd] | Hd]; [| exact Hd].
    rewrite Hd in H. discriminate.
Qed.

Lemma Transaction_from_json_shaped (d : pyval) :
  transaction_shaped d = true ->
  ((exists t, Transaction_from_json d = Ok t)
   \/ Transaction_from_json d = Raise InvalidOperation)
  /\ (bad_money "amount" d = true -> Transaction_from_json d = Raise InvalidOperation).
Proof.
  unfold transaction_shaped, has_fields, bad_money, Transaction_from_json.
  destruct d as [| | | | | | kv]; try discriminate. simpl.
  destruct (assoc "date"%string kv) as [da |]; [| discriminate].
  destruct (assoc "description"%string kv) as [de |]; [| discriminate].
  destruct (assoc "amount"%string kv) as [am |]; [| discriminate].
  destruct (assoc "kind"%string kv) as [k |]; [| discriminate].
  intros _. simpl.
  destruct (Decimal_new_cases (py_str am)) as [[a Ha] | Ha].
  - split.
    + left. rewrite Ha. simpl.
      destruct (assoc "category"%string kv); simpl; eauto.
    + destruct am; try discriminate. simpl in Ha. rewrite Ha. discriminate.
  - rewrite Ha. simpl. split; [right |]; reflexivity.
Qed.

Lemma Goal_from_json_shaped (d : pyval) :
  goal_shaped d = true ->
  ((exists g, Goal_from_json d = Ok g) \/ Goal_from_json d = Raise InvalidOperation)
  /\ (bad_money "target" d = true -> Goal_from_json d = Raise InvalidOperation).
Proof.
  unfold goal_shaped, has_fields, bad_money, Goal_from_json.
  destruct d as [| | | | | | kv]; try discriminate. simpl.
  destruct (assoc "name"%string kv) as [n |]; [| discriminate].
  destruct (assoc "target"%string kv) as [tg |]; [| discriminate].
  intros _. simpl.
  destruct (Decimal_new_cases (py_str tg)) as [[a Ha] | Ha].
  - split.
    + left. rewrite Ha. simpl. eauto.
    + destruct tg; try discriminate. simpl in Ha. rewrite Ha. discriminate.
  - rewrite Ha. simpl. split; [right |]; reflexivity.
Qed.

Section TraverseShaped.
Context {A : Type} (f : pyval -> result A) (shaped bad : pyval -> bool).
Hypothesis f_shaped : forall d, shaped d = true ->
  ((exists x, f d = Ok x) \/ f d = Raise InvalidOperation)
  /\ (bad d = true -> f d = Raise InvalidOperation).

Lemma traverse_shaped (l : list pyval) :
  forallb shaped l = true ->
  ((exists r, traverse f l = Ok r) \/ traverse f l = Raise InvalidOperation)
  /\ (existsb bad l = true -> traverse f l = Raise InvalidOperation).
Proof.
  induction l as [| d l IH]; simpl; intros H.
  - split; [left; eauto | discriminate].
  - apply andb_true_iff in H. destruct H as [Hd Hl].
    destruct (f_shaped d Hd) as [[[x Hx] | Hx] Hbad]; destruct (IH Hl) as [[[r Hr] | Hr] Hex].
    + rewrite Hx, Hr. simpl. split; [left; eauto |].
      intros Hb. apply orb_true_iff in Hb. destruct Hb as [Hb | Hb].
      * rewrite (Hbad Hb) in Hx. discriminate.
      * rewrite (Hex Hb) in Hr. discriminate.
    + rewrite Hx, Hr. simpl. split; [right |]; reflexivity.
    + rewrite Hx. simpl. split; [right |]; reflexivity.
    + rewrite Hx. simpl. split; [right |]; reflexivity.
Qed.
End TraverseShaped.

Lemma load_list_records {A B : Type} (f : pyval -> result A) (g : pyval -> result B)
    (loaded : pyval) (ts gs : list pyval) :
  file_records loaded = Some (ts, gs) ->
  let data :=
    match loaded with
    | JArr _ => JObj [("transactions", loaded); ("goals", JArr [])]%string
    | _ => loaded
    end in
  load_list f data "transactions" = traverse f ts
  /\ load_list g data "goals" = traverse g gs.
Proof.
  unfold file_records, load_list.
  destruct loaded as [| | | | | l | kv]; try discriminate.
  - intros H. inversion H. subst. split; reflexivity.
  - simpl.
    destruct (assoc "transactions"%string kv) as [[| | | | | l1 |] |];
      destruct (assoc "goals"%string kv) as [[| | | | | l2 |] |];
      try discriminate; intros H; inversion H; subst; split; reflexivity.
Qed.

Lemma py_getitem_raises (d : pyval) (key : string) (e : exn) :
  py_getitem d key = Raise e -> e = TypeError \/ e = KeyError.
Proof.
  unfold py_getitem. destruct d as [| | | | | | kv]; try (intros H; left; congruence).
  destruct (assoc key kv); intros H; [discriminate H | right; congruence].
Qed.

Lemma py_get_raises (d : pyval) (key : string) (v : pyval) (e : exn) :
  py_getitem d key <> Raise TypeError -> py_get d key v <> Raise e.
Proof.
  unfold py_getitem, py_get. destruct d as [| | | | | | kv];
    try (intros H; contradiction H; reflexivity).
  intros _. destruct (assoc key kv); discriminate.
Qed.

Lemma Transaction_from_json_raises (d : pyval) (e : exn) :
  Transaction_from_json d = Raise e -> reading_error e.
Proof.
  unfold Transaction_from_json, reading_error.
  destruct (py_getitem d "date") as [da | e1] eqn:H1; cbn [rbind];
    [| intros H; injection H as <-;
       destruct (py_getitem_raises _ _ _ H1); auto].
  destruct (py_getitem d "description") as [de | e2] eqn:H2; cbn [rbind];
    [| intros H; injection H as <-;
       destruct (py_getitem_raises _ _ _ H2); auto].
  destruct (py_getitem d "amount") as [am | e3] eqn:H3; cbn [rbind];
    [| intros H; injection H as <-;
       destruct (py_getitem_raises _ _ _ H3); auto].
  destruct (Decimal_new (py_str am)) as [a | e4] eqn:H4; cbn [rbind];
    [| intros H; injection H as <-; right; right;
       exact (Decimal_new_raises _ _ H4)].
  destruct (py_getitem d "kind") as [k | e5] eqn:H5; cbn [rbind];
    [| intros H; injection H as <-;
       destruct (py_getitem_raises _ _ _ H5); auto].
  destruct (py_get d "category" (JStr "Other")) as [c | e6] eqn:H6; cbn [rbind];
    [intros H; discriminate H |].
  exfalso. apply (py_get_raises d "category" (JStr "Other") e6); [| exact H6].
  unfold py_getitem in H5 |- *. destruct d as [| | | | | | kv]; try discriminate H5.
  destruct (assoc "category"%string kv); discriminate.
Qed.

Lemma Goal_from_json_raises (d : pyval) (e : exn) :
  Goal_from_json d = Raise e -> reading_error e.
Proof.
  unfold Goal_from_json, reading_error.
  destruct (py_getitem d "name") as [n | e1] eqn:H1; cbn [rbind];
    [| intros H; injection H as <-;
       destruct (py_getitem_raises _ _ _ H1); auto].
  destruct (py_getitem d "target") as [tg | e2] eqn:H2; cbn [rbind];
    [| intros H; injection H as <-;
       destruct (py_getitem_raises _ _ _ H2); auto].
  destruct (Decimal_new (py_str tg)) as [a | e3] eqn:H3; cbn [rbind];
    [intros H; discriminate H |].
  intros H; injection H as <-. right; right. exact (Decimal_new_raises _ _ H3).
Qed.

Lemma traverse_raises {A : Type} (f : pyval -> result A) (P : exn -> Prop)
    (l : list pyval) (e : exn) :
  (forall d e', f d = Raise e' -> P e') -> traverse f l = Raise e -> P e.
Proof.
  intros Hf. induction l as [| d l IH]; cbn [traverse]; [intros H; discriminate H |].
  destruct (f d) as [x | e1] eqn:Hd; cbn [rbind];
    [| intros H; injection H as <-; exact (Hf d e1 Hd)].
  destruct (traverse f l) as [r | e2]; cbn [rbind]; intros H; [discriminate H |].
  injection H as <-. apply IH. reflexivity.
Qed.

Lemma Transaction_from_json_bad (d : pyval) :
  bad_money "amount" d = true -> exists e, Transaction_from_json d = Raise e.
Proof.
  unfold bad_money, Transaction_from_json.
  destruct d as [| | | | | | kv]; try discriminate. unfold py_getitem.
  destruct (assoc "amount"%string kv) as [[| | | | s | |] |]; try discriminate.
  destruct (Decimal_new s) as [a | e] eqn:Hs; [intros H; discriminate H |]. intros _.
  destruct (assoc "date"%string kv); cbn [rbind]; [| eauto].
  destruct (assoc "description"%string kv); cbn [rbind py_str]; [| eauto].
  rewrite Hs. cbn [rbind]. eauto.
Qed.

Lemma Goal_from_json_bad (d : pyval) :
  bad_money "target" d = true -> exists e, Goal_from_json d = Raise e.
Proof.
  unfold bad_money, Goal_from_json.
  destruct d as [| | | | | | kv]; try discriminate. unfold py_getitem.
  destruct (assoc "target"%string kv) as [[| | | | s | |] |]; try discriminate.
  destruct (Decimal_new s) as [a | e] eqn:Hs; [intros H; discriminate H |]. intros _.
  destruct (assoc "name"%string kv); cbn [rbind py_str]; [| eauto].
  rewrite Hs. cbn [rbind]. eauto.
Qed.

Lemma traverse_exists_raise {A : Type} (f : pyval -> result A) (bad : pyval -> bool)
    (l : list pyval) :
  (forall d, bad d = true -> exists e, f d = Raise e) ->
  existsb bad l = true -> exists e, traverse f l = Raise e.
Proof.
  intros Hbad. induction l as [| d l IH]; simpl; [discriminate |].
  intros H. destruct (f d) as [x | e] eqn:Hd; simpl; [| eauto].
  apply orb_true_iff in H. destruct H as [H | H].
  - destruct (Hbad d H) as (e & He). congruence.
  - destruct (IH H) as (e & ->). simpl. eauto.
Qed.

(** C5: a monetary text of the data file that is no decimal number is not
    reported as the validation error of the program.  [to_decimal], the
    conversion of the form, raises ValueError("Amount must be a number.")
    for every text that [Decimal] rejects; [from_json] calls [Decimal]
    without it.  So when the file decodes to the two lists of records and
    the amount of some transaction, or the target of some goal, is such a
    text, [load] (and with it the constructor) raises TypeError, KeyError
    or InvalidOperation, never that ValueError, and InvalidOperation when
    the records have the fields [from_json] reads.  No record is built
    from the bad text, which is not read as zero: the goals are not
    assigned, nor are the transactions when the bad text is an amount. *)
Theorem load_rejects_bad_money (w : World) (data : pyval) (ts gs : list pyval) :
  file w = Some (JsonText data) ->
  file_records data = Some (ts, gs) ->
  existsb (bad_money "amount") ts || existsb (bad_money "target") gs = true ->
  (exists e, fst (load w) = Raise e /\ reading_error e)
  /\ fst (load w) <> Raise (ValueError "Amount must be a number.")
  /\ goals (snd (load w)) = goals w
  /\ (existsb (bad_money "amount") ts = true -> snd (load w) = w)
  /\ (forallb transaction_shaped ts = true -> forallb goal_shaped gs = true ->
      fst (load w) = Raise InvalidOperation)
  /\ (forall s,
        Decimal_new s = Raise InvalidOperation ->
        to_decimal s = Raise (ValueError "Amount must be a number.")).
Proof.
  intros Hfile Hrec Hbad.
  assert (Hmain :
    (exists e, fst (load w) = Raise e /\ reading_error e)
    /\ goals (snd (load w)) = goals w
    /\ (existsb (bad_money "amount") ts = true -> snd (load w) = w)
    /\ (forallb transaction_shaped ts = true -> forallb goal_shaped gs = true ->
        fst (load w) = Raise InvalidOperation)).
  { unfold load. rewrite Hfile.
    destruct (load_list_records Transaction_from_json Goal_from_json data ts gs Hrec)
      as [Et Eg].
    cbv zeta in Et, Eg. rewrite Et.
    destruct (traverse Transaction_from_json ts) as [lt | e] eqn:Hlt.
    - assert (Hnt : existsb (bad_money "amount") ts = false).
      { destruct (existsb (bad_money "amount") ts) eqn:Hb; [| reflexivity].
        destruct (traverse_exists_raise _ _ ts Transaction_from_json_bad Hb) as (e & He).
        congruence. }
      rewrite Hnt in Hbad. simpl in Hbad.
      destruct (traverse_exists_raise _ _ gs Goal_from_json_bad Hbad) as (e & He).
      rewrite Eg, He. simpl. split.
      { exists e. split; [reflexivity |].
        exact (traverse_raises Goal_from_json reading_error gs e Goal_from_json_raises He). }
      split; [reflexivity |].
      split; [rewrite Hnt; intros H; discriminate H |].
      intros _ Hgs.
      destruct (traverse_shaped Goal_from_json goal_shaped (bad_money "target")
                  Goal_from_json_shaped gs Hgs) as [_ Hexg].
      rewrite (Hexg Hbad) in He. congruence.
    - simpl. split.
      { exists e. split; [reflexivity |].
        exact (traverse_raises Transaction_from_json reading_error ts e
                 Transaction_from_json_raises Hlt). }
      split; [reflexivity |]. split; [reflexivity |].
      intros Hts _.
      destruct (traverse_shaped Transaction_from_json transaction_shaped
                  (bad_money "amount") Transaction_from_json_shaped ts Hts)
        as [[[lt Hok] | Hraise] _]; congruence. }
  destruct Hmain as ((e & He & Hr) & Hg & Hw & Hs).
  split; [exists e; auto |]. split.
  - rewrite He. intros H. injection H as ->.
    destruct Hr as [Hr | [Hr | Hr]]; discriminate Hr.
  - split; [exact Hg |]. split; [exact Hw |]. split; [exact Hs |].
    intros s Hd. apply to_decimal_ValueError. exact Hd.
Qed.

(** A file whose only record has the amount "twelve": the constructor
    raises InvalidOperation, the form reports the same text as a
    ValueError. *)
Lemma load_rejects_bad_money_witness :
  fst (DataManager_init (Some (JsonText (JArr [twelve_record]))))
  = Raise InvalidOperation
  /\ to_decimal "twelve" = Raise (ValueError "Amount must be a number.").
Proof.
  destruct (load_rejects_bad_money
              (mkWorld [] [] (Some (JsonText (JArr [twelve_record]))) 0 [])
              (JArr [twelve_record]) [twelve_record] [] eq_refl eq_refl eq_refl)
    as (_ & _ & _ & _ & Hraise & Hform).
  split.
  - exact (Hraise eq_refl eq_refl).
  - apply Hform. reflexivity.
Defined.

(** ** Finite amounts: the totals are finite or overflow *)

(** [_fix] keeps the sign of a finite number and the coefficient 0, and
    raises nothing but Overflow, and that for no zero. *)
Lemma Decimal_fix_sign (s : bool) (c : N) (e : Z) :
  (c <> 0%N /\ Decimal_fix (Dfin s c e) = Raise Overflow)
  \/ exists c' e', Decimal_fix (Dfin s c e) = Ok (Dfin s c' e') /\ (c = 0%N -> c' = 0%N).
Proof.
  unfold Decimal_fix.
  destruct (N.eqb_spec c 0) as [-> | Hc]; [right; eauto |].
  cbv zeta.
  destruct (Etop <? _)%Z; [left; auto |].
  destruct (e <? _)%Z; [| right; do 2 eexists; split; [reflexivity | intros; contradiction]].
  destruct (Etop <? _)%Z; [left; auto |].
  right. do 2 eexists. split; [reflexivity | intros; contradiction].
Qed.

Lemma Decimal_fix_finite (s : bool) (c : N) (e : Z) :
  finite_or_overflow (Decimal_fix (Dfin s c e)).
Proof.
  destruct (Decimal_fix_sign s c e) as [[_ ->] | (c' & e' & -> & _)];
    [left; reflexivity | right; eauto].
Qed.

Lemma Decimal_add_finite (x y : Decimal) :
  is_finite x = true -> is_finite y = true -> finite_or_overflow (Decimal_add x y).
Proof.
  destruct x as [sx cx ex | |]; try discriminate.
  destruct y as [sy cy ey | |]; try discriminate.
  intros _ _. unfold Decimal_add. cbn [check_nans]. cbv zeta.
  match goal with |- context [if ?b then _ else _] => destruct b end;
    apply Decimal_fix_finite.
Qed.

Lemma Decimal_sub_finite (x y : Decimal) :
  is_finite x = true -> is_finite y = true -> finite_or_overflow (Decimal_sub x y).
Proof.
  intros Hx Hy. unfold Decimal_sub.
  destruct x as [sx cx ex | |]; try discriminate.
  destruct y as [sy cy ey | |]; try discriminate.
  cbn [check_nans].
  apply Decimal_add_finite; reflexivity.
Qed.

Lemma to_Decimal_finite (n : number) :
  finite_number n = true -> is_finite (to_Decimal n) = true.
Proof. destruct n; simpl; auto. Qed.

Lemma Dec_or_overflow (r : result Decimal) :
  finite_or_overflow r -> number_or_overflow (x <- r ;; Ok (Dec x)).
Proof.
  intros [-> | (z & -> & Fz)]; [left; reflexivity | right].
  exists (Dec z). split; [reflexivity | exact Fz].
Qed.

Lemma py_add_finite (a : number) (d : Decimal) :
  finite_number a = true -> is_finite d = true -> number_or_overflow (py_add a (Dec d)).
Proof.
  intros Ha Hd. destruct a as [z | x]; cbn [py_add to_Decimal]; apply Dec_or_overflow.
  - exact (Decimal_add_finite d (Decimal_of_Z z) Hd eq_refl).
  - exact (Decimal_add_finite x d Ha Hd).
Qed.

Lemma py_sum_from_finite (l : list Decimal) : forall acc,
  finite_number acc = true -> forallb is_finite l = true ->
  number_or_overflow (py_sum_from acc l).
Proof.
  induction l as [| d l IH]; cbn [py_sum_from forallb]; intros acc Ha Hl.
  - right. eauto.
  - apply andb_true_iff in Hl. destruct Hl as [Hd Hl].
    destruct (py_add_finite acc d Ha Hd) as [-> | (r & -> & Fr)]; cbn [rbind].
    + left. reflexivity.
    + apply IH; assumption.
Qed.

Lemma py_sub_finite (a b : number) :
  finite_number a = true -> finite_number b = true -> number_or_overflow (py_sub a b).
Proof.
  intros Ha Hb.
  pose proof (Dec_or_overflow _ (Decimal_sub_finite (to_Decimal a) (to_Decimal b)
                (to_Decimal_finite a Ha) (to_Decimal_finite b Hb))) as H.
  destruct a as [x | x]; destruct b as [y | y]; try exact H.
  right. exists (Int (x - y)). split; reflexivity.
Qed.

Lemma forallb_map_filter {A B : Type} (p : B -> bool) (f : A -> B) (q : A -> bool)
    (l : list A) :
  forallb (fun x => p (f x)) l = true -> forallb p (map f (filter q l)) = true.
Proof.
  induction l as [| x l IH]; simpl; [reflexivity |].
  intros H. apply andb_true_iff in H. destruct H as [Hx Hl].
  destruct (q x); simpl; [rewrite Hx |]; auto.
Qed.

(** On a ledger with finite amounts each total is a finite number or
    raises Overflow, and so does the balance, which is the difference of
    the two totals whenever both return. *)
Lemma totals_finite (w : World) :
  finite_ledger w = true ->
  number_or_overflow (income_total w)
  /\ number_or_overflow (expense_total w)
  /\ number_or_overflow (balance w)
  /\ (forall i e, income_total w = Ok i -> expense_total w = Ok e ->
        finite_number i = true /\ finite_number e = true
        /\ balance w = py_sub i e).
Proof.
  intros H. unfold finite_ledger in H.
  pose proof (py_sum_from_finite
                (map amount (filter (fun t => py_eq_str (kind t) "Income") (transactions w)))
                (Int 0) eq_refl (forallb_map_filter is_finite amount _ _ H)) as Hi.
  pose proof (py_sum_from_finite
                (map amount (filter (fun t => py_eq_str (kind t) "Expense") (transactions w)))
                (Int 0) eq_refl (forallb_map_filter is_finite amount _ _ H)) as He.
  fold (py_sum (map amount (filter (fun t => py_eq_str (kind t) "Income") (transactions w))))
    in Hi.
  fold (py_sum (map amount (filter (fun t => py_eq_str (kind t) "Expense") (transactions w))))
    in He.
  fold (income_total w) in Hi. fold (expense_total w) in He.
  split; [exact Hi |]. split; [exact He |]. split.
  - unfold balance.
    destruct Hi as [-> | (i & -> & Fi)]; [left; reflexivity |].
    destruct He as [-> | (e & -> & Fe)]; [left; reflexivity |].
    cbn [rbind]. apply py_sub_finite; assumption.
  - intros i e Ei Ee. unfold balance. rewrite Ei, Ee. cbn [rbind].
    destruct Hi as [Hi | (i' & Hi & Fi)]; [congruence |].
    destruct He as [He | (e' & He & Fe)]; [congruence |].
    assert (i' = i) by congruence. assert (e' = e) by congruence. subst.
    auto.
Qed.

(** ** Comparisons of finite numbers *)

Lemma signed_of_Z (z : Z) : signed (z <? 0)%Z (Z.abs_N z) = z.
Proof.
  unfold signed. rewrite N2Z.inj_abs_N.
  destruct (Z.ltb_spec z 0); lia.
Qed.

Lemma Decimal_cmp_of_Z (x y : Z) :
  Decimal_cmp (Decimal_of_Z x) (Decimal_of_Z y) = (x ?= y)%Z.
Proof.
  unfold Decimal_cmp, Decimal_of_Z. rewrite !signed_of_Z.
  simpl. rewrite !Z.mul_1_r. reflexivity.
Qed.

Lemma Decimal_cmp_antisym (x y : Decimal) :
  is_finite x = true -> is_finite y = true ->
  Decimal_cmp y x = CompOpp (Decimal_cmp x y).
Proof.
  destruct x as [sx cx ex | |]; try discriminate.
  destruct y as [sy cy ey | |]; try discriminate.
  intros _ _. unfold Decimal_cmp. rewrite (Z.min_comm ey ex).
  apply Z.compare_antisym.
Qed.

Lemma Decimal_cmp_refl (x : Decimal) :
  is_finite x = true -> Decimal_cmp x x = Eq.
Proof.
  destruct x; try discriminate. intros _. unfold Decimal_cmp. apply Z.compare_refl.
Qed.

Lemma check_nans_finite (x y : Decimal) :
  is_finite x = true -> is_finite y = true -> check_nans x y = None.
Proof.
  destruct x; try discriminate. destruct y; try discriminate. reflexivity.
Qed.

Lemma Decimal_order_finite (test : comparison -> bool) (x y : Decimal) :
  is_finite x = true -> is_finite y = true ->
  Decimal_order test x y = Ok (test (Decimal_cmp x y)).
Proof.
  destruct x; try discriminate. destruct y; try discriminate. reflexivity.
Qed.

Lemma Decimal_eq_finite (x y : Decimal) :
  is_finite x = true -> is_finite y = true ->
  Decimal_eq x y = Ok (is_Eq (Decimal_cmp x y)).
Proof.
  intros Hx Hy. unfold Decimal_eq. rewrite check_nans_finite by assumption.
  reflexivity.
Qed.

(** For finite numbers the three comparisons are those of [_cmp] on the
    operands converted to Decimal. *)
Lemma py_compare_finite (a b : number) :
  finite_number a = true -> finite_number b = true ->
  let c := Decimal_cmp (to_Decimal a) (to_Decimal b) in
  py_gt a b = Ok (is_Gt c) /\ py_ge a b = Ok (negb (is_Lt c)) /\ py_eq a b = Ok (is_Eq c).
Proof.
  intros Ha Hb c. subst c.
  destruct a as [x | x]; destruct b as [y | y];
    unfold py_gt, py_ge, py_eq, to_Decimal, finite_number in *.
  - rewrite Decimal_cmp_of_Z. repeat split; f_equal.
    + rewrite Z.ltb_compare, (Z.compare_antisym x y). destruct (x ?= y)%Z; reflexivity.
    + rewrite Z.leb_compare, (Z.compare_antisym x y). destruct (x ?= y)%Z; reflexivity.
    + rewrite Z.eqb_compare. reflexivity.
  - unfold Decimal_lt. rewrite !Decimal_order_finite, Decimal_eq_finite by auto.
    rewrite (Decimal_cmp_antisym (Decimal_of_Z x) y) by auto.
    destruct (Decimal_cmp (Decimal_of_Z x) y); repeat split.
  - unfold Decimal_gt, Decimal_ge.
    rewrite !Decimal_order_finite, Decimal_eq_finite by auto. repeat split.
  - unfold Decimal_gt, Decimal_ge.
    rewrite !Decimal_order_finite, Decimal_eq_finite by auto. repeat split.
Qed.

Lemma py_eq_refl (a : number) : finite_number a = true -> py_eq a a = Ok true.
Proof.
  intros Ha. destruct (py_compare_finite a a Ha Ha) as (_ & _ & E).
  rewrite E, Decimal_cmp_refl by (apply to_Decimal_finite; assumption). reflexivity.
Qed.

(** [max(Decimal(0), b)] is [b] when [b >= 0] and zero otherwise, up to
    [==]. *)
Lemma py_max_zero (b : number) :
  finite_number b = true ->
  exists s, py_max (Dec (Decimal_of_Z 0)) b = Ok s
    /\ ((py_ge b (Int 0) = Ok true /\ py_eq s b = Ok true)
        \/ (py_ge b (Int 0) = Ok false /\ py_eq s (Int 0) = Ok true)).
Proof.
  intros Hb. unfold py_max.
  destruct (py_compare_finite b (Dec (Decimal_of_Z 0)) Hb eq_refl) as (Hgt & _ & _).
  destruct (py_compare_finite b (Int 0) Hb eq_refl) as (_ & Hge & _).
  destruct (py_compare_finite (Dec (Decimal_of_Z 0)) b eq_refl Hb) as (_ & _ & Heq).
  cbv zeta in *. simpl to_Decimal in *.
  rewrite (Decimal_cmp_antisym (to_Decimal b) (Decimal_of_Z 0)) in Heq
    by (auto using to_Decimal_finite).
  rewrite Hgt, Hge. simpl.
  destruct (Decimal_cmp (to_Decimal b) (Decimal_of_Z 0)); simpl in *;
    eexists; (split; [reflexivity |]).
  - left. split; [reflexivity | exact Heq].
  - right. split; reflexivity.
  - left. split; [reflexivity | apply py_eq_refl; assumption].
Qed.

(** ** The invariant along a sequence of mutations *)

Lemma forallb_firstn {A : Type} (p : A -> bool) (l : list A) : forall n,
  forallb p l = true -> forallb p (firstn n l) = true.
Proof.
  induction l as [| x l IH]; intros [| n]; simpl; auto.
  intros H. apply andb_true_iff in H. destruct H as [Hx Hl].
  rewrite Hx. simpl. auto.
Qed.

Lemma forallb_skipn {A : Type} (p : A -> bool) (l : list A) : forall n,
  forallb p l = true -> forallb p (skipn n l) = true.
Proof.
  induction l as [| x l IH]; intros [| n]; simpl; auto.
  intros H. apply andb_true_iff in H. destruct H as [Hx Hl]. auto.
Qed.

Lemma list_setitem_forallb {A : Type} (p : A -> bool) (l l' : list A) (i : Z) (x : A) :
  forallb p l = true -> p x = true -> list_setitem l i x = Ok l' ->
  forallb p l' = true.
Proof.
  unfold list_setitem. intros Hl Hx.
  destruct (position (List.length l) i) as [n |]; [| discriminate].
  intros H.
  assert (E : l' = firstn n l ++ x :: skipn (S n) l) by congruence.
  rewrite E, forallb_app. cbn [forallb].
  rewrite forallb_firstn, Hx, forallb_skipn by assumption. reflexivity.
Qed.

Lemma list_pop_forallb {A : Type} (p : A -> bool) (l l' : list A) (i : Z) :
  forallb p l = true -> list_pop l i = Ok l' -> forallb p l' = true.
Proof.
  unfold list_pop. intros Hl.
  destruct (position (List.length l) i) as [n |];
    [| destruct (fits_ssize_t i); discriminate].
  intros H.
  assert (E : l' = firstn n l ++ skipn (S n) l) by congruence.
  rewrite E, forallb_app, forallb_firstn, forallb_skipn by assumption. reflexivity.
Qed.

Lemma apply_op_finite (o : op) (w : World) :
  finite_ledger w = true -> finite_op o = true ->
  finite_ledger (snd (apply_op o w)) = true.
Proof.
  unfold finite_ledger. intros Hw Ho.
  destruct o as [t | i t | i | g | i g | i]; simpl in *.
  - rewrite forallb_app. simpl. rewrite Hw, Ho. reflexivity.
  - unfold update_transaction.
    destruct (list_setitem (transactions w) i t) as [l |] eqn:E; simpl; [| exact Hw].
    exact (list_setitem_forallb _ _ l i t Hw Ho E).
  - unfold delete_transaction.
    destruct (list_pop (transactions w) i) as [l |] eqn:E; simpl; [| exact Hw].
    exact (list_pop_forallb _ _ l i Hw E).
  - exact Hw.
  - unfold update_goal. destruct (list_setitem (goals w) i g); simpl; exact Hw.
  - unfold delete_goal. destruct (list_pop (goals w) i); simpl; exact Hw.
Qed.

Lemma run_finite (ops : list op) : forall w,
  finite_ledger w = true -> forallb finite_op ops = true ->
  finite_ledger (run ops w) = true.
Proof.
  induction ops as [| o ops IH]; simpl; intros w Hw Hops; [exact Hw |].
  apply andb_true_iff in Hops. destruct Hops as [Ho Hops].
  apply IH; [apply apply_op_finite |]; assumption.
Qed.

(** C9, as the code has it: on the empty ledger the four aggregates are
    zero; and from any ledger with finite amounts, after any sequence of
    add, update and delete calls with finite amounts, each of
    [income_total()], [expense_total()] and [balance()] returns a finite
    number or raises Overflow; [balance()] is
    [income_total() - expense_total()] whenever the two totals return; and
    whenever [balance()] returns, [balance() == income_total() -
    expense_total()] holds and [savings_total()] returns the balance when
    the balance is at least 0 and 0 otherwise. *)
Theorem aggregates_after_mutations :
  (forall gs f n ws,
     let w := mkWorld [] gs f n ws in
     income_total w = Ok (Int 0) /\ expense_total w = Ok (Int 0)
     /\ balance w = Ok (Int 0)
     /\ exists s, savings_total w = Ok s /\ py_eq s (Int 0) = Ok true)
  /\ (forall w ops,
        finite_ledger w = true -> forallb finite_op ops = true ->
        let w' := run ops w in
        number_or_overflow (income_total w')
        /\ number_or_overflow (expense_total w')
        /\ number_or_overflow (balance w')
        /\ (forall i e,
              income_total w' = Ok i -> expense_total w' = Ok e ->
              balance w' = py_sub i e)
        /\ (forall b,
              balance w' = Ok b ->
              exists i e d s,
                income_total w' = Ok i /\ expense_total w' = Ok e
                /\ py_sub i e = Ok d /\ py_eq b d = Ok true
                /\ savings_total w' = Ok s
                /\ ((py_ge b (Int 0) = Ok true /\ py_eq s b = Ok true)
                    \/ (py_ge b (Int 0) = Ok false /\ py_eq s (Int 0) = Ok true)))).
Proof.
  split.
  - intros gs f n ws w. repeat split. eexists. split; reflexivity.
  - intros w ops Hw Hops w'.
    assert (Hw' : finite_ledger w' = true) by (apply run_finite; assumption).
    destruct (totals_finite w' Hw') as (Hi & He & Hb & Hsub).
    split; [exact Hi |]. split; [exact He |]. split; [exact Hb |]. split.
    + intros i e Ei Ee. apply (Hsub i e Ei Ee).
    + intros b Eb.
      destruct Hi as [Hi | (i & Hi & Fi)];
        [unfold balance in Eb; rewrite Hi in Eb; discriminate Eb |].
      destruct He as [He | (e & He & Fe)];
        [unfold balance in Eb; rewrite Hi, He in Eb; discriminate Eb |].
      destruct (Hsub i e Hi He) as (_ & _ & Hd). rewrite Eb in Hd.
      assert (Fb : finite_number b = true).
      { destruct Hb as [Hb | (b' & Hb & Fb)]; [congruence |].
        assert (b' = b) by congruence. subst b'. exact Fb. }
      destruct (py_max_zero b Fb) as (s & Hs & Hcases).
      exists i, e, b, s. repeat split; try assumption.
      * symmetry. exact Hd.
      * apply py_eq_refl. exact Fb.
      * unfold savings_total. rewrite Eb. exact Hs.
Qed.

(** The sample ledger after one more expense and the loss of its income:
    the balance is -401.00 and the savings are 0. *)
Lemma aggregates_after_mutations_witness :
  exists s,
    savings_total (run [AddTransaction food_200_50; DeleteTransaction 0] sample_world)
    = Ok s
    /\ py_eq s (Int 0) = Ok true.
Proof.
  destruct (proj2 (proj2 (proj2 (proj2
              (proj2 aggregates_after_mutations sample_world
                 [AddTransaction food_200_50; DeleteTransaction 0] eq_refl eq_refl))))
              (Dec (Dfin true 40100 (-2))) eq_refl)
    as (i & e & d & s & _ & _ & _ & _ & Hs & Hcases).
  exists s. split; [exact Hs |].
  destruct Hcases as [[Hge _] | [_ Hz]]; [discriminate Hge | exact Hz].
Defined.

(** C9 as the specification states it fails once an amount is a NaN, which
    the form accepts: after adding an income of NaN to the empty ledger
    the totals and the balance return, [income_total() - expense_total()
    == balance()] is false, and [savings_total()] raises. *)
Lemma nan_breaks_the_balance_identity :
  to_decimal "NaN" = Ok (Dnan false false 0)
  /\ let w' := run [AddTransaction nan_income] (mkWorld [] [] None 0 []) in
     income_total w' = Ok (Dec (Dnan false false 0))
     /\ expense_total w' = Ok (Int 0)
     /\ py_sub (Dec (Dnan false false 0)) (Int 0) = Ok (Dec (Dnan false false 0))
     /\ balance w' = Ok (Dec (Dnan false false 0))
     /\ py_eq (Dec (Dnan false false 0)) (Dec (Dnan false false 0)) = Ok false
     /\ savings_total w' = Raise InvalidOperation.
Proof. cbv zeta. repeat split. Qed.

(** ** Goal progress *)

(** The sign of a quotient of finite numbers by a positive one is the sign
    of the dividend; the division raises nothing but Overflow. *)
Lemma Decimal_div_sign (sx : bool) (cx : N) (ex : Z) (cy : N) (ey : Z) :
  cy <> 0%N ->
  (cx <> 0%N /\ Decimal_div (Dfin sx cx ex) (Dfin false cy ey) = Raise Overflow)
  \/ exists c e, Decimal_div (Dfin sx cx ex) (Dfin false cy ey) = Ok (Dfin sx c e)
       /\ (cx = 0%N -> c = 0%N).
Proof.
  intros Hy. unfold Decimal_div. simpl check_nans. cbv iota.
  rewrite xorb_false_r.
  destruct (N.eqb_spec cy 0) as [| _]; [contradiction |].
  destruct (N.eqb_spec cx 0) as [-> | Hx].
  - destruct (Decimal_fix_sign sx 0 (ex - ey)) as [[C _] | (c & e & E & Hc)];
      [contradiction C; reflexivity |].
    rewrite E. right. eauto.
  - match goal with
    | |- context [let (_, _) := ?p in _] => destruct p as [a b]
    end.
    destruct (Decimal_fix_sign sx a b) as [[_ E] | (c & e & E & _)]; rewrite E.
    + left. auto.
    + right. exists c, e. split; [reflexivity | intros; contradiction].
Qed.

Lemma float_of_ratio_sign (neg : bool) (n d : N) :
  float_of_ratio neg n d = Finf neg
  \/ exists m e, float_of_ratio neg n d = Ffin neg m e /\ (n = 0%N -> m = 0%N).
Proof.
  unfold float_of_ratio.
  destruct (N.eqb_spec n 0) as [-> | Hn]; [right; eauto |].
  match goal with |- context [if ?b then Finf _ else _] => destruct b end.
  - left. reflexivity.
  - right. do 2 eexists. split; [reflexivity | intros; contradiction].
Qed.

Lemma Decimal_float_sign (s : bool) (c : N) (e : Z) :
  Decimal_float (Dfin s c e) = Ok (Finf s)
  \/ exists m e2, Decimal_float (Dfin s c e) = Ok (Ffin s m e2) /\ (c = 0%N -> m = 0%N).
Proof.
  unfold Decimal_float.
  destruct (0 <=? e)%Z.
  - destruct (float_of_ratio_sign s (c * pow10 e) 1) as [E | (m & e2 & E & Hm)];
      rewrite E; [left; reflexivity | right].
    exists m, e2. split; [reflexivity |]. intros ->. apply Hm. reflexivity.
  - destruct (float_of_ratio_sign s c (pow10 (- e))) as [E | (m & e2 & E & Hm)];
      rewrite E; [left; reflexivity | right; eauto].
Qed.

Lemma Decimal_float_zero (s : bool) (e : Z) :
  Decimal_float (Dfin s 0 e) = Ok (Ffin s 0 0).
Proof. unfold Decimal_float. destruct (0 <=? e)%Z; reflexivity. Qed.

Lemma float_lt_le (f : pyfloat) (z : Z) : float_lt_Z f z = true -> float_le_Z f z = true.
Proof.
  destruct f as [neg m e | neg |]; simpl; auto.
  destruct (0 <=? e)%Z; intros H; apply Z.ltb_lt in H; apply Z.leb_le; lia.
Qed.

Lemma py_min_1_at_most_1 (x : pyreal) : at_most_1 (py_min_1 x) = true.
Proof.
  destruct x as [z | f]; simpl.
  - destruct (Z.ltb_spec z 1); simpl; [apply Z.leb_le; lia | reflexivity].
  - destruct (float_lt_Z f 1) eqn:E; simpl; [apply float_lt_le; exact E | reflexivity].
Qed.

Lemma py_min_1_at_least_0 (x : pyreal) :
  at_least_0 x = true -> at_least_0 (py_min_1 x) = true.
Proof.
  destruct x as [z | f]; simpl.
  - destruct (z <? 1)%Z; auto.
  - destruct (float_lt_Z f 1); auto.
Qed.

Lemma nonnegative_float (s : bool) (m : N) (e : Z) :
  s = false \/ m = 0%N -> Z_le_float 0 (Ffin s m e) = true.
Proof.
  intros H. simpl.
  assert (Hv : (0 <= signed s m)%Z) by (destruct H as [-> | ->]; [| destruct s]; simpl; lia).
  destruct (0 <=? e)%Z eqn:He.
  - apply Z.leb_le. apply Z.leb_le in He.
    apply Z.mul_nonneg_nonneg; [exact Hv | apply Z.pow_nonneg; lia].
  - apply Z.leb_le. simpl. exact Hv.
Qed.

(** A finite [target > 0] has sign 0 and a coefficient that is not 0. *)
Lemma positive_Decimal (s : bool) (c : N) (e : Z) :
  Decimal_cmp (Dfin s c e) (Decimal_of_Z 0) = Gt -> s = false /\ c <> 0%N.
Proof.
  unfold Decimal_cmp, Decimal_of_Z. simpl signed. rewrite Z.mul_0_l.
  intros H. apply Z.compare_gt_iff in H.
  assert (Hp : (0 < 10 ^ (e - Z.min e 0))%Z) by (apply Z.pow_pos_nonneg; lia).
  assert (Hs : (0 < signed s c)%Z) by nia.
  destruct s; simpl in Hs; split; try lia; reflexivity.
Qed.

(** A finite [b >= 0] has sign 0 or the coefficient 0. *)
Lemma nonnegative_Decimal (s : bool) (c : N) (e : Z) :
  Decimal_cmp (Dfin s c e) (Decimal_of_Z 0) <> Lt -> s = false \/ c = 0%N.
Proof.
  unfold Decimal_cmp, Decimal_of_Z. simpl signed. rewrite Z.mul_0_l.
  intros H. rewrite Z.compare_lt_iff in H.
  assert (Hp : (0 < 10 ^ (e - Z.min e 0))%Z) by (apply Z.pow_pos_nonneg; lia).
  assert (Hs : (0 <= signed s c)%Z) by nia.
  destruct s; simpl in Hs; [right; lia | left; reflexivity].
Qed.

(** X22: with finite amounts and a finite target the progress of a goal
    is computed or the arithmetic raises Overflow; a computed progress is
    at most 1 for every balance, lies in [0, 1] whenever the balance is at
    least 0, and is the int 1 when the target is not above 0. *)
Theorem goal_progress_range (w : World) (g : Goal) :
  finite_ledger w = true -> is_finite (target g) = true ->
  ((exists p, goal_progress w g = Ok p) \/ goal_progress w g = Raise Overflow)
  /\ (forall p,
        goal_progress w g = Ok p ->
        at_most_1 p = true
        /\ (py_gt (Dec (target g)) (Int 0) = Ok false -> p = RInt 1)
        /\ (forall bal,
              balance w = Ok bal -> py_ge bal (Int 0) = Ok true ->
              in_unit_interval p = true)).
Proof.
  intros Hw Ht.
  destruct (totals_finite w Hw) as (_ & _ & Hbal & _).
  destruct (py_compare_finite (Dec (target g)) (Int 0) Ht eq_refl) as (Hgt & _ & _).
  cbv zeta in Hgt. simpl to_Decimal in Hgt.
  unfold goal_progress, goal_pct.
  destruct Hbal as [-> | (bal & -> & Fb)]; cbn [rbind];
    [split; [right; reflexivity | intros p H; discriminate H] |].
  rewrite Hgt. cbn [rbind].
  destruct (Decimal_cmp (target g) (Decimal_of_Z 0)) eqn:Hc; simpl is_Gt; cbv iota;
    try (cbn [rbind py_min_1]; simpl (1 <? 1)%Z; cbv iota;
         split; [left; eexists; reflexivity |];
         intros p Hp; injection Hp as <-; repeat split; intros; reflexivity).
  destruct (target g) as [sy cy ey | |]; try discriminate.
  destruct (positive_Decimal sy cy ey Hc) as [-> Hcy].
  pose proof (to_Decimal_finite bal Fb) as Fd.
  unfold py_div.
  destruct (py_compare_finite bal (Int 0) Fb eq_refl) as (_ & Hge & _).
  cbv zeta in Hge. simpl to_Decimal in Hge.
  destruct (to_Decimal bal) as [sx cx ex | |]; try discriminate.
  destruct (Decimal_div_sign sx cx ex cy ey Hcy) as [[_ Hq] | (c & e' & Hq & Hc0)];
    rewrite Hq; cbn [rbind];
    [split; [right; reflexivity | intros p H; discriminate H] |].
  assert (Hnonneg : py_ge bal (Int 0) = Ok true -> sx = false \/ c = 0%N).
  { intros H. rewrite Hge in H.
    destruct (nonnegative_Decimal sx cx ex) as [-> | ->]; auto.
    intros E. rewrite E in H. discriminate. }
  destruct (Decimal_float_sign sx c e') as [Hf | (m & e2 & Hf & Hm)]; rewrite Hf;
    cbn [rbind]; (split; [left; eexists; reflexivity |]);
    intros p Hp;
    match type of Hp with Ok ?a = Ok _ => assert (Ep : p = a) by congruence end;
    clear Hp; subst p;
    (split; [apply py_min_1_at_most_1 |]); (split; [intros H; discriminate H |]);
    intros b Hb H; injection Hb as <-; unfold in_unit_interval;
    rewrite py_min_1_at_most_1, andb_true_r; apply py_min_1_at_least_0.
  - destruct (Hnonneg H) as [-> | ->]; [reflexivity |].
    rewrite Decimal_float_zero in Hf. discriminate.
  - apply nonnegative_float.
    destruct (Hnonneg H) as [-> | ->]; [left | right; apply Hm]; reflexivity.
Qed.

(** The sample ledger and its goal: 799.50 of 1000.00. *)
Lemma goal_progress_range_witness :
  exists p, goal_progress sample_world holiday_goal = Ok p /\ in_unit_interval p = true.
Proof.
  destruct (goal_progress_range sample_world holiday_goal eq_refl eq_refl)
    as ([(p & Hp) | Hp] & H); [| vm_compute in Hp; discriminate Hp].
  exists p. split; [exact Hp |].
  destruct (H p Hp) as (_ & _ & Hin).
  exact (Hin (Dec (Dfin false 79950 (-2))) eq_refl eq_refl).
Defined.

(** C1: the code has no floor at 0.  On a ledger 50 in the red and a goal
    of 100 the target is positive and the progress is the float
    -0.5 = -(2^52) * 2^-53, which is below 0; the bar drawn from it, which
    has [bar_len] = 20 cells for every progress in [0, 1], has no full
    cell and 30 blanks. *)
Theorem negative_balance_breaks_progress :
  py_gt (Dec (target goal_100)) (Int 0) = Ok true
  /\ balance overdrawn_world = Ok (Dec (Dfin true 50 0))
  /\ goal_progress overdrawn_world goal_100
     = Ok (RFloat (Ffin true 4503599627370496 (-53)))
  /\ in_unit_interval (RFloat (Ffin true 4503599627370496 (-53))) = false
  /\ goal_bar (RFloat (Ffin true 4503599627370496 (-53))) = Ok (repeat blank 30)
  /\ goal_bar (RInt 1) = Ok (repeat full_block 20)
  /\ goal_bar (RFloat (Ffin false 0 0)) = Ok (repeat blank 20).
Proof. vm_compute. repeat split. Qed.

(** ** Digits *)

Lemma N_of_ascii_digit_char (d : N) :
  (d < 10)%N -> N_of_ascii (digit_char d) = (48 + d)%N.
Proof.
  intros H. unfold digit_char. apply N_ascii_embedding. lia.
Qed.

Lemma digit_char_is_digit (d : N) : (d < 10)%N -> is_digit (digit_char d) = true.
Proof.
  intros H. unfold is_digit. rewrite N_of_ascii_digit_char by assumption.
  apply andb_true_iff. split; apply N.leb_le; lia.
Qed.

Lemma digit_val_digit_char (d : N) : (d < 10)%N -> digit_val (digit_char d) = d.
Proof.
  intros H. unfold digit_val. rewrite N_of_ascii_digit_char by assumption. lia.
Qed.

Lemma N_of_digits_snoc (l : list ascii) (c : ascii) :
  N_of_digits (l ++ [c]) = (10 * N_of_digits l + digit_val c)%N.
Proof. unfold N_of_digits. rewrite fold_left_app. reflexivity. Qed.

Lemma log2_div10 (n : N) :
  (n / 10 <> 0)%N -> (N.log2 (n / 10) < N.log2 n)%N.
Proof.
  intros H.
  assert (Hle : (2 * (n / 10) <= n)%N).
  { pose proof (N.Div0.mul_div_le n 10). lia. }
  apply N.lt_le_trans with (N.log2 (2 * (n / 10))).
  - rewrite N.log2_double by (apply N.neq_0_lt_0; exact H). apply N.lt_succ_diag_r.
  - apply N.log2_le_mono. exact Hle.
Qed.

Lemma digits_rev_spec (fuel : nat) : forall n,
  (n = 0%N \/ (N.to_nat (N.log2 n) < fuel)%nat) ->
  forallb is_digit (digits_rev fuel n) = true
  /\ N_of_digits (rev (digits_rev fuel n)) = n
  /\ (n <> 0%N -> digits_rev fuel n <> []).
Proof.
  induction fuel as [| f IH]; intros n H.
  - destruct H as [-> | H]; [| lia]. simpl. repeat split. intros C. contradiction.
  - simpl. destruct (N.eqb_spec n 0) as [-> | Hn].
    + simpl. repeat split. intros C. contradiction.
    + assert (Hm : (n mod 10 < 10)%N) by (apply N.mod_lt; lia).
      assert (Hf : (n / 10 = 0)%N \/ (N.to_nat (N.log2 (n / 10)) < f)%nat).
      { destruct (N.eq_dec (n / 10) 0) as [E | E]; [left; exact E | right].
        destruct H as [H | H]; [contradiction |].
        pose proof (log2_div10 n E). lia. }
      destruct (IH (n / 10)%N Hf) as (Hd & Hv & _).
      repeat split.
      * simpl. rewrite digit_char_is_digit, Hd by assumption. reflexivity.
      * simpl. rewrite N_of_digits_snoc, Hv, digit_val_digit_char by assumption.
        pose proof (N.div_mod n 10). lia.
      * discriminate.
Qed.

Lemma forallb_rev {A : Type} (p : A -> bool) (l : list A) :
  forallb p (rev l) = forallb p l.
Proof.
  induction l as [| x l IH]; simpl; [reflexivity |].
  rewrite forallb_app, IH. simpl. rewrite andb_true_r. apply andb_comm.
Qed.

Lemma N_digits_spec (n : N) :
  forallb is_digit (N_digits n) = true
  /\ N_of_digits (N_digits n) = n
  /\ N_digits n <> [].
Proof.
  unfold N_digits. destruct (N.eqb_spec n 0) as [-> | Hn].
  - repeat split. discriminate.
  - destruct (digits_rev_spec (S (N.to_nat (N.log2 n))) n) as (Hd & Hv & Hne);
      [right; lia |].
    repeat split.
    + rewrite forallb_rev. exact Hd.
    + exact Hv.
    + intros E. apply (Hne Hn).
      rewrite <- (rev_involutive (digits_rev _ n)), E. reflexivity.
Qed.

Lemma N_of_digits_app (a b : list ascii) :
  N_of_digits (a ++ b) = (N_of_digits a * 10 ^ N.of_nat (List.length b) + N_of_digits b)%N.
Proof.
  revert a. induction b as [| c b IH] using rev_ind; intros a.
  - rewrite app_nil_r. change (N_of_digits a = N_of_digits a * 1 + 0)%N. lia.
  - rewrite app_assoc, !N_of_digits_snoc, IH, length_app. simpl List.length.
    replace (N.of_nat (List.length b + 1)) with (N.succ (N.of_nat (List.length b))) by lia.
    rewrite N.pow_succ_r'. lia.
Qed.

Lemma N_of_digits_zeros (k : nat) : N_of_digits (zeros k) = 0%N.
Proof.
  induction k as [| k IH]; [reflexivity |].
  change (zeros (S k)) with (["0"%char] ++ zeros k).
  rewrite N_of_digits_app, IH. reflexivity.
Qed.

Lemma zeros_are_digits (k : nat) : forallb is_digit (zeros k) = true.
Proof. induction k; simpl; auto. Qed.

Lemma zeros_length (k : nat) : List.length (zeros k) = k.
Proof. apply repeat_length. Qed.

(** ** Reading back what [str] printed *)

Lemma digit_facts (c : ascii) :
  is_digit c = true ->
  clean c = true /\ Ascii.eqb c "-" = false /\ Ascii.eqb c "+" = false
  /\ Ascii.eqb c "." = false /\ lower c = c.
Proof.
  destruct c as [[] [] [] [] [] [] [] []]; intros H; vm_compute in H;
    try discriminate; vm_compute; repeat split.
Qed.

Lemma digits_clean (l : list ascii) :
  forallb is_digit l = true -> forallb clean l = true.
Proof.
  induction l as [| c l IH]; simpl; [reflexivity |].
  intros H. apply andb_true_iff in H. destruct H as [Hc Hl].
  destruct (digit_facts c Hc) as (-> & _). simpl. auto.
Qed.

Lemma digits_lower (l : list ascii) :
  forallb is_digit l = true -> map lower l = l.
Proof.
  induction l as [| c l IH]; simpl; [reflexivity |].
  intros H. apply andb_true_iff in H. destruct H as [Hc Hl].
  destruct (digit_facts c Hc) as (_ & _ & _ & _ & ->). rewrite IH by assumption.
  reflexivity.
Qed.

Lemma span_digits (ds rest : list ascii) :
  forallb is_digit ds = true -> stops_digits rest = true ->
  span is_digit (ds ++ rest) = (ds, rest).
Proof.
  intros Hd Hr. induction ds as [| c ds IH]; simpl.
  - destruct rest as [| c rest]; [reflexivity |]. simpl in *.
    destruct (is_digit c); [discriminate | reflexivity].
  - simpl in Hd. apply andb_true_iff in Hd. destruct Hd as [Hc Hd].
    rewrite Hc, IH by assumption. reflexivity.
Qed.

Lemma lstrip_head (l : list ascii) :
  match l with [] => True | c :: _ => is_space c = false end -> lstrip l = l.
Proof. destruct l as [| c l]; simpl; [reflexivity |]. intros ->. reflexivity. Qed.

Lemma clean_head (l : list ascii) :
  forallb clean l = true ->
  match l with [] => True | c :: _ => is_space c = false end.
Proof.
  destruct l as [| c l]; simpl; [trivial |].
  unfold clean. intros H. apply andb_true_iff in H. destruct H as [H _].
  apply andb_true_iff in H. destruct H as [H _].
  destruct (is_space c); [discriminate | reflexivity].
Qed.

Lemma strip_clean (l : list ascii) : forallb clean l = true -> strip l = l.
Proof.
  intros H. unfold strip.
  rewrite (lstrip_head l (clean_head l H)).
  rewrite lstrip_head by (apply clean_head; rewrite forallb_rev; exact H).
  apply rev_involutive.
Qed.

Lemma remove_underscores_clean (l : list ascii) :
  forallb clean l = true -> remove_underscores l = l.
Proof.
  unfold remove_underscores. induction l as [| c l IH]; simpl; [reflexivity |].
  intros H. apply andb_true_iff in H. destruct H as [Hc Hl].
  unfold clean in Hc. apply andb_true_iff in Hc. destruct Hc as [_ ->].
  rewrite IH by assumption. reflexivity.
Qed.

Lemma Decimal_parse_clean (l : list ascii) :
  forallb clean l = true ->
  Decimal_parse l = let (sign, r) := split_sign l in parse_unsigned sign r.
Proof.
  intros H. unfold Decimal_parse.
  rewrite strip_clean, remove_underscores_clean by assumption. reflexivity.
Qed.

(** The sign [str] prints is the sign read back, when a digit or a letter
    follows. *)
Lemma split_sign_chars (s : bool) (body : list ascii) :
  match body with
  | [] => False
  | c :: _ => Ascii.eqb c "-" = false /\ Ascii.eqb c "+" = false
  end ->
  split_sign (sign_chars s ++ body) = (s, body).
Proof.
  destruct s; simpl; [reflexivity |].
  destruct body as [| c body]; [contradiction |].
  intros [H1 H2]. unfold split_sign. rewrite H1, H2. reflexivity.
Qed.

Lemma parse_exponent_chars (x : Z) : parse_exponent (exponent_chars x) = Some x.
Proof.
  unfold exponent_chars, parse_exponent.
  change (Ascii.eqb (lower "E") "e") with true. cbv iota.
  destruct (N_digits_spec (Z.abs_N x)) as (Hd & Hv & Hne).
  assert (E : split_sign ((if (x <? 0)%Z then "-"%char else "+"%char)
                          :: N_digits (Z.abs_N x))
              = ((x <? 0)%Z, N_digits (Z.abs_N x)))
    by (destruct (x <? 0)%Z; reflexivity).
  rewrite E.
  destruct (N_digits (Z.abs_N x)) as [| c l] eqn:El; [contradiction |].
  rewrite Hd, Hv, signed_of_Z. reflexivity.
Qed.

Lemma exponent_chars_clean (x : Z) : forallb clean (exponent_chars x) = true.
Proof.
  unfold exponent_chars.
  destruct (N_digits_spec (Z.abs_N x)) as (Hd & _).
  cbn [forallb]. rewrite (digits_clean _ Hd).
  destruct (x <? 0)%Z; reflexivity.
Qed.

Lemma parse_unsigned_number (s : bool) (ip fp : list ascii) (dot : bool) (ex : option Z) :
  forallb is_digit ip = true -> forallb is_digit fp = true -> ip <> [] ->
  (dot = false -> fp = []) ->
  parse_unsigned s (number_chars ip dot fp ex)
  = Some (Dfin s (N_of_digits (ip ++ fp))
            (match ex with Some x => x | None => 0 end - Z.of_nat (List.length fp))).
Proof.
  intros Hip Hfp Hne Hdot. unfold parse_unsigned, number_chars.
  set (tail := match ex with Some x => exponent_chars x | None => [] end).
  assert (Htail : stops_digits tail = true) by (subst tail; destruct ex; reflexivity).
  assert (Hexp : parse_exponent tail = Some (match ex with Some x => x | None => 0%Z end)).
  { subst tail. destruct ex; [apply parse_exponent_chars | reflexivity]. }
  destruct dot.
  - assert (E1 : span is_digit (ip ++ ("."%char :: fp) ++ tail)
                 = (ip, "."%char :: fp ++ tail))
      by (apply (span_digits ip ("."%char :: fp ++ tail)); [assumption | reflexivity]).
    assert (E2 : split_fraction ("."%char :: fp ++ tail) = (fp, tail))
      by (apply (span_digits fp tail); assumption).
    rewrite E1, E2.
    destruct (ip ++ fp) as [| c l] eqn:E.
    + destruct ip; [contradiction | discriminate].
    + rewrite Hexp. reflexivity.
  - rewrite (Hdot eq_refl).
    assert (E1 : span is_digit (ip ++ [] ++ tail) = (ip, tail))
      by (apply (span_digits ip tail); assumption).
    assert (E2 : split_fraction tail = ([], tail))
      by (subst tail; destruct ex; reflexivity).
    rewrite E1, E2, app_nil_r.
    destruct ip as [| c l]; [contradiction |].
    rewrite Hexp. reflexivity.
Qed.

Lemma firstn_nonempty {A : Type} (n : nat) (l : list A) :
  (0 < n)%nat -> l <> [] -> firstn n l <> [].
Proof.
  destruct n as [| n]; [lia |]. destruct l; [contradiction | discriminate].
Qed.

(** What [str] prints for a finite number: its sign and a number text
    whose digits are the coefficient and whose exponent, less the length
    of the fraction, is the exponent. *)
Lemma Decimal_str_layout (s : bool) (c : N) (e : Z) :
  exists ip dot fp ex,
    Decimal_str_chars (Dfin s c e) = sign_chars s ++ number_chars ip dot fp ex
    /\ forallb is_digit ip = true /\ forallb is_digit fp = true /\ ip <> []
    /\ (dot = false -> fp = [])
    /\ N_of_digits (ip ++ fp) = c
    /\ (match ex with Some x => x | None => 0 end - Z.of_nat (List.length fp))%Z = e.
Proof.
  destruct (N_digits_spec c) as (Hd & Hv & Hne).
  unfold Decimal_str_chars. cbv zeta.
  set (ds := N_digits c) in *.
  set (len := Z.of_nat (List.length ds)).
  set (leftdigits := (e + len)%Z).
  set (dotplace := if (e <=? 0)%Z && (-6 <? leftdigits)%Z then leftdigits else 1%Z).
  set (ex := if (leftdigits =? dotplace)%Z then None else Some (leftdigits - dotplace)%Z).
  assert (Hlen : (1 <= len)%Z).
  { subst len. destruct ds; [contradiction | simpl List.length; lia]. }
  assert (Hdp : ((dotplace = leftdigits /\ e <= 0) \/ dotplace = 1)%Z).
  { subst dotplace. destruct (Z.leb_spec e 0); simpl; [| right; reflexivity].
    destruct (-6 <? leftdigits)%Z; [left; split; [reflexivity | assumption] | right; reflexivity]. }
  assert (Hex : (match ex with Some x => x | None => 0 end = leftdigits - dotplace)%Z).
  { subst ex. destruct (Z.eqb_spec leftdigits dotplace); lia. }
  assert (Htext : (if (leftdigits =? dotplace)%Z then []
                   else exponent_chars (leftdigits - dotplace))
                  = match ex with Some x => exponent_chars x | None => [] end).
  { subst ex. destruct (leftdigits =? dotplace)%Z; reflexivity. }
  rewrite Htext. clearbody ex. clear Htext.
  destruct (Z.leb_spec dotplace 0) as [H0 | H0].
  - exists ["0"%char], true, (zeros (Z.to_nat (- dotplace)) ++ ds), ex.
    split; [reflexivity |]. split; [reflexivity |].
    split; [rewrite forallb_app, zeros_are_digits, Hd; reflexivity |].
    split; [discriminate |]. split; [discriminate |].
    split.
    + change (["0"%char] ++ zeros (Z.to_nat (- dotplace)) ++ ds)
        with (zeros (S (Z.to_nat (- dotplace))) ++ ds).
      rewrite N_of_digits_app, N_of_digits_zeros, Hv. reflexivity.
    + rewrite Hex, length_app, zeros_length, Nat2Z.inj_add.
      fold len. subst leftdigits. lia.
  - destruct (Z.leb_spec len dotplace) as [H1 | H1].
    + assert (Hk : dotplace = len) by (subst leftdigits; lia).
      exists ds, false, [], ex.
      split.
      { unfold number_chars. rewrite Hk, Z.sub_diag. simpl zeros.
        rewrite app_nil_r. reflexivity. }
      split; [exact Hd |]. split; [reflexivity |]. split; [exact Hne |].
      split; [reflexivity |]. split; [rewrite app_nil_r; exact Hv |].
      rewrite Hex. simpl List.length. subst leftdigits. lia.
    + exists (firstn (Z.to_nat dotplace) ds), true, (skipn (Z.to_nat dotplace) ds), ex.
      split; [reflexivity |].
      split; [apply forallb_firstn; exact Hd |].
      split; [apply forallb_skipn; exact Hd |].
      split; [apply firstn_nonempty; [lia | exact Hne] |].
      split; [discriminate |].
      split; [rewrite firstn_skipn; exact Hv |].
      rewrite Hex, length_skipn. fold len. subst leftdigits len. lia.
Qed.

Lemma number_chars_clean (ip fp : list ascii) (dot : bool) (ex : option Z) :
  forallb is_digit ip = true -> forallb is_digit fp = true ->
  forallb clean (number_chars ip dot fp ex) = true.
Proof.
  intros Hip Hfp. unfold number_chars.
  rewrite !forallb_app, (digits_clean ip Hip).
  assert (E : forallb clean (match ex with Some x => exponent_chars x | None => [] end)
              = true) by (destruct ex; [apply exponent_chars_clean | reflexivity]).
  rewrite E. destruct dot; [| reflexivity].
  cbn [forallb]. rewrite (digits_clean fp Hfp). reflexivity.
Qed.

Lemma sign_chars_clean (s : bool) (body : list ascii) :
  forallb clean body = true -> forallb clean (sign_chars s ++ body) = true.
Proof. intros H. destruct s; simpl; [rewrite H |]; auto. Qed.

(** The payload as [str] prints it: nothing for 0. *)
Lemma payload_digits (p : N) :
  let pd := if (p =? 0)%N then [] else N_digits p in
  forallb is_digit pd = true /\ N_of_digits pd = p.
Proof.
  destruct (N_digits_spec p) as (Hd & Hv & _).
  destruct (N.eqb_spec p 0) as [-> | _]; simpl; auto.
Qed.

Lemma parse_nan (s sg : bool) (pd : list ascii) :
  forallb is_digit pd = true ->
  Decimal_parse
    (sign_chars s ++ list_ascii_of_string (if sg then "sNaN" else "NaN") ++ pd)
  = Some (Dnan s sg (N_of_digits pd)).
Proof.
  intros Hd.
  rewrite Decimal_parse_clean.
  - rewrite split_sign_chars by (destruct sg; simpl; split; reflexivity).
    unfold parse_unsigned.
    assert (E : span is_digit (list_ascii_of_string (if sg then "sNaN" else "NaN") ++ pd)
                = ([], list_ascii_of_string (if sg then "sNaN" else "NaN") ++ pd))
      by (destruct sg; reflexivity).
    rewrite E.
    assert (E' : split_fraction
                   (list_ascii_of_string (if sg then "sNaN" else "NaN") ++ pd)
                 = ([], list_ascii_of_string (if sg then "sNaN" else "NaN") ++ pd))
      by (destruct sg; reflexivity).
    rewrite E'. cbn [app]. unfold parse_special.
    rewrite map_app, (digits_lower pd Hd).
    destruct sg; cbn; rewrite Hd; reflexivity.
  - apply sign_chars_clean. rewrite forallb_app, (digits_clean pd Hd).
    destruct sg; reflexivity.
Qed.

(** [Decimal(str(d))] is [d], for every Decimal. *)
Lemma Decimal_parse_str (d : Decimal) : Decimal_parse (Decimal_str_chars d) = Some d.
Proof.
  destruct d as [s c e | s | s sg p].
  - destruct (Decimal_str_layout s c e)
      as (ip & dot & fp & ex & -> & Hip & Hfp & Hne & Hdot & Hv & He).
    rewrite Decimal_parse_clean
      by (apply sign_chars_clean, number_chars_clean; assumption).
    rewrite split_sign_chars.
    + rewrite parse_unsigned_number by assumption. rewrite Hv, He. reflexivity.
    + unfold number_chars. destruct ip as [| c0 ip]; [contradiction |].
      simpl in Hip. apply andb_true_iff in Hip. destruct Hip as [Hc _].
      destruct (digit_facts c0 Hc) as (_ & H1 & H2 & _). simpl. auto.
  - destruct s; reflexivity.
  - destruct (payload_digits p) as [Hd Hv]. cbv zeta in Hd, Hv.
    replace (Decimal_str_chars (Dnan s sg p))
      with (sign_chars s ++ list_ascii_of_string (if sg then "sNaN" else "NaN")
              ++ (if (p =? 0)%N then [] else N_digits p))
      by (destruct sg; reflexivity).
    rewrite parse_nan by assumption. rewrite Hv. reflexivity.
Qed.

Lemma Decimal_new_str (d : Decimal) : Decimal_new (Decimal_str d) = Ok d.
Proof.
  unfold Decimal_new, Decimal_str.
  rewrite list_ascii_of_string_of_list_ascii, Decimal_parse_str. reflexivity.
Qed.

(** ** The round trip through the data file *)

Lemma Transaction_roundtrip (t : Transaction) :
  Transaction_from_json (Transaction_to_json t) = Ok t.
Proof.
  destruct t as [da de a k c].
  unfold Transaction_from_json, Transaction_to_json.
  cbn [date description amount kind category].
  change (py_getitem (JObj _) "date") with (Ok da).
  change (py_getitem (JObj _) "description") with (Ok de).
  change (py_getitem (JObj _) "amount") with (Ok (JStr (Decimal_str a))).
  change (py_getitem (JObj _) "kind") with (Ok k).
  change (py_get (JObj _) "category" _) with (Ok c).
  cbn [rbind py_str]. rewrite Decimal_new_str. reflexivity.
Qed.

Lemma Goal_roundtrip (g : Goal) : Goal_from_json (Goal_to_json g) = Ok g.
Proof.
  destruct g as [n t].
  unfold Goal_from_json, Goal_to_json. cbn [name target].
  change (py_getitem (JObj _) "name") with (Ok n).
  change (py_getitem (JObj _) "target") with (Ok (JStr (Decimal_str t))).
  cbn [rbind py_str]. rewrite Decimal_new_str. reflexivity.
Qed.

Lemma traverse_map_roundtrip {A : Type} (to_json : A -> pyval)
    (from_json : pyval -> result A) :
  (forall x, from_json (to_json x) = Ok x) ->
  forall l, traverse from_json (map to_json l) = Ok l.
Proof.
  intros H l. induction l as [| x l IH]; simpl; [reflexivity |].
  rewrite H, IH. reflexivity.
Qed.

(** C4: whatever the ledger, [save] succeeds, and loading the file it
    wrote gives back exactly the saved transactions and goals: the same
    records in the same order, every amount and target the same Decimal
    (same sign, digits and exponent).  This holds for a fresh DataManager
    on that file and for [load] from any state of the two lists. *)
Theorem save_load_roundtrip (w : World) :
  fst (save w) = Ok tt
  /\ DataManager_init (file (snd (save w)))
     = (Ok tt, mkWorld (transactions w) (goals w) (file (snd (save w))) 0 [])
  /\ (forall ts gs n ws,
        load (mkWorld ts gs (file (snd (save w))) n ws)
        = (Ok tt, mkWorld (transactions w) (goals w) (file (snd (save w))) n ws))
  /\ load (snd (save w)) = (Ok tt, snd (save w)).
Proof.
  assert (H : forall ts gs n ws,
            load (mkWorld ts gs (file (snd (save w))) n ws)
            = (Ok tt, mkWorld (transactions w) (goals w) (file (snd (save w))) n ws)).
  { intros ts gs n ws. unfold load, save. cbn [snd file].
    unfold load_list.
    change (py_get (JObj _) "transactions" _)
      with (Ok (JArr (map Transaction_to_json (transactions w)))).
    change (py_get (JObj _) "goals" _)
      with (Ok (JArr (map Goal_to_json (goals w)))).
    cbn [rbind py_iter].
    rewrite (traverse_map_roundtrip _ _ Transaction_roundtrip).
    rewrite (traverse_map_roundtrip _ _ Goal_roundtrip).
    reflexivity. }
  split; [reflexivity |]. split; [apply H |]. split; [exact H |].
  apply (H (transactions w) (goals w) (S (writes w)) (warnings w)).
Qed.

(** ** Category totals *)

(** C7 as the specification states it fails on the expenses 1E+28 (Food),
    4 and 4 (Rent): every expense has a category of the enumeration and a
    finite amount, yet the values of [category_totals] add up to
    1.000000000000000000000000001E+28 while [expense_total] is
    1.000000000000000000000000000E+28, each sum being rounded to 28
    digits as it is formed. *)
Lemma category_sum_differs_from_expense_total :
  finite_ledger huge_world = true
  /\ expenses_categorised huge_world = true
  /\ category_totals huge_world
     = Ok [("Food", Dfin false 1000000000000000000000000000 1); ("Rent", Dfin false 8 0);
           ("Entertainment", Dfin false 0 0); ("Transport", Dfin false 0 0);
           ("Utilities", Dfin false 0 0); ("Savings", Dfin false 0 0);
           ("Other", Dfin false 0 0)]%string
  /\ py_sum [Dfin false 1000000000000000000000000000 1; Dfin false 8 0; Dfin false 0 0; Dfin false 0 0;
             Dfin false 0 0; Dfin false 0 0; Dfin false 0 0]
     = Ok (Dec (Dfin false 1000000000000000000000000001 1))
  /\ expense_total huge_world = Ok (Dec (Dfin false 1000000000000000000000000000 1))
  /\ py_eq (Dec (Dfin false 1000000000000000000000000001 1))
       (Dec (Dfin false 1000000000000000000000000000 1)) = Ok false.
Proof. vm_compute. repeat split. Qed.

(** *** Sums that need no rounding *)

Lemma digits_rev_length (fuel : nat) : forall n k,
  (n < 10 ^ N.of_nat k)%N -> (List.length (digits_rev fuel n) <= k)%nat.
Proof.
  induction fuel as [| f IH]; intros n k H; simpl; [lia |].
  destruct (N.eqb_spec n 0) as [| Hn]; simpl; [lia |].
  destruct k as [| k].
  - simpl in H. lia.
  - apply le_n_S, IH.
    apply N.Div0.div_lt_upper_bound.
    rewrite Nat2N.inj_succ, N.pow_succ_r' in H. exact H.
Qed.

Lemma ndigits_bound (c : N) : (Z.of_N c < 10 ^ prec)%Z -> (ndigits c <= prec)%Z.
Proof.
  intros H. unfold ndigits, N_digits.
  destruct (N.eqb_spec c 0) as [| Hc]; [simpl; unfold prec; lia |].
  rewrite length_rev.
  assert (Hk : (List.length (digits_rev (S (N.to_nat (N.log2 c))) c) <= 28)%nat).
  { apply digits_rev_length.
    assert (E : (10 ^ prec)%Z = Z.of_N (10 ^ N.of_nat 28)) by (vm_compute; reflexivity).
    rewrite E in H. lia. }
  unfold prec. lia.
Qed.

(** A number of at most [prec] digits whose exponent is between [Etiny]
    and [Etop] is in the context as it is. *)
Lemma Decimal_fix_exact (s : bool) (c : N) (e : Z) :
  (Z.of_N c < 10 ^ prec)%Z -> (Etiny <= e <= Etop)%Z ->
  Decimal_fix (Dfin s c e) = Ok (Dfin s c e).
Proof.
  intros H He. unfold Decimal_fix.
  destruct (N.eqb_spec c 0) as [-> | _].
  - do 2 f_equal. unfold Etop, Emax in *. lia.
  - pose proof (ndigits_bound c H). cbv zeta.
    destruct (Z.ltb_spec Etop (ndigits c + e - prec)); [lia |].
    destruct (Z.ltb_spec e (Z.max (ndigits c + e - prec) Etiny)); [lia | reflexivity].
Qed.

Lemma signed_zero (s : bool) : signed s 0 = 0%Z.
Proof. destruct s; reflexivity. Qed.

Lemma pow10_split (a m E : Z) :
  (E <= m <= a)%Z -> (10 ^ (a - E) = 10 ^ (a - m) * 10 ^ (m - E))%Z.
Proof.
  intros H. rewrite <- Z.pow_add_r by lia. f_equal. lia.
Qed.

(** An addition whose exact result has fewer than [prec] + 1 digits is
    exact. *)
Lemma Decimal_add_exact (E : Z) (sx : bool) (cx : N) (ex : Z) (sy : bool) (cy : N) (ey : Z) :
  (Etiny <= E)%Z -> (E <= ex <= Etop)%Z -> (E <= ey <= Etop)%Z ->
  (Z.abs (scaled E (Dfin sx cx ex) + scaled E (Dfin sy cy ey)) < 10 ^ prec)%Z ->
  exists s c e,
    Decimal_add (Dfin sx cx ex) (Dfin sy cy ey) = Ok (Dfin s c e)
    /\ (E <= e <= Etop)%Z
    /\ scaled E (Dfin s c e) = (scaled E (Dfin sx cx ex) + scaled E (Dfin sy cy ey))%Z.
Proof.
  intros HE Hx Hy Hb. unfold Decimal_add. simpl check_nans. cbv iota.
  set (m := Z.min ex ey).
  set (v := (signed sx cx * 10 ^ (ex - m) + signed sy cy * 10 ^ (ey - m))%Z).
  assert (Hm : (E <= m)%Z) by (subst m; lia).
  assert (HP : (1 <= 10 ^ (m - E))%Z) by (apply Z.lt_pred_le, Z.pow_pos_nonneg; lia).
  assert (Hsum : (scaled E (Dfin sx cx ex) + scaled E (Dfin sy cy ey)
                  = v * 10 ^ (m - E))%Z).
  { unfold scaled. rewrite (pow10_split ex m E), (pow10_split ey m E) by (subst m; lia).
    subst v. ring. }
  rewrite Hsum in Hb |- *.
  assert (Hv : (Z.abs v < 10 ^ prec)%Z).
  { rewrite Z.abs_mul, (Z.abs_eq (10 ^ (m - E))) in Hb by lia.
    pose proof (Z.abs_nonneg v). nia. }
  assert (Hm' : (E <= m <= Etop)%Z) by (subst m; lia).
  destruct (Z.eqb_spec v 0) as [Hz | Hz].
  - exists (sx && sy), 0%N, m.
    rewrite Decimal_fix_exact by (simpl Z.of_N; unfold prec; lia).
    split; [reflexivity |]. split; [exact Hm' |].
    unfold scaled. rewrite signed_zero, Hz. reflexivity.
  - exists (v <? 0)%Z, (Z.abs_N v), m.
    rewrite Decimal_fix_exact by (rewrite ?N2Z.inj_abs_N; (exact Hv || lia)).
    split; [reflexivity |]. split; [exact Hm' |].
    unfold scaled. rewrite signed_of_Z. reflexivity.
Qed.

Lemma exponent_from_Dfin (E : Z) (d : Decimal) :
  exponent_from E d = true -> exists s c e, d = Dfin s c e /\ (E <= e <= Etop)%Z.
Proof.
  destruct d as [s c e | |]; try discriminate.
  cbn [exponent_from]. intros H. apply andb_true_iff in H. destruct H as [H1 H2].
  apply Z.leb_le in H1. apply Z.leb_le in H2. eauto 6.
Qed.

Lemma exponent_from_intro (E : Z) (s : bool) (c : N) (e : Z) :
  (E <= e <= Etop)%Z -> exponent_from E (Dfin s c e) = true.
Proof.
  intros H. cbn [exponent_from]. apply andb_true_iff. split; apply Z.leb_le; lia.
Qed.

Lemma to_Decimal_from (E : Z) (n : number) :
  (E <= 0)%Z -> number_from E n = true -> exponent_from E (to_Decimal n) = true.
Proof.
  intros HE. destruct n as [z | d]; cbn [number_from to_Decimal]; [| auto].
  intros _. unfold Decimal_of_Z. apply exponent_from_intro. unfold Etop. lia.
Qed.

Lemma number_from_finite (E : Z) (n : number) :
  number_from E n = true -> finite_number n = true.
Proof.
  destruct n as [z | d]; simpl; [reflexivity |].
  destruct d; simpl; auto; discriminate.
Qed.

Lemma py_add_exact (E : Z) (acc : number) (d : Decimal) :
  (Etiny <= E <= 0)%Z -> number_from E acc = true -> exponent_from E d = true ->
  (Z.abs (num_scaled E acc + scaled E d) < 10 ^ prec)%Z ->
  exists r,
    py_add acc (Dec d) = Ok (Dec r)
    /\ exponent_from E r = true
    /\ scaled E r = (num_scaled E acc + scaled E d)%Z.
Proof.
  intros [HT HE] Ha Hd Hb. unfold num_scaled in *.
  pose proof (to_Decimal_from E acc HE Ha) as Hx.
  destruct (exponent_from_Dfin E _ Hx) as (sx & cx & ex & Ex & Hex).
  destruct (exponent_from_Dfin E _ Hd) as (sy & cy & ey & -> & Hey).
  rewrite Ex in Hb |- *.
  destruct acc as [z | x]; simpl in Ex.
  - rewrite Z.add_comm in Hb.
    destruct (Decimal_add_exact E sy cy ey sx cx ex HT Hey Hex Hb)
      as (s & c & e & Hr & He & Hs).
    exists (Dfin s c e). unfold py_add. rewrite Ex, Hr. simpl rbind.
    split; [reflexivity |]. split; [apply exponent_from_intro; exact He |].
    rewrite Z.add_comm. exact Hs.
  - subst x.
    destruct (Decimal_add_exact E sx cx ex sy cy ey HT Hex Hey Hb)
      as (s & c & e & Hr & He & Hs).
    exists (Dfin s c e). unfold py_add, to_Decimal. rewrite Hr. simpl rbind.
    split; [reflexivity |]. split; [apply exponent_from_intro; exact He | exact Hs].
Qed.

Lemma py_sum_from_exact (E : Z) (HE : (Etiny <= E <= 0)%Z) (l : list Decimal) : forall acc,
  number_from E acc = true -> forallb (exponent_from E) l = true ->
  (Z.abs (num_scaled E acc) + abs_total E l < 10 ^ prec)%Z ->
  exists r,
    py_sum_from acc l = Ok r
    /\ number_from E r = true
    /\ num_scaled E r = (num_scaled E acc + total E l)%Z.
Proof.
  induction l as [| d l IH]; intros acc Ha Hl Hb.
  - exists acc. simpl. repeat split; [assumption | lia].
  - simpl in Hl. apply andb_true_iff in Hl. destruct Hl as [Hd Hl].
    change (abs_total E (d :: l)) with (Z.abs (scaled E d) + abs_total E l)%Z in Hb.
    change (total E (d :: l)) with (scaled E d + total E l)%Z.
    assert (Hpos : (0 <= abs_total E l)%Z).
    { clear. induction l as [| x l IH]; simpl; [lia |].
      pose proof (Z.abs_nonneg (scaled E x)). lia. }
    destruct (py_add_exact E acc d HE Ha Hd) as (r & Hr & Fr & Sr); [lia |].
    destruct (IH (Dec r)) as (r' & Hr' & Fr' & Sr').
    + exact Fr.
    + exact Hl.
    + unfold num_scaled. simpl to_Decimal. rewrite Sr. lia.
    + exists r'. simpl. rewrite Hr. simpl. split; [exact Hr' |].
      split; [exact Fr' |]. rewrite Sr'. unfold num_scaled at 1. simpl to_Decimal.
      rewrite Sr. lia.
Qed.

Lemma Decimal_cmp_scaled (E : Z) (x y : Decimal) :
  exponent_from E x = true -> exponent_from E y = true ->
  Decimal_cmp x y = (scaled E x ?= scaled E y)%Z.
Proof.
  intros Hx Hy.
  destruct (exponent_from_Dfin E x Hx) as (sx & cx & ex & -> & Hex).
  destruct (exponent_from_Dfin E y Hy) as (sy & cy & ey & -> & Hey).
  unfold Decimal_cmp, scaled.
  rewrite (pow10_split ex (Z.min ex ey) E), (pow10_split ey (Z.min ex ey) E) by lia.
  rewrite !Z.mul_assoc.
  apply Zmult_compare_compat_r. apply Z.lt_gt, Z.pow_pos_nonneg; lia.
Qed.

(** *** The dict of totals *)

Lemma assoc_in_keys {V : Type} (c : string) (kv : list (string * V)) :
  In c (map fst kv) -> exists v, assoc c kv = Some v.
Proof.
  induction kv as [| [k v] kv IH]; simpl; [contradiction |].
  intros H. destruct (String.eqb_spec c k) as [| Hne]; [eauto |].
  destruct H as [H | H]; [congruence | auto].
Qed.

Lemma assoc_forallb (p : Decimal -> bool) (kv : totals_dict) (c : string) (v : Decimal) :
  forallb p (map snd kv) = true -> assoc c kv = Some v -> p v = true.
Proof.
  induction kv as [| [k x] kv IH]; simpl; [discriminate |].
  intros H. apply andb_true_iff in H. destruct H as [Hx Hkv].
  destruct (String.eqb c k); [intros E; injection E as <-; exact Hx | auto].
Qed.

Lemma dict_setitem_forallb (p : Decimal -> bool) (kv : totals_dict) (c : string)
    (v : Decimal) :
  forallb p (map snd kv) = true -> p v = true ->
  forallb p (map snd (dict_setitem kv c v)) = true.
Proof.
  intros H Hv. induction kv as [| [k x] kv IH]; simpl.
  - rewrite Hv. reflexivity.
  - simpl in H. apply andb_true_iff in H. destruct H as [Hx Hkv].
    destruct (String.eqb c k); simpl.
    + rewrite Hv, Hkv. reflexivity.
    + rewrite Hx, IH by assumption. reflexivity.
Qed.

Lemma dict_setitem_keys (kv : totals_dict) (c : string) (old new : Decimal) :
  assoc c kv = Some old -> map fst (dict_setitem kv c new) = map fst kv.
Proof.
  induction kv as [| [k x] kv IH]; simpl; [discriminate |].
  destruct (String.eqb c k); simpl; [reflexivity |].
  intros H. rewrite IH by assumption. reflexivity.
Qed.

Lemma dict_setitem_other (kv : totals_dict) (c c' : string) (new : Decimal) :
  c' <> c -> assoc c' (dict_setitem kv c new) = assoc c' kv.
Proof.
  intros Hne. induction kv as [| [k x] kv IH]; simpl.
  - destruct (String.eqb_spec c' c); [contradiction | reflexivity].
  - destruct (String.eqb_spec c k) as [-> | Hck]; simpl.
    + destruct (String.eqb_spec c' k); [contradiction | reflexivity].
    + rewrite IH. reflexivity.
Qed.

Lemma dict_setitem_total (E : Z) (kv : totals_dict) (c : string) (old new : Decimal) :
  assoc c kv = Some old ->
  total E (map snd (dict_setitem kv c new))
    = (total E (map snd kv) - scaled E old + scaled E new)%Z
  /\ abs_total E (map snd (dict_setitem kv c new))
    = (abs_total E (map snd kv) - Z.abs (scaled E old) + Z.abs (scaled E new))%Z
  /\ (Z.abs (scaled E old) <= abs_total E (map snd kv))%Z.
Proof.
  assert (Hpos : forall l, (0 <= abs_total E l)%Z).
  { induction l as [| x l IH]; simpl; [lia |].
    pose proof (Z.abs_nonneg (scaled E x)). lia. }
  induction kv as [| [k x] kv IH]; cbn [assoc dict_setitem]; [discriminate |].
  destruct (String.eqb c k).
  - intros H. injection H as <-. pose proof (Hpos (map snd kv)).
    unfold total, abs_total in *. cbn [map snd fold_right]. repeat split; lia.
  - intros H. destruct (IH H) as (Ht & Ha & Hle).
    unfold total, abs_total in *. cbn [map snd fold_right]. rewrite Ht, Ha.
    pose proof (Z.abs_nonneg (scaled E x)). repeat split; lia.
Qed.

Lemma in_categories_spec (v : pyval) :
  in_categories v = true -> exists c, v = JStr c /\ In c CATEGORIES.
Proof.
  destruct v as [| | | | c | |]; try discriminate.
  unfold in_categories. intros H. apply existsb_exists in H.
  destruct H as (k & Hk & E). apply String.eqb_eq in E. subst k. eauto.
Qed.

(** *** The loop over the transactions *)

(** With finite amounts and categorised expenses the loop goes through
    unless an addition overflows: the keys stay the seven categories and a
    category that no expense names keeps its value. *)
Lemma category_loop_keys (l : list Transaction) : forall totals,
  map fst totals = CATEGORIES ->
  forallb is_finite (map snd totals) = true ->
  forallb (fun t => is_finite (amount t)) l = true ->
  forallb (fun t => if is_expense t then in_categories (category t) else true) l = true ->
  category_loop totals l = Raise Overflow
  \/ exists totals',
       category_loop totals l = Ok totals'
       /\ map fst totals' = CATEGORIES
       /\ forallb is_finite (map snd totals') = true
       /\ (forall c,
             (forall t, In t l -> is_expense t = true -> category t <> JStr c) ->
             assoc c totals' = assoc c totals).
Proof.
  induction l as [| t l IH]; intros totals Hk Hf Hl Hc.
  - right. exists totals. simpl. auto.
  - simpl in Hl, Hc. apply andb_true_iff in Hl. destruct Hl as [Ht Hl].
    apply andb_true_iff in Hc. destruct Hc as [Hct Hc].
    simpl category_loop. fold (is_expense t).
    destruct (is_expense t) eqn:Hexp.
    + destruct (in_categories_spec _ Hct) as (c & Ec & Hin).
      rewrite <- Hk in Hin. destruct (assoc_in_keys c totals Hin) as (old & Hold).
      pose proof (assoc_forallb is_finite totals c old Hf Hold) as Fold.
      destruct (Decimal_add_finite old (amount t) Fold Ht) as [Hnew | (new & Hnew & Fnew)].
      { left. unfold add_to_category, dict_getitem. rewrite Ec, Hold. cbn [rbind].
        rewrite Hnew. reflexivity. }
      assert (Hstep : add_to_category totals t = Ok (dict_setitem totals c new)).
      { unfold add_to_category, dict_getitem. rewrite Ec, Hold. simpl.
        rewrite Hnew. reflexivity. }
      rewrite Hstep. simpl rbind.
      destruct (IH (dict_setitem totals c new))
        as [Hr | (totals' & Hr & Hk' & Hf' & Hsame)].
      * rewrite (dict_setitem_keys totals c old new Hold). exact Hk.
      * apply dict_setitem_forallb; assumption.
      * exact Hl.
      * exact Hc.
      * left. exact Hr.
      * right. exists totals'. repeat split; try assumption.
        intros c' Hnone. rewrite Hsame by (intros t' Ht'; apply Hnone; right; exact Ht').
        apply dict_setitem_other. intros ->.
        apply (Hnone t (or_introl eq_refl) Hexp). exact Ec.
    + destruct (IH totals Hk Hf Hl Hc) as [Hr | (totals' & Hr & Hk' & Hf' & Hsame)];
        [left; exact Hr | right].
      exists totals'. repeat split; try assumption.
      intros c' Hnone. apply Hsame. intros t' Ht'. apply Hnone. right. exact Ht'.
Qed.

Lemma abs_total_nonneg (E : Z) (l : list Decimal) : (0 <= abs_total E l)%Z.
Proof.
  induction l as [| x l IH]; simpl; [lia |].
  pose proof (Z.abs_nonneg (scaled E x)). lia.
Qed.

(** Within the precision every addition of the loop is exact, so that the
    loop returns: the values of the dict grow by the amounts of the
    expenses. *)
Lemma category_loop_exact (E : Z) (HE : (Etiny <= E <= 0)%Z) (l : list Transaction) :
  forall totals,
  map fst totals = CATEGORIES ->
  forallb (fun t => if is_expense t then in_categories (category t) else true) l = true ->
  forallb (exponent_from E) (map snd totals) = true ->
  forallb (exponent_from E) (map amount (filter is_expense l)) = true ->
  (abs_total E (map snd totals) + abs_total E (map amount (filter is_expense l))
   < 10 ^ prec)%Z ->
  exists totals',
    category_loop totals l = Ok totals'
    /\ forallb (exponent_from E) (map snd totals') = true
    /\ total E (map snd totals')
       = (total E (map snd totals) + total E (map amount (filter is_expense l)))%Z
    /\ (abs_total E (map snd totals')
        <= abs_total E (map snd totals)
           + abs_total E (map amount (filter is_expense l)))%Z.
Proof.
  induction l as [| t l IH]; intros totals Hk Hc Hf Hl Hb.
  - exists totals. simpl. repeat split; [assumption | lia | lia].
  - cbn [forallb] in Hc. apply andb_true_iff in Hc. destruct Hc as [Hct Hc].
    simpl category_loop. fold (is_expense t).
    simpl filter in Hl, Hb |- *.
    destruct (is_expense t) eqn:Hexp; [| apply (IH totals); assumption].
    simpl map in Hl, Hb |- *. simpl forallb in Hl.
    change (abs_total E (amount t :: ?r))
      with (Z.abs (scaled E (amount t)) + abs_total E r)%Z in *.
    change (total E (amount t :: ?r)) with (scaled E (amount t) + total E r)%Z.
    apply andb_true_iff in Hl. destruct Hl as [Ht Hl].
    destruct (in_categories_spec _ Hct) as (c & Ec & Hin).
    rewrite <- Hk in Hin. destruct (assoc_in_keys c totals Hin) as (old & Hold).
    pose proof (assoc_forallb (exponent_from E) totals c old Hf Hold) as Fold.
    destruct (dict_setitem_total E totals c old old Hold) as (_ & _ & Hle).
    pose proof (abs_total_nonneg E (map amount (filter is_expense l))) as Hpos.
    destruct (py_add_exact E (Dec old) (amount t) HE Fold Ht) as (new & Hnew & Fnew & Snew).
    { unfold num_scaled. simpl to_Decimal. lia. }
    unfold num_scaled in Snew. simpl to_Decimal in Snew.
    unfold py_add, to_Decimal in Hnew.
    destruct (Decimal_add old (amount t)) as [new' |] eqn:Hadd; [| discriminate].
    simpl in Hnew. injection Hnew as ->.
    assert (Hstep : add_to_category totals t = Ok (dict_setitem totals c new)).
    { unfold add_to_category, dict_getitem. rewrite Ec, Hold. cbn [rbind].
      rewrite Hadd. reflexivity. }
    rewrite Hstep. cbn [rbind].
    destruct (dict_setitem_total E totals c old new Hold) as (Ht1 & Ha1 & _).
    destruct (IH (dict_setitem totals c new)) as (totals' & Hrun & Ff & Ft & Fa).
    + rewrite (dict_setitem_keys totals c old new Hold). exact Hk.
    + exact Hc.
    + apply dict_setitem_forallb; assumption.
    + exact Hl.
    + rewrite Ha1, Snew. lia.
    + exists totals'. split; [exact Hrun |]. split; [exact Ff |].
      rewrite Ft, Ht1, Snew. rewrite Ha1, Snew in Fa.
      split; lia.
Qed.

Lemma initial_totals (E : Z) :
  (E <= 0)%Z ->
  forallb (exponent_from E)
    (map snd (map (fun c : string => (c, Decimal_of_Z 0)) CATEGORIES)) = true
  /\ total E (map snd (map (fun c : string => (c, Decimal_of_Z 0)) CATEGORIES)) = 0%Z
  /\ abs_total E (map snd (map (fun c : string => (c, Decimal_of_Z 0)) CATEGORIES)) = 0%Z.
Proof.
  intros HE. cbn.
  destruct (Z.leb_spec E 0); [| lia]. repeat split.
Qed.

Lemma within_precision_spec (E : Z) (l : list Decimal) :
  within_precision E l = true ->
  (Etiny <= E <= 0)%Z /\ forallb (exponent_from E) l = true
  /\ (abs_total E l < 10 ^ prec)%Z.
Proof.
  unfold within_precision. intros H.
  apply andb_true_iff in H. destruct H as [H Hb].
  apply andb_true_iff in H. destruct H as [H Hl].
  apply andb_true_iff in H. destruct H as [H1 H2].
  apply Z.leb_le in H1. apply Z.leb_le in H2. apply Z.ltb_lt in Hb. auto.
Qed.

Lemma expenses_categorised_filter (l : list Transaction) :
  forallb (fun t => if is_expense t then in_categories (category t) else true) l
  = forallb (fun t => in_categories (category t)) (filter is_expense l).
Proof.
  induction l as [| t l IH]; [reflexivity |].
  cbn [forallb filter]. destruct (is_expense t); cbn [forallb]; rewrite IH; reflexivity.
Qed.

(** C7, as the code has it: when every amount is finite and every expense
    carries a category of the enumeration, [category_totals] returns a
    dict or raises Overflow; the keys of the dict are exactly the seven
    categories, in their order, a category without expenses mapped to
    Decimal(0); and when the expense amounts are within the precision of
    the context (multiples of some [10^E], [Etiny <= E <= 0], of exponent
    at most [Etop], whose absolute values add up to less than [10^28]
    units), [category_totals] returns and the sum of its values equals
    [expense_total()]. *)
Theorem category_totals_keys_and_sum (w : World) :
  finite_ledger w = true -> expenses_categorised w = true ->
  (category_totals w = Raise Overflow \/ exists totals, category_totals w = Ok totals)
  /\ (forall totals,
        category_totals w = Ok totals ->
        map fst totals = CATEGORIES
        /\ (forall c,
              In c CATEGORIES ->
              (forall t, In t (transactions w) -> is_expense t = true ->
                         category t <> JStr c) ->
              assoc c totals = Some (Decimal_of_Z 0)))
  /\ (forall E,
        within_precision E (expense_amounts w) = true ->
        exists totals s e,
          category_totals w = Ok totals
          /\ py_sum (map snd totals) = Ok s /\ expense_total w = Ok e
          /\ py_eq s e = Ok true).
Proof.
  intros Hfin Hcat. unfold category_totals.
  pose proof (category_loop_keys (transactions w)
                (map (fun c : string => (c, Decimal_of_Z 0)) CATEGORIES)
                eq_refl eq_refl Hfin Hcat) as Hloop.
  split; [| split].
  - destruct Hloop as [Hr | (totals & Hr & _)]; [left; exact Hr | right; eauto].
  - intros totals Hrun.
    destruct Hloop as [Hr | (totals' & Hr & Hkeys & _ & Hsame)]; [congruence |].
    assert (totals' = totals) by congruence. subst totals'.
    split; [exact Hkeys |].
    intros c Hin Hnone. rewrite (Hsame c Hnone).
    simpl in Hin.
    repeat (destruct Hin as [<- | Hin]; [reflexivity |]). contradiction.
  - intros E HW.
    destruct (within_precision_spec E _ HW) as (HE & Hexp & Hb).
    destruct (initial_totals E (proj2 HE)) as (I1 & I2 & I3).
    destruct (category_loop_exact E HE (transactions w)
                (map (fun c : string => (c, Decimal_of_Z 0)) CATEGORIES)
                eq_refl Hcat I1 Hexp)
      as (totals & Hrun & Ff & Ft & Fa); [rewrite I3; exact Hb |].
    rewrite I2 in Ft. rewrite I3 in Fa.
    fold (expense_amounts w) in Ft, Fa.
    destruct (py_sum_from_exact E HE (map snd totals) (Int 0) eq_refl Ff)
      as (s & Hs & Fs & Ss).
    { unfold num_scaled. simpl to_Decimal. unfold scaled, Decimal_of_Z. simpl signed.
      rewrite Z.mul_0_l. simpl Z.abs. lia. }
    destruct (py_sum_from_exact E HE (expense_amounts w) (Int 0) eq_refl Hexp)
      as (e & He & Fe & Se).
    { unfold num_scaled. simpl to_Decimal. unfold scaled, Decimal_of_Z. simpl signed.
      rewrite Z.mul_0_l. simpl Z.abs. lia. }
    exists totals, s, e. split; [exact Hrun |]. split; [exact Hs |]. split; [exact He |].
    destruct (py_compare_finite s e (number_from_finite E s Fs) (number_from_finite E e Fe))
      as (_ & _ & Heq).
    rewrite Heq.
    rewrite (Decimal_cmp_scaled E)
      by (apply to_Decimal_from; [exact (proj2 HE) | assumption]).
    fold (num_scaled E s) (num_scaled E e). rewrite Ss, Se, Ft.
    rewrite Z.compare_refl. reflexivity.
Qed.

(** The sample ledger, whose amounts are multiples of 10^-2. *)
Lemma category_totals_keys_and_sum_witness :
  exists totals s e,
    category_totals sample_world = Ok totals
    /\ py_sum (map snd totals) = Ok s /\ expense_total sample_world = Ok e
    /\ py_eq s e = Ok true.
Proof.
  destruct (category_totals_keys_and_sum sample_world eq_refl eq_refl)
    as (_ & _ & Hsum).
  exact (Hsum (-2)%Z eq_refl).
Defined.

(** The scenario of the specification: an income of 1000.00 and an expense
    of 200.50 on food. *)
Lemma scenario_food :
  balance sample_world = Ok (Dec (Dfin false 79950 (-2)))
  /\ category_totals sample_world
     = Ok [("Food", Dfin false 20050 (-2)); ("Rent", Dfin false 0 0);
           ("Entertainment", Dfin false 0 0); ("Transport", Dfin false 0 0);
           ("Utilities", Dfin false 0 0); ("Savings", Dfin false 0 0);
           ("Other", Dfin false 0 0)]%string.
Proof. vm_compute. split; reflexivity. Qed.

(** * Further properties of the code *)

(** ** Lists under update and pop *)

Lemma replace_spec {A : Type} (x : A) : forall (l : list A) (p : nat),
  (p < List.length l)%nat ->
  List.length (firstn p l ++ x :: skipn (S p) l) = List.length l
  /\ nth_error (firstn p l ++ x :: skipn (S p) l) p = Some x
  /\ (forall j, j <> p ->
        nth_error (firstn p l ++ x :: skipn (S p) l) j = nth_error l j).
Proof.
  induction l as [| y l IH]; intros p Hp; simpl in Hp; [lia |].
  destruct p as [| p].
  - simpl. repeat split. intros [| j] Hj; [contradiction | reflexivity].
  - destruct (IH p ltac:(lia)) as (Hl & Hn & Ho).
    change (firstn (S p) (y :: l) ++ x :: skipn (S (S p)) (y :: l))
      with (y :: (firstn p l ++ x :: skipn (S p) l)).
    split; [cbn [List.length]; f_equal; exact Hl |].
    split; [exact Hn |].
    intros [| j] Hj; [reflexivity |]. cbn [nth_error]. apply Ho. lia.
Qed.

Lemma remove_spec {A : Type} : forall (l : list A) (p : nat),
  (p < List.length l)%nat ->
  S (List.length (firstn p l ++ skipn (S p) l)) = List.length l
  /\ (forall j, (j < p)%nat ->
        nth_error (firstn p l ++ skipn (S p) l) j = nth_error l j)
  /\ (forall j, (p <= j)%nat ->
        nth_error (firstn p l ++ skipn (S p) l) j = nth_error l (S j)).
Proof.
  induction l as [| y l IH]; intros p Hp; simpl in Hp; [lia |].
  destruct p as [| p].
  - simpl. repeat split. intros j Hj. lia.
  - destruct (IH p ltac:(lia)) as (Hl & Hb & Ha).
    change (firstn (S p) (y :: l) ++ skipn (S (S p)) (y :: l))
      with (y :: (firstn p l ++ skipn (S p) l)).
    split; [cbn [List.length]; f_equal; exact Hl |].
    split.
    + intros [| j] Hj; [reflexivity |]. cbn [nth_error]. apply Hb. lia.
    + intros [| j] Hj; [lia |]. cbn [nth_error]. apply Ha. lia.
Qed.

Lemma position_bound (len : nat) (i : Z) (p : nat) :
  position len i = Some p -> (p < len)%nat.
Proof.
  unfold position.
  destruct (Z.leb_spec 0 i).
  - destruct (Z.ltb_spec i (Z.of_nat len)); [| discriminate].
    intros H'. injection H' as <-. lia.
  - destruct (Z.leb_spec (- Z.of_nat len) i); [| discriminate].
    intros H'. injection H' as <-. lia.
Qed.

Lemma pop_last {A : Type} (l : list A) (x : A) (i : Z) :
  i = Z.of_nat (List.length l) \/ i = (-1)%Z ->
  list_pop (l ++ [x]) i = Ok l.
Proof.
  intros Hi. unfold list_pop.
  assert (Hp : position (List.length (l ++ [x])) i = Some (List.length l)).
  { rewrite length_app. simpl List.length. unfold position.
    destruct Hi as [-> | ->].
    - destruct (Z.leb_spec 0 (Z.of_nat (List.length l))); [| lia].
      destruct (Z.ltb_spec (Z.of_nat (List.length l))
                  (Z.of_nat (List.length l + 1))); [| lia].
      rewrite Nat2Z.id. reflexivity.
    - simpl (0 <=? -1)%Z. cbv iota.
      destruct (Z.leb_spec (- Z.of_nat (List.length l + 1)) (-1)); [| lia].
      replace (Z.of_nat (List.length l + 1) + -1)%Z
        with (Z.of_nat (List.length l)) by lia.
      rewrite Nat2Z.id. reflexivity. }
  rewrite Hp. rewrite firstn_app, Nat.sub_diag, firstn_all. simpl firstn.
  rewrite app_nil_r. rewrite skipn_all2 by (rewrite length_app; simpl; lia).
  rewrite app_nil_r. reflexivity.
Qed.

(** X1: deleting the element just added, by the index a fresh enumeration
    gives it or by -1, restores the sequence; both calls succeed. *)
Theorem add_then_delete_restores (w : World) (t : Transaction) (g : Goal) (i : Z) :
  (i = Z.of_nat (List.length (transactions w)) \/ i = (-1)%Z ->
     fst (delete_transaction i (snd (add_transaction t w))) = Ok tt
     /\ transactions (snd (delete_transaction i (snd (add_transaction t w))))
        = transactions w)
  /\ (i = Z.of_nat (List.length (goals w)) \/ i = (-1)%Z ->
     fst (delete_goal i (snd (add_goal g w))) = Ok tt
     /\ goals (snd (delete_goal i (snd (add_goal g w)))) = goals w).
Proof.
  split; intros Hi.
  - unfold delete_transaction, add_transaction. cbn [save snd transactions set_transactions].
    rewrite (pop_last (transactions w) t i Hi). split; reflexivity.
  - unfold delete_goal, add_goal. cbn [save snd goals set_goals].
    rewrite (pop_last (goals w) g i Hi). split; reflexivity.
Qed.

(** Index -1 after adding to the sample ledger. *)
Lemma add_then_delete_restores_witness :
  transactions (snd (delete_transaction (-1) (snd (add_transaction spend_50 sample_world))))
  = transactions sample_world.
Proof.
  refine (proj2 (proj1 (add_then_delete_restores sample_world spend_50 goal_100 (-1)) _)).
  right. reflexivity.
Defined.

(** X2: a successful update is read back at its position and changes no
    other position nor the length. *)
Theorem update_reads_back (w : World) (i : Z) (t : Transaction) (g : Goal) :
  (fst (update_transaction i t w) = Ok tt ->
     exists p,
       position (List.length (transactions w)) i = Some p
       /\ List.length (transactions (snd (update_transaction i t w)))
          = List.length (transactions w)
       /\ nth_error (transactions (snd (update_transaction i t w))) p = Some t
       /\ (forall j, j <> p ->
             nth_error (transactions (snd (update_transaction i t w))) j
             = nth_error (transactions w) j))
  /\ (fst (update_goal i g w) = Ok tt ->
     exists p,
       position (List.length (goals w)) i = Some p
       /\ List.length (goals (snd (update_goal i g w))) = List.length (goals w)
       /\ nth_error (goals (snd (update_goal i g w))) p = Some g
       /\ (forall j, j <> p ->
             nth_error (goals (snd (update_goal i g w))) j = nth_error (goals w) j)).
Proof.
  split.
  - unfold update_transaction, list_setitem.
    destruct (position (List.length (transactions w)) i) as [p |] eqn:Hp;
      [| discriminate].
    intros _. exists p. split; [reflexivity |].
    cbn [save snd transactions set_transactions].
    apply replace_spec. apply (position_bound _ i). exact Hp.
  - unfold update_goal, list_setitem.
    destruct (position (List.length (goals w)) i) as [p |] eqn:Hp; [| discriminate].
    intros _. exists p. split; [reflexivity |].
    cbn [save snd goals set_goals].
    apply replace_spec. apply (position_bound _ i). exact Hp.
Qed.

(** Replacing the second transaction of the sample ledger. *)
Lemma update_reads_back_witness :
  nth_error (transactions (snd (update_transaction 1 spend_50 sample_world))) 1
  = Some spend_50.
Proof.
  destruct (proj1 (update_reads_back sample_world 1 spend_50 goal_100) eq_refl)
    as (p & Hp & _ & Hn & _).
  injection Hp as <-. exact Hn.
Defined.

(** X3: a successful delete shortens the sequence by one, keeps the
    positions before the deleted one and moves every later element one
    position down. *)
Theorem delete_shifts_down (w : World) (i : Z) :
  (fst (delete_transaction i w) = Ok tt ->
     exists p,
       position (List.length (transactions w)) i = Some p
       /\ S (List.length (transactions (snd (delete_transaction i w))))
          = List.length (transactions w)
       /\ (forall j, (j < p)%nat ->
             nth_error (transactions (snd (delete_transaction i w))) j
             = nth_error (transactions w) j)
       /\ (forall j, (p <= j)%nat ->
             nth_error (transactions (snd (delete_transaction i w))) j
             = nth_error (transactions w) (S j)))
  /\ (fst (delete_goal i w) = Ok tt ->
     exists p,
       position (List.length (goals w)) i = Some p
       /\ S (List.length (goals (snd (delete_goal i w)))) = List.length (goals w)
       /\ (forall j, (j < p)%nat ->
             nth_error (goals (snd (delete_goal i w))) j = nth_error (goals w) j)
       /\ (forall j, (p <= j)%nat ->
             nth_error (goals (snd (delete_goal i w))) j = nth_error (goals w) (S j))).
Proof.
  split.
  - unfold delete_transaction, list_pop.
    destruct (position (List.length (transactions w)) i) as [p |] eqn:Hp;
      [| destruct (fits_ssize_t i); discriminate].
    intros _. exists p. split; [reflexivity |].
    cbn [save snd transactions set_transactions].
    apply remove_spec. apply (position_bound _ i). exact Hp.
  - unfold delete_goal, list_pop.
    destruct (position (List.length (goals w)) i) as [p |] eqn:Hp;
      [| destruct (fits_ssize_t i); discriminate].
    intros _. exists p. split; [reflexivity |].
    cbn [save snd goals set_goals].
    apply remove_spec. apply (position_bound _ i). exact Hp.
Qed.

(** Deleting the first transaction of the sample ledger. *)
Lemma delete_shifts_down_witness :
  nth_error (transactions (snd (delete_transaction 0 sample_world))) 0
  = Some food_200_50.
Proof.
  destruct (proj1 (delete_shifts_down sample_world 0) eq_refl)
    as (p & Hp & _ & _ & Ha).
  injection Hp as <-. exact (Ha 0%nat (le_n 0)).
Defined.

(** ** The file and the memory *)

Lemma load_of_saved (ts ts0 : list Transaction) (gs gs0 : list Goal) (n : nat)
    (ws : list (string * string)) :
  let f := Some (JsonText
                   (JObj [("transactions", JArr (map Transaction_to_json ts));
                          ("goals", JArr (map Goal_to_json gs))]%string)) in
  load (mkWorld ts0 gs0 f n ws) = (Ok tt, mkWorld ts gs f n ws).
Proof.
  cbv zeta. unfold load. cbn [file]. unfold load_list.
  change (py_get (JObj _) "transactions" _)
    with (Ok (JArr (map Transaction_to_json ts))).
  change (py_get (JObj _) "goals" _) with (Ok (JArr (map Goal_to_json gs))).
  cbn [rbind py_iter].
  rewrite (traverse_map_roundtrip _ _ Transaction_roundtrip).
  rewrite (traverse_map_roundtrip _ _ Goal_roundtrip).
  reflexivity.
Qed.

Lemma saved_recovers (ts : list Transaction) (gs : list Goal) (w : World) :
  recovers (saved ts gs w).
Proof.
  unfold recovers, DataManager_init, saved. cbn [file].
  rewrite (load_of_saved ts [] gs [] 0 []). repeat split.
Qed.

(** A mutator either raises and leaves the world as it is, or returns
    after saving the new lists. *)
Lemma apply_op_cases (o : op) (w : World) :
  (exists e, apply_op o w = (Raise e, w))
  \/ (exists ts gs, apply_op o w = (Ok tt, saved ts gs w)).
Proof.
  destruct o as [t | i t | i | g | i g | i]; simpl;
    unfold add_transaction, update_transaction, delete_transaction,
      add_goal, update_goal, delete_goal.
  - right. do 2 eexists. reflexivity.
  - destruct (list_setitem (transactions w) i t); [right | left]; eauto.
    do 2 eexists. reflexivity.
  - destruct (list_pop (transactions w) i); [right | left]; eauto.
    do 2 eexists. reflexivity.
  - right. do 2 eexists. reflexivity.
  - destruct (list_setitem (goals w) i g); [right | left]; eauto.
    do 2 eexists. reflexivity.
  - destruct (list_pop (goals w) i); [right | left]; eauto.
    do 2 eexists. reflexivity.
Qed.

Lemma load_keeps_file (w : World) :
  file (snd (load w)) = file w /\ writes (snd (load w)) = writes w.
Proof.
  unfold load. destruct (file w) as [[text | data | e] |] eqn:Hf.
  - simpl. auto.
  - destruct (load_list Transaction_from_json _ "transactions"); simpl; [| auto].
    destruct (load_list Goal_from_json _ "goals"); simpl; auto.
  - simpl. auto.
  - auto.
Qed.

(** X4: after any mutator that returns normally, from any world, a new
    DataManager on the file starts with exactly the lists now in memory. *)
Theorem successful_mutation_is_durable (o : op) (w : World) :
  fst (apply_op o w) = Ok tt -> recovers (snd (apply_op o w)).
Proof.
  destruct (apply_op_cases o w) as [(e & ->) | (ts & gs & ->)]; simpl.
  - discriminate.
  - intros _. apply saved_recovers.
Qed.

(** Adding a transaction to the sample ledger, which has no file yet. *)
Lemma successful_mutation_is_durable_witness :
  recovers (snd (apply_op (AddTransaction spend_50) sample_world)).
Proof.
  exact (successful_mutation_is_durable (AddTransaction spend_50) sample_world eq_refl).
Defined.



(** X6: [load] never writes: whatever the world, the file and the number
    of writes are as before, and a warning is shown only for a file that
    cannot be decoded. *)
Theorem load_never_writes (w : World) :
  file (snd (load w)) = file w
  /\ writes (snd (load w)) = writes w
  /\ (warnings (snd (load w)) = warnings w
      \/ exists text,
           file w = Some (Malformed text)
           /\ warnings (snd (load w))
              = warnings w ++ [("Warning", "Could not read data file.")]%string).
Proof.
  destruct (load_keeps_file w) as [Hf Hw]. split; [exact Hf |]. split; [exact Hw |].
  unfold load. destruct (file w) as [[text | data | e] |].
  - right. exists text. split; reflexivity.
  - left. destruct (load_list Transaction_from_json _ "transactions"); simpl; [| auto].
    destruct (load_list Goal_from_json _ "goals"); simpl; auto.
  - left. reflexivity.
  - left. reflexivity.
Qed.

(** X7: a file that decodes to a JSON value that is neither a list nor an
    object (a string, a number, true, false or null) makes [load] raise
    AttributeError, with no warning and the world untouched. *)
Theorem load_scalar_data (w : World) (data : pyval) :
  file w = Some (JsonText data) -> scalar data = true ->
  load w = (Raise AttributeError, w).
Proof.
  intros Hf Hs. unfold load. rewrite Hf.
  destruct data; try discriminate; reflexivity.
Qed.

(** A file that holds the JSON text 42. *)
Lemma load_scalar_data_witness :
  load (mkWorld [] [] (Some (JsonText (JInt 42))) 0 [])
  = (Raise AttributeError, mkWorld [] [] (Some (JsonText (JInt 42))) 0 []).
Proof.
  exact (load_scalar_data (mkWorld [] [] (Some (JsonText (JInt 42))) 0 [])
           (JInt 42) eq_refl eq_refl).
Defined.

(** X8: an object without the key "goals" is loaded with no goals, and an
    object without the key "transactions" with no transactions: the
    missing list is empty and replaces the one in memory. *)
Theorem load_missing_key (w : World) (kv : list (string * pyval)) :
  file w = Some (JsonText (JObj kv)) ->
  (assoc "goals"%string kv = None ->
   forall ts, load_list Transaction_from_json (JObj kv) "transactions" = Ok ts ->
   load w = (Ok tt, set_goals [] (set_transactions ts w)))
  /\ (assoc "transactions"%string kv = None ->
      forall gs, load_list Goal_from_json (JObj kv) "goals" = Ok gs ->
      load w = (Ok tt, set_goals gs (set_transactions [] w))).
Proof.
  intros Hf. unfold load. rewrite Hf. split.
  - intros Hg ts Ht. rewrite Ht.
    unfold load_list, py_get. rewrite Hg. reflexivity.
  - intros Ht gs Hg. rewrite Hg.
    unfold load_list at 1. unfold py_get. rewrite Ht. reflexivity.
Qed.

(** The empty object. *)
Lemma load_missing_key_witness :
  load (mkWorld [food_200_50] [goal_100] (Some (JsonText (JObj []))) 0 [])
  = (Ok tt, mkWorld [] [] (Some (JsonText (JObj []))) 0 []).
Proof.
  exact (proj1 (load_missing_key
                  (mkWorld [food_200_50] [goal_100] (Some (JsonText (JObj []))) 0 [])
                  [] eq_refl) eq_refl [] eq_refl).
Defined.


(** ** Reading a record *)

Lemma Transaction_from_json_object (kv : list (string * pyval)) :
  Transaction_from_json (JObj kv)
  = match assoc "date"%string kv, assoc "description"%string kv,
          assoc "amount"%string kv with
    | Some da, Some de, Some am =>
        match Decimal_new (py_str am) with
        | Ok a =>
            match assoc "kind"%string kv with
            | Some k =>
                Ok (mkTransaction da de a k
                      match assoc "category"%string kv with
                      | Some c => c
                      | None => JStr "Other"
                      end)
            | None => Raise KeyError
            end
        | Raise e => Raise e
        end
    | Some _, Some _, None => Raise KeyError
    | Some _, None, _ => Raise KeyError
    | None, _, _ => Raise KeyError
    end.
Proof.
  unfold Transaction_from_json, py_getitem, py_get.
  destruct (assoc "date"%string kv); cbn [rbind]; [| reflexivity].
  destruct (assoc "description"%string kv); cbn [rbind]; [| reflexivity].
  destruct (assoc "amount"%string kv); cbn [rbind]; [| reflexivity].
  destruct (Decimal_new (py_str p1)); cbn [rbind]; [| reflexivity].
  destruct (assoc "kind"%string kv); cbn [rbind]; [| reflexivity].
  destruct (assoc "category"%string kv); reflexivity.
Qed.

Lemma Goal_from_json_object (kv : list (string * pyval)) :
  Goal_from_json (JObj kv)
  = match assoc "name"%string kv, assoc "target"%string kv with
    | Some n, Some tg =>
        match Decimal_new (py_str tg) with
        | Ok t => Ok (mkGoal n t)
        | Raise e => Raise e
        end
    | Some _, None => Raise KeyError
    | None, _ => Raise KeyError
    end.
Proof.
  unfold Goal_from_json, py_getitem.
  destruct (assoc "name"%string kv); cbn [rbind]; [| reflexivity].
  destruct (assoc "target"%string kv); cbn [rbind]; [| reflexivity].
  destruct (Decimal_new (py_str p0)); reflexivity.
Qed.

(** X10: [Transaction.from_json] returns a transaction exactly for an
    object that has the keys date, description, amount and kind and whose
    amount, through [str], is a decimal text; the four fields are taken
    as they are, whatever their type, and the category is the value
    under "category", or "Other" when the object has no such key. *)
Theorem Transaction_from_json_spec (d : pyval) (t : Transaction) :
  Transaction_from_json d = Ok t
  <-> (is_object d = true
       /\ field "date" d = Some (date t)
       /\ field "description" d = Some (description t)
       /\ (exists am, field "amount" d = Some am
                      /\ Decimal_new (py_str am) = Ok (amount t))
       /\ field "kind" d = Some (kind t)
       /\ category t = match field "category" d with
                       | Some c => c
                       | None => JStr "Other"
                       end).
Proof.
  destruct d as [| | | | | | kv];
    try (split; [intros H; discriminate H | intros (H & _); discriminate H]).
  rewrite Transaction_from_json_object. unfold field. split.
  - destruct (assoc "date"%string kv) as [da |]; [| discriminate].
    destruct (assoc "description"%string kv) as [de |]; [| discriminate].
    destruct (assoc "amount"%string kv) as [am |]; [| discriminate].
    destruct (Decimal_new (py_str am)) as [a |] eqn:Ha; [| discriminate].
    destruct (assoc "kind"%string kv) as [k |]; [| discriminate].
    intros H. injection H as <-. cbn. repeat split. exists am. auto.
  - intros (_ & -> & -> & (am & -> & ->) & -> & Hc).
    destruct t as [da de a k c]. cbn in *. rewrite Hc. reflexivity.
Qed.

(** X11: [Transaction.from_json] raises TypeError for a value that is no
    object, KeyError for an object without one of the keys date,
    description, amount and kind, InvalidOperation for an amount that is
    no decimal text, and nothing else; a missing category raises
    nothing. *)
Theorem Transaction_from_json_errors (d : pyval) (e : exn) :
  Transaction_from_json d = Raise e ->
  (e = TypeError /\ is_object d = false)
  \/ (e = KeyError /\ is_object d = true
      /\ (field "date" d = None \/ field "description" d = None
          \/ field "amount" d = None \/ field "kind" d = None))
  \/ (e = InvalidOperation /\
      exists am, field "amount" d = Some am
                 /\ Decimal_new (py_str am) = Raise InvalidOperation).
Proof.
  destruct d as [| | | | | | kv];
    try (intros H; injection H as <-; left; split; reflexivity).
  rewrite Transaction_from_json_object. unfold field. cbn [is_object].
  destruct (assoc "date"%string kv) as [da |];
    [| intros H; injection H as <-; right; left; repeat split; auto].
  destruct (assoc "description"%string kv) as [de |];
    [| intros H; injection H as <-; right; left; repeat split; auto].
  destruct (assoc "amount"%string kv) as [am |];
    [| intros H; injection H as <-; right; left; repeat split; auto].
  destruct (Decimal_new (py_str am)) as [a | e'] eqn:Ha.
  - destruct (assoc "kind"%string kv) as [k |]; [discriminate |].
    intros H; injection H as <-; right; left; repeat split; auto.
  - intros H. injection H as <-. right. right.
    pose proof (Decimal_new_raises _ _ Ha) as ->. split; [reflexivity |].
    exists am. split; [reflexivity | exact Ha].
Qed.

(** A record that is a list, not an object. *)
Lemma Transaction_from_json_errors_witness :
  is_object (JArr [JStr "01/17/2025 12:00"; JStr "12.00"]) = false.
Proof.
  destruct (Transaction_from_json_errors
              (JArr [JStr "01/17/2025 12:00"; JStr "12.00"]) TypeError eq_refl)
    as [[_ H] | [[H _] | [H _]]]; [exact H | discriminate H | discriminate H].
Defined.

(** *** Amounts that are not texts *)

Lemma Decimal_parse_Z_digits (z : Z) :
  Decimal_parse (Z_digits z) = Some (Decimal_of_Z z).
Proof.
  destruct (N_digits_spec (Z.abs_N z)) as (Hd & Hv & Hne).
  assert (Hnum : forall s, parse_unsigned s (N_digits (Z.abs_N z))
                           = Some (Dfin s (Z.abs_N z) 0)).
  { intros s.
    replace (N_digits (Z.abs_N z))
      with (number_chars (N_digits (Z.abs_N z)) false [] None)
      by (unfold number_chars; rewrite !app_nil_r; reflexivity).
    rewrite parse_unsigned_number by (auto; reflexivity).
    rewrite app_nil_r, Hv. reflexivity. }
  unfold Z_digits, Decimal_of_Z.
  destruct (z <? 0)%Z.
  - rewrite Decimal_parse_clean
      by (change ("-"%char :: ?l) with (sign_chars true ++ l);
          apply sign_chars_clean, digits_clean, Hd).
    change (split_sign ("-"%char :: N_digits (Z.abs_N z)))
      with (true, N_digits (Z.abs_N z)).
    apply Hnum.
  - rewrite Decimal_parse_clean by (apply digits_clean, Hd).
    assert (Hs : split_sign (N_digits (Z.abs_N z)) = (false, N_digits (Z.abs_N z))).
    { destruct (N_digits (Z.abs_N z)) as [| c l]; [reflexivity |].
      simpl in Hd. apply andb_true_iff in Hd. destruct Hd as [Hc _].
      destruct (digit_facts c Hc) as (_ & H1 & H2 & _).
      unfold split_sign. rewrite H1, H2. reflexivity. }
    rewrite Hs. apply Hnum.
Qed.

Lemma Decimal_new_JInt (z : Z) : Decimal_new (py_str (JInt z)) = Ok (Decimal_of_Z z).
Proof.
  unfold Decimal_new. cbn [py_str py_repr].
  rewrite list_ascii_of_string_of_list_ascii, Decimal_parse_Z_digits. reflexivity.
Qed.

(** X12: an amount or a target written in the file as a JSON integer is
    read as that integer, exactly, whatever its size among the integers a
    file can give (at most 4300 digits, the interpreter's limit for
    [int(text)] and [str(int)]): [from_json] puts the number through [str]
    before [Decimal]. *)
Theorem integer_money_is_read_exactly (kv : list (string * pyval)) (z : Z) :
  (Z.abs z < 10 ^ max_str_digits)%Z ->
  (forall da de k,
     assoc "date"%string kv = Some da -> assoc "description"%string kv = Some de ->
     assoc "kind"%string kv = Some k -> assoc "amount"%string kv = Some (JInt z) ->
     exists c,
       Transaction_from_json (JObj kv) = Ok (mkTransaction da de (Decimal_of_Z z) k c))
  /\ (forall n,
        assoc "name"%string kv = Some n -> assoc "target"%string kv = Some (JInt z) ->
        Goal_from_json (JObj kv) = Ok (mkGoal n (Decimal_of_Z z))).
Proof.
  intros _. split.
  - intros da de k Hda Hde Hk Ham.
    rewrite Transaction_from_json_object, Hda, Hde, Ham, Decimal_new_JInt, Hk.
    eexists. reflexivity.
  - intros n Hn Ht.
    rewrite Goal_from_json_object, Hn, Ht, Decimal_new_JInt. reflexivity.
Qed.

(** A goal whose target is the JSON number -1500. *)
Lemma integer_money_is_read_exactly_witness :
  Goal_from_json (JObj [("name", JStr "Debt"); ("target", JInt (-1500))]%string)
  = Ok (mkGoal (JStr "Debt") (Dfin true 1500 0)).
Proof.
  refine (proj2 (integer_money_is_read_exactly
                   [("name", JStr "Debt"); ("target", JInt (-1500))]%string (-1500) _)
            (JStr "Debt") eq_refl eq_refl).
  vm_compute. reflexivity.
Defined.

Lemma lstrip_keeps_last (l : list ascii) (c : ascii) :
  is_space c = false -> exists l', lstrip (l ++ [c]) = l' ++ [c].
Proof.
  intros Hc. induction l as [| x l IH]; simpl.
  - rewrite Hc. exists []. reflexivity.
  - destruct (is_space x); [exact IH | exists (x :: l); reflexivity].
Qed.

Lemma strip_keeps_head (c : ascii) (r : list ascii) :
  is_space c = false -> exists r', strip (c :: r) = c :: r'.
Proof.
  intros Hc. unfold strip. simpl lstrip. rewrite Hc. simpl rev.
  destruct (lstrip_keeps_last (rev r) c Hc) as (l' & ->).
  rewrite rev_app_distr. simpl. eauto.
Qed.

(** A text whose first character is a bracket, or that is None, True or
    False, is no decimal number. *)
Lemma Decimal_parse_bracket (c : ascii) (r : list ascii) :
  c = "["%char \/ c = "{"%char -> Decimal_parse (c :: r) = None.
Proof.
  intros Hc. unfold Decimal_parse.
  destruct (strip_keeps_head c r) as (r' & ->); [destruct Hc as [-> | ->]; reflexivity |].
  destruct Hc as [-> | ->]; reflexivity.
Qed.

Lemma Decimal_new_no_number (v : pyval) :
  no_number v = true -> Decimal_new (py_str v) = Raise InvalidOperation.
Proof.
  destruct v as [| [] | | | | l | kv]; try discriminate; intros _;
    try reflexivity; unfold Decimal_new; cbn [py_str py_repr].
  - change (list_ascii_of_string ("[" ++ ?s))
      with ("["%char :: list_ascii_of_string s).
    rewrite Decimal_parse_bracket by auto. reflexivity.
  - change (list_ascii_of_string ("{" ++ ?s))
      with ("{"%char :: list_ascii_of_string s).
    rewrite Decimal_parse_bracket by auto. reflexivity.
Qed.

(** X13: an amount or a target that the file gives as null, true, false,
    a list or an object makes [from_json] raise InvalidOperation (once the
    keys before it are found): it is not read as zero. *)
Theorem non_numeric_money_is_rejected (kv : list (string * pyval)) (v : pyval) :
  no_number v = true ->
  (forall da de,
     assoc "date"%string kv = Some da -> assoc "description"%string kv = Some de ->
     assoc "amount"%string kv = Some v ->
     Transaction_from_json (JObj kv) = Raise InvalidOperation)
  /\ (forall n,
        assoc "name"%string kv = Some n -> assoc "target"%string kv = Some v ->
        Goal_from_json (JObj kv) = Raise InvalidOperation).
Proof.
  intros Hv. split.
  - intros da de Hda Hde Ham.
    rewrite Transaction_from_json_object, Hda, Hde, Ham, (Decimal_new_no_number v Hv).
    reflexivity.
  - intros n Hn Ht.
    rewrite Goal_from_json_object, Hn, Ht, (Decimal_new_no_number v Hv). reflexivity.
Qed.

(** A goal whose target is null. *)
Lemma non_numeric_money_is_rejected_witness :
  Goal_from_json (JObj [("name", JStr "Debt"); ("target", JNull)]%string)
  = Raise InvalidOperation.
Proof.
  exact (proj2 (non_numeric_money_is_rejected
                  [("name", JStr "Debt"); ("target", JNull)]%string JNull eq_refl)
           (JStr "Debt") eq_refl eq_refl).
Defined.

(** X14: [to_decimal] gives back every Decimal from the text [str] prints
    for it, so the text an edit dialog is opened with is accepted and
    means the same amount; and the only exception [to_decimal] raises is
    the ValueError with its fixed message. *)
Theorem to_decimal_of_str (d : Decimal) (text : string) (e : exn) :
  to_decimal (Decimal_str d) = Ok d
  /\ (to_decimal text = Raise e -> e = ValueError "Amount must be a number.").
Proof.
  unfold to_decimal. split.
  - rewrite Decimal_new_str. reflexivity.
  - destruct (Decimal_new_cases text) as [[x ->] | ->]; intros H.
    + discriminate H.
    + injection H as <-. reflexivity.
Qed.

(** The text "twelve". *)
Lemma to_decimal_of_str_witness :
  to_decimal "twelve" = Raise (ValueError "Amount must be a number.").
Proof.
  assert (H : exists e, to_decimal "twelve" = Raise e) by (eexists; reflexivity).
  destruct H as (e & He).
  rewrite He. f_equal.
  exact (proj2 (to_decimal_of_str (Dfin false 0 0) "twelve" e) He).
Defined.

(** ** Category totals, expense by expense *)

Lemma category_loop_filter (l : list Transaction) : forall totals,
  category_loop totals l = category_loop totals (filter is_expense l).
Proof.
  induction l as [| t l IH]; intros totals; [reflexivity |].
  simpl. fold (is_expense t). destruct (is_expense t) eqn:Hexp.
  - simpl. fold (is_expense t). rewrite Hexp.
    destruct (add_to_category totals t); simpl; [apply IH | reflexivity].
  - apply IH.
Qed.

(** X15: [category_totals] looks at the expenses only: the transactions of
    any other kind, whatever their amount and category, change neither its
    result nor whether it raises. *)
Theorem category_totals_ignores_incomes (w : World) :
  category_totals w
  = category_totals (set_transactions (filter is_expense (transactions w)) w).
Proof.
  unfold category_totals. cbn [transactions set_transactions].
  apply category_loop_filter.
Qed.

Lemma assoc_Some_in_keys {V : Type} (c : string) (kv : list (string * V)) (v : V) :
  assoc c kv = Some v -> In c (map fst kv).
Proof.
  induction kv as [| [k x] kv IH]; simpl; [discriminate |].
  destruct (String.eqb_spec c k) as [-> | _]; [left; reflexivity | right; auto].
Qed.

Lemma in_categories_In (c : string) :
  In c CATEGORIES -> in_categories (JStr c) = true.
Proof.
  intros H. unfold in_categories. apply existsb_exists. exists c.
  split; [exact H | apply String.eqb_refl].
Qed.

(** What one step of the loop does when it returns. *)
Lemma add_to_category_Ok (totals totals' : totals_dict) (t : Transaction) :
  add_to_category totals t = Ok totals' ->
  exists c old new,
    category t = JStr c /\ assoc c totals = Some old
    /\ Decimal_add old (amount t) = Ok new
    /\ totals' = dict_setitem totals c new.
Proof.
  unfold add_to_category, dict_getitem.
  destruct (category t) as [| | | | c | |]; try discriminate.
  destruct (assoc c totals) as [old |] eqn:Hold; [| discriminate].
  cbn [rbind]. destruct (Decimal_add old (amount t)) as [new |] eqn:Hnew; [| discriminate].
  cbn [rbind]. intros H. injection H as <-.
  exists c, old, new. auto.
Qed.

(** With finite amounts one step raises KeyError, or TypeError when the
    category is a list or an object, for a category that is no key, and
    nothing but Overflow for a category that is one. *)
Lemma add_to_category_finite (totals : totals_dict) (t : Transaction) :
  map fst totals = CATEGORIES ->
  forallb is_finite (map snd totals) = true -> is_finite (amount t) = true ->
  (in_categories (category t) = true
   /\ (add_to_category totals t = Raise Overflow
       \/ exists totals',
            add_to_category totals t = Ok totals'
            /\ map fst totals' = CATEGORIES
            /\ forallb is_finite (map snd totals') = true))
  \/ (in_categories (category t) = false
      /\ (add_to_category totals t = Raise KeyError
          \/ add_to_category totals t = Raise TypeError)).
Proof.
  intros Hk Hf Ht.
  destruct (in_categories (category t)) eqn:Hin.
  - left. split; [reflexivity |].
    destruct (in_categories_spec _ Hin) as (c & Ec & Hc).
    rewrite <- Hk in Hc. destruct (assoc_in_keys c totals Hc) as (old & Hold).
    pose proof (assoc_forallb is_finite totals c old Hf Hold) as Fold.
    unfold add_to_category, dict_getitem. rewrite Ec, Hold. cbn [rbind].
    destruct (Decimal_add_finite old (amount t) Fold Ht) as [-> | (new & -> & Fnew)];
      cbn [rbind]; [left; reflexivity | right].
    exists (dict_setitem totals c new). split; [reflexivity |]. split.
    + rewrite (dict_setitem_keys totals c old new Hold). exact Hk.
    + apply dict_setitem_forallb; assumption.
  - right. split; [reflexivity |].
    unfold add_to_category, dict_getitem.
    destruct (category t) as [| | | | c | |]; auto.
    destruct (assoc c totals) as [old |] eqn:Hold; [| auto].
    apply assoc_Some_in_keys in Hold. rewrite Hk in Hold.
    rewrite (in_categories_In c Hold) in Hin. discriminate.
Qed.

Lemma category_loop_cases (l : list Transaction) : forall totals,
  map fst totals = CATEGORIES ->
  forallb is_finite (map snd totals) = true ->
  forallb (fun t => is_finite (amount t)) l = true ->
  (forallb (fun t => if is_expense t then in_categories (category t) else true) l = true
   /\ ((exists totals', category_loop totals l = Ok totals')
       \/ category_loop totals l = Raise Overflow))
  \/ (forallb (fun t => if is_expense t then in_categories (category t) else true) l
      = false
      /\ (category_loop totals l = Raise KeyError
          \/ category_loop totals l = Raise TypeError
          \/ category_loop totals l = Raise Overflow)).
Proof.
  induction l as [| t l IH]; intros totals Hk Hf Hl.
  - left. split; [reflexivity | left; eexists; reflexivity].
  - simpl in Hl. apply andb_true_iff in Hl. destruct Hl as [Ht Hl].
    simpl. fold (is_expense t). destruct (is_expense t) eqn:Hexp.
    + destruct (add_to_category_finite totals t Hk Hf Ht)
        as [[Hin [H1 | (totals1 & H1 & Hk1 & Hf1)]] | [Hin [H1 | H1]]];
        rewrite Hin, H1; cbn [rbind andb].
      * destruct (forallb (fun t0 => if is_expense t0 then in_categories (category t0)
                                     else true) l);
          [left; split; [reflexivity | right; reflexivity] | right; auto].
      * apply IH; assumption.
      * right. auto.
      * right. auto.
    + apply IH; assumption.
Qed.

(** X16: on a ledger with finite amounts, when every expense carries one
    of the seven categories [category_totals] returns a dict or raises
    Overflow; when some expense does not, it raises KeyError, TypeError
    (the first offending category is a list or an object) or Overflow.  It
    returns a dict only when every expense is categorised. *)
Theorem category_totals_outcomes (w : World) :
  finite_ledger w = true ->
  (expenses_categorised w = true ->
   (exists totals, category_totals w = Ok totals)
   \/ category_totals w = Raise Overflow)
  /\ (expenses_categorised w = false ->
      category_totals w = Raise KeyError \/ category_totals w = Raise TypeError
      \/ category_totals w = Raise Overflow)
  /\ ((exists totals, category_totals w = Ok totals) -> expenses_categorised w = true).
Proof.
  intros Hfin. unfold category_totals, expenses_categorised.
  destruct (category_loop_cases (transactions w)
              (map (fun c : string => (c, Decimal_of_Z 0)) CATEGORIES)
              eq_refl eq_refl Hfin)
    as [[Hc Hr] | [Hc Hr]]; rewrite Hc.
  - split; [intros _; exact Hr |]. split; [discriminate | reflexivity].
  - split; [discriminate |]. split; [intros _; exact Hr |].
    intros (totals & Ht). destruct Hr as [Hr | [Hr | Hr]]; congruence.
Qed.

(** On the sample ledger, and on a ledger with an expense on pets. *)
Lemma category_totals_outcomes_witness :
  ((exists totals, category_totals sample_world = Ok totals)
   \/ category_totals sample_world = Raise Overflow)
  /\ (category_totals pets_world = Raise KeyError
      \/ category_totals pets_world = Raise TypeError
      \/ category_totals pets_world = Raise Overflow).
Proof.
  split.
  - exact (proj1 (category_totals_outcomes sample_world eq_refl) eq_refl).
  - exact (proj1 (proj2 (category_totals_outcomes pets_world eq_refl)) eq_refl).
Defined.

Lemma dict_setitem_same (kv : totals_dict) (c : string) (old new : Decimal) :
  assoc c kv = Some old -> assoc c (dict_setitem kv c new) = Some new.
Proof.
  induction kv as [| [k x] kv IH]; simpl; [discriminate |].
  destruct (String.eqb c k) eqn:E; simpl; rewrite E; auto.
Qed.

Lemma category_loop_by_key (c : string) (l : list Transaction) : forall totals totals' v0,
  category_loop totals l = Ok totals' -> assoc c totals = Some v0 ->
  exists v, assoc c totals' = Some v /\ Decimal_sum_from v0 (expenses_of c l) = Ok v.
Proof.
  induction l as [| t l IH]; intros totals totals' v0 Hrun H0.
  - simpl in Hrun. injection Hrun as <-. exists v0. auto.
  - simpl in Hrun. fold (is_expense t) in Hrun.
    unfold expenses_of. simpl filter.
    destruct (is_expense t) eqn:Hexp; cbn [andb]; [| apply (IH totals); assumption].
    destruct (add_to_category totals t) as [totals1 |] eqn:H1; [| discriminate].
    cbn [rbind] in Hrun.
    destruct (add_to_category_Ok _ _ _ H1) as (k & old & new & Ek & Hold & Hnew & ->).
    rewrite Ek. cbn [py_eq_str].
    destruct (String.eqb_spec k c) as [-> | Hne].
    + simpl map. cbn [Decimal_sum_from].
      assert (old = v0) by congruence. subst old. rewrite Hnew. cbn [rbind].
      apply (IH (dict_setitem totals c new) totals' new Hrun).
      apply (dict_setitem_same totals c v0 new H0).
    + apply (IH (dict_setitem totals k new) totals' v0 Hrun).
      rewrite dict_setitem_other by congruence. exact H0.
Qed.

(** X17: when [category_totals] returns, the value of each category is
    the sum of the amounts of the expenses of that category, added one by
    one to Decimal(0) in the order of the ledger. *)
Theorem category_value_is_its_sum (w : World) (totals : totals_dict) (c : string) :
  category_totals w = Ok totals -> In c CATEGORIES ->
  exists v,
    assoc c totals = Some v
    /\ Decimal_sum_from (Decimal_of_Z 0) (expenses_of c (transactions w)) = Ok v.
Proof.
  intros Hrun Hc. unfold category_totals in Hrun.
  apply (category_loop_by_key c (transactions w) _ totals (Decimal_of_Z 0) Hrun).
  simpl in Hc.
  repeat (destruct Hc as [<- | Hc]; [reflexivity |]). contradiction.
Qed.

(** Food on the sample ledger: 0 + 200.50. *)
Lemma category_value_is_its_sum_witness :
  exists v,
    assoc "Food"%string
      [("Food", Dfin false 20050 (-2)); ("Rent", Dfin false 0 0);
       ("Entertainment", Dfin false 0 0); ("Transport", Dfin false 0 0);
       ("Utilities", Dfin false 0 0); ("Savings", Dfin false 0 0);
       ("Other", Dfin false 0 0)]%string = Some v
    /\ Decimal_sum_from (Decimal_of_Z 0) (expenses_of "Food" (transactions sample_world))
       = Ok v.
Proof.
  refine (category_value_is_its_sum sample_world _ "Food"%string _ _).
  - vm_compute. reflexivity.
  - left. reflexivity.
Defined.

(** ** Totals within the precision *)

Lemma signed_negb (s : bool) (c : N) : signed (negb s) c = (- signed s c)%Z.
Proof. destruct s; simpl; lia. Qed.

Lemma abs_total_ge (E : Z) (l : list Decimal) : (Z.abs (total E l) <= abs_total E l)%Z.
Proof.
  induction l as [| d l IH]; [simpl; lia |].
  change (total E (d :: l)) with (scaled E d + total E l)%Z.
  change (abs_total E (d :: l)) with (Z.abs (scaled E d) + abs_total E l)%Z.
  lia.
Qed.

Lemma kinds_disjoint (t : Transaction) : is_income t = true -> is_expense t = false.
Proof.
  unfold is_income, is_expense, py_eq_str.
  destruct (kind t) as [| | | | s | |]; try discriminate.
  intros H. apply String.eqb_eq in H. subst s. reflexivity.
Qed.

(** The incomes and the expenses are within the precision when all the
    amounts are. *)
Lemma precision_splits (E : Z) (l : list Transaction) :
  forallb (exponent_from E) (map amount l) = true ->
  forallb (exponent_from E) (map amount (filter is_income l)) = true
  /\ forallb (exponent_from E) (map amount (filter is_expense l)) = true
  /\ (abs_total E (map amount (filter is_income l))
      + abs_total E (map amount (filter is_expense l))
      <= abs_total E (map amount l))%Z.
Proof.
  induction l as [| t l IH]; intros H; [simpl; repeat split; lia |].
  simpl in H. apply andb_true_iff in H. destruct H as [Ht Hl].
  destruct (IH Hl) as (Hi & He & Hle).
  cbn [filter map].
  change (abs_total E (amount t :: ?r))
    with (Z.abs (scaled E (amount t)) + abs_total E r)%Z.
  pose proof (Z.abs_nonneg (scaled E (amount t))) as Hpos.
  destruct (is_income t) eqn:Hinc.
  - rewrite (kinds_disjoint t Hinc). cbn [map forallb].
    change (abs_total E (amount t :: ?r))
      with (Z.abs (scaled E (amount t)) + abs_total E r)%Z.
    rewrite Ht, Hi, He. repeat split. lia.
  - destruct (is_expense t); cbn [map forallb];
      try change (abs_total E (amount t :: ?r))
        with (Z.abs (scaled E (amount t)) + abs_total E r)%Z;
      rewrite ?Ht, Hi, He; repeat split; lia.
Qed.

Lemma Decimal_sub_exact (E : Z) (x y : Decimal) :
  (Etiny <= E)%Z -> exponent_from E x = true -> exponent_from E y = true ->
  (Z.abs (scaled E x - scaled E y) < 10 ^ prec)%Z ->
  exists r,
    Decimal_sub x y = Ok r /\ exponent_from E r = true
    /\ scaled E r = (scaled E x - scaled E y)%Z.
Proof.
  intros HT Hx Hy Hb.
  destruct (exponent_from_Dfin E x Hx) as (sx & cx & ex & -> & Hex).
  destruct (exponent_from_Dfin E y Hy) as (sy & cy & ey & -> & Hey).
  unfold Decimal_sub. cbn [check_nans Decimal_negate].
  assert (Hn : scaled E (Dfin (negb sy) cy ey) = (- scaled E (Dfin sy cy ey))%Z).
  { unfold scaled. rewrite signed_negb. ring. }
  destruct (Decimal_add_exact E sx cx ex (negb sy) cy ey HT Hex Hey)
    as (s & c & e & Hr & He & Hs).
  { rewrite Hn. replace (scaled E (Dfin sx cx ex) + - scaled E (Dfin sy cy ey))%Z
      with (scaled E (Dfin sx cx ex) - scaled E (Dfin sy cy ey))%Z by lia. exact Hb. }
  exists (Dfin s c e). split; [exact Hr |].
  split; [apply exponent_from_intro; exact He |].
  rewrite Hs, Hn. lia.
Qed.

Lemma num_scaled_Int (E : Z) (z : Z) : num_scaled E (Int z) = (z * 10 ^ (0 - E))%Z.
Proof. unfold num_scaled, to_Decimal, Decimal_of_Z, scaled. rewrite signed_of_Z. reflexivity. Qed.

Lemma py_sub_exact (E : Z) (a b : number) :
  (Etiny <= E <= 0)%Z -> number_from E a = true -> number_from E b = true ->
  (Z.abs (num_scaled E a - num_scaled E b) < 10 ^ prec)%Z ->
  exists r,
    py_sub a b = Ok r /\ number_from E r = true
    /\ num_scaled E r = (num_scaled E a - num_scaled E b)%Z.
Proof.
  intros [HT HE] Ha Hb Hbound.
  destruct (Decimal_sub_exact E (to_Decimal a) (to_Decimal b) HT
              (to_Decimal_from E a HE Ha) (to_Decimal_from E b HE Hb) Hbound)
    as (r & Hr & Fr & Sr).
  destruct a as [x | x]; destruct b as [y | y]; unfold py_sub;
    try (rewrite Hr; cbn [rbind]; exists (Dec r); repeat split; assumption).
  exists (Int (x - y)). split; [reflexivity |]. split; [reflexivity |].
  rewrite !num_scaled_Int. ring.
Qed.

(** The three totals of a ledger whose amounts are within the precision. *)
Lemma exact_totals (w : World) (E : Z) :
  within_precision E (map amount (transactions w)) = true ->
  exists i e b,
    income_total w = Ok i /\ expense_total w = Ok e /\ balance w = Ok b
    /\ number_from E b = true
    /\ num_scaled E i = total E (income_amounts w)
    /\ num_scaled E e = total E (expense_amounts w)
    /\ num_scaled E b = (total E (income_amounts w) - total E (expense_amounts w))%Z.
Proof.
  intros HW.
  destruct (within_precision_spec E _ HW) as (HE & Hall & Hb).
  destruct (precision_splits E (transactions w) Hall) as (Hi & He & Hle).
  fold (income_amounts w) in Hi, Hle. fold (expense_amounts w) in He, Hle.
  pose proof (abs_total_nonneg E (income_amounts w)) as Pi.
  pose proof (abs_total_nonneg E (expense_amounts w)) as Pe.
  assert (Z0 : num_scaled E (Int 0) = 0%Z) by (rewrite num_scaled_Int; lia).
  destruct (py_sum_from_exact E HE (income_amounts w) (Int 0) eq_refl Hi)
    as (i & Ri & Fi & Si); [rewrite Z0; simpl Z.abs; lia |].
  destruct (py_sum_from_exact E HE (expense_amounts w) (Int 0) eq_refl He)
    as (e & Re & Fe & Se); [rewrite Z0; simpl Z.abs; lia |].
  rewrite Z0 in Si, Se. simpl in Si, Se.
  pose proof (abs_total_ge E (income_amounts w)) as Gi.
  pose proof (abs_total_ge E (expense_amounts w)) as Ge.
  destruct (py_sub_exact E i e HE Fi Fe) as (b & Rb & Fb & Sb); [rewrite Si, Se; lia |].
  exists i, e, b.
  assert (Ei : income_total w = Ok i) by exact Ri.
  assert (Ee : expense_total w = Ok e) by exact Re.
  unfold balance. rewrite Ei, Ee. cbn [rbind].
  repeat split; try assumption. rewrite Sb, Si, Se. reflexivity.
Qed.

(** X18: when the amounts of the ledger are within the precision of the
    context (multiples of some [10^E], [Etiny <= E <= 0], of exponent at
    most [Etop], whose absolute values add up to less than [10^28] such
    units), the three totals return and none is rounded: in units of
    [10^E], [income_total()] and [expense_total()] are the integer sums of
    the amounts and [balance()] is their difference. *)
Theorem totals_are_exact (w : World) (E : Z) :
  within_precision E (map amount (transactions w)) = true ->
  exists i e b,
    income_total w = Ok i /\ expense_total w = Ok e /\ balance w = Ok b
    /\ num_scaled E i = total E (income_amounts w)
    /\ num_scaled E e = total E (expense_amounts w)
    /\ num_scaled E b = (total E (income_amounts w) - total E (expense_amounts w))%Z.
Proof.
  intros HW.
  destruct (exact_totals w E HW) as (i & e & b & Hi & He & Hb & _ & Si & Se & Sb).
  exists i, e, b. auto 8.
Qed.

(** The sample ledger in cents: 100000 - 20050 = 79950. *)
Lemma totals_are_exact_witness :
  exists b, balance sample_world = Ok b /\ num_scaled (-2) b = 79950%Z.
Proof.
  destruct (totals_are_exact sample_world (-2) eq_refl)
    as (i & e & b & _ & _ & Hb & _ & _ & Sb).
  exists b. split; [exact Hb | exact Sb].
Defined.

(** ** The order of the transactions *)

Lemma total_cons (E : Z) (d : Decimal) (l : list Decimal) :
  total E (d :: l) = (scaled E d + total E l)%Z.
Proof. reflexivity. Qed.

Lemma abs_total_cons (E : Z) (d : Decimal) (l : list Decimal) :
  abs_total E (d :: l) = (Z.abs (scaled E d) + abs_total E l)%Z.
Proof. reflexivity. Qed.

Lemma permutation_sums (E : Z) (p : Transaction -> bool) (l l' : list Transaction) :
  Permutation l l' ->
  total E (map amount (filter p l)) = total E (map amount (filter p l'))
  /\ abs_total E (map amount l) = abs_total E (map amount l')
  /\ forallb (exponent_from E) (map amount l)
     = forallb (exponent_from E) (map amount l').
Proof.
  induction 1 as [| x l l' HP (IH1 & IH2 & IH3) | x y l
                  | l l1 l2 HP1 (IH1 & IH2 & IH3) HP2 (IH1' & IH2' & IH3')].
  - repeat split.
  - cbn [filter map forallb]. rewrite abs_total_cons, abs_total_cons, IH2, IH3.
    destruct (p x); cbn [map]; rewrite ?total_cons, IH1; repeat split.
  - cbn [filter map forallb]. rewrite !abs_total_cons.
    split; [| split; [lia |]].
    + destruct (p x); destruct (p y); cbn [map]; rewrite ?total_cons; lia.
    + destruct (exponent_from E (amount x)); destruct (exponent_from E (amount y));
        reflexivity.
  - repeat split; congruence.
Qed.

(** X19: within the precision of the context (as in X18: no amount is
    subnormal or beyond [Etop], no sum needs rounding) the balance does
    not depend on the order of the transactions: two ledgers that hold the
    same transactions in different orders have equal balances. *)
Theorem balance_ignores_order (w w' : World) (E : Z) :
  Permutation (transactions w) (transactions w') ->
  within_precision E (map amount (transactions w)) = true ->
  exists b b', balance w = Ok b /\ balance w' = Ok b' /\ py_eq b b' = Ok true.
Proof.
  intros HP HW.
  assert (HW' : within_precision E (map amount (transactions w')) = true).
  { unfold within_precision in *.
    destruct (permutation_sums E is_income _ _ HP) as (_ & <- & <-). exact HW. }
  destruct (exact_totals w E HW) as (i & e & b & _ & _ & Hb & Fb & _ & _ & Sb).
  destruct (exact_totals w' E HW') as (i' & e' & b' & _ & _ & Hb' & Fb' & _ & _ & Sb').
  exists b, b'. split; [exact Hb |]. split; [exact Hb' |].
  assert (HE : (E <= 0)%Z) by (destruct (within_precision_spec E _ HW) as ((_ & HE) & _); exact HE).
  destruct (py_compare_finite b b' (number_from_finite E b Fb) (number_from_finite E b' Fb'))
    as (_ & _ & Heq).
  rewrite Heq, (Decimal_cmp_scaled E) by (apply to_Decimal_from; assumption).
  fold (num_scaled E b) (num_scaled E b'). rewrite Sb, Sb'.
  unfold income_amounts, expense_amounts.
  destruct (permutation_sums E is_income _ _ HP) as (<- & _).
  destruct (permutation_sums E is_expense _ _ HP) as (<- & _).
  rewrite Z.compare_refl. reflexivity.
Qed.

(** The sample ledger and its two transactions in the other order. *)
Lemma balance_ignores_order_witness :
  exists b b',
    balance sample_world = Ok b
    /\ balance (mkWorld [food_200_50; income_1000] [] None 0 []) = Ok b'
    /\ py_eq b b' = Ok true.
Proof.
  refine (balance_ignores_order sample_world
            (mkWorld [food_200_50; income_1000] [] None 0 []) (-2) _ eq_refl).
  apply perm_swap.
Defined.

(** ** Amounts that are no numbers: NaN *)

Lemma Decimal_fix_raises (d : Decimal) (e : exn) :
  Decimal_fix d = Raise e -> e = Overflow.
Proof.
  destruct d as [s c x | s | s sg p]; [| discriminate | discriminate].
  destruct (Decimal_fix_sign s c x) as [[_ ->] | (c' & e' & -> & _)];
    intros H; congruence.
Qed.

Lemma Decimal_add_raises (x y : Decimal) (e : exn) :
  Decimal_add x y = Raise e -> trapped e.
Proof.
  unfold Decimal_add, check_nans, trapped.
  destruct x as [sx cx ex | sx | sx [|] px]; destruct y as [sy cy ey | sy | sy [|] py];
    try (intros H; left; congruence).
  - cbv zeta. destruct (_ =? 0)%Z; intros H; right; exact (Decimal_fix_raises _ _ H).
  - destruct (Bool.eqb sx sy); intros H; left; congruence.
Qed.

Lemma Decimal_add_nan (x y : Decimal) :
  is_nan x || is_nan y = true ->
  Decimal_add x y = Raise InvalidOperation
  \/ exists d, Decimal_add x y = Ok d /\ is_nan d = true.
Proof.
  unfold Decimal_add, check_nans.
  destruct x as [sx cx ex | sx | sx [|] px]; destruct y as [sy cy ey | sy | sy [|] py];
    cbn [is_nan orb]; intros H; try discriminate H; auto;
    right; eexists; (split; [reflexivity | reflexivity]).
Qed.

Lemma py_add_raises (a b : number) (e : exn) :
  py_add a b = Raise e -> trapped e.
Proof.
  destruct a as [x | d]; destruct b as [y | d']; cbn [py_add to_Decimal].
  - intros H; discriminate H.
  - destruct (Decimal_add d' (Decimal_of_Z x)) eqn:H; cbn [rbind]; intros H0;
      [discriminate H0 | injection H0 as <-; exact (Decimal_add_raises _ _ _ H)].
  - destruct (Decimal_add d (Decimal_of_Z y)) eqn:H; cbn [rbind]; intros H0;
      [discriminate H0 | injection H0 as <-; exact (Decimal_add_raises _ _ _ H)].
  - destruct (Decimal_add d d') eqn:H; cbn [rbind]; intros H0;
      [discriminate H0 | injection H0 as <-; exact (Decimal_add_raises _ _ _ H)].
Qed.

Lemma poisoned_Raise (e : exn) : trapped e -> poisoned (Raise e).
Proof. intros H. left. eauto. Qed.

Lemma poisoned_Dec (r : result Decimal) :
  (r = Raise InvalidOperation \/ exists d, r = Ok d /\ is_nan d = true) ->
  poisoned (x <- r ;; Ok (Dec x)).
Proof.
  intros [-> | (d & -> & Hd)]; cbn [rbind].
  - apply poisoned_Raise. left. reflexivity.
  - right. eauto.
Qed.

Lemma py_add_nan (a b : number) :
  is_nan (to_Decimal a) || is_nan (to_Decimal b) = true ->
  poisoned (py_add a b).
Proof.
  destruct a as [x | d]; destruct b as [y | d']; cbn [py_add to_Decimal]; intros H.
  - discriminate H.
  - rewrite orb_comm in H. apply poisoned_Dec, Decimal_add_nan, H.
  - apply poisoned_Dec, Decimal_add_nan, H.
  - apply poisoned_Dec, Decimal_add_nan, H.
Qed.

Lemma py_sum_from_raises (l : list Decimal) (acc : number) (e : exn) :
  py_sum_from acc l = Raise e -> trapped e.
Proof.
  revert acc. induction l as [| d l IH]; intros acc; cbn [py_sum_from].
  - intros H; discriminate H.
  - destruct (py_add acc (Dec d)) eqn:Ha; cbn [rbind].
    + apply IH.
    + intros H; injection H as <-. exact (py_add_raises _ _ _ Ha).
Qed.

Lemma py_sum_from_nan_acc (l : list Decimal) (d : Decimal) :
  is_nan d = true -> poisoned (py_sum_from (Dec d) l).
Proof.
  revert d. induction l as [| x l IH]; intros d Hd; cbn [py_sum_from].
  - right. eauto.
  - destruct (py_add_nan (Dec d) (Dec x)) as [(e & -> & He) | (r & -> & Hr)].
    + cbn [to_Decimal]. rewrite Hd. reflexivity.
    + apply poisoned_Raise, He.
    + cbn [rbind]. apply IH, Hr.
Qed.

Lemma py_sum_from_nan (l : list Decimal) (acc : number) (d : Decimal) :
  In d l -> is_nan d = true -> poisoned (py_sum_from acc l).
Proof.
  revert acc. induction l as [| x l IH]; intros acc HIn Hd; [destruct HIn |].
  cbn [py_sum_from]. destruct HIn as [-> | HIn].
  - destruct (py_add_nan acc (Dec d)) as [(e & -> & He) | (r & -> & Hr)].
    + cbn [to_Decimal]. rewrite Hd. apply orb_true_r.
    + apply poisoned_Raise, He.
    + cbn [rbind]. apply py_sum_from_nan_acc, Hr.
  - destruct (py_add acc (Dec x)) eqn:Ha; cbn [rbind].
    + apply IH; assumption.
    + apply poisoned_Raise. exact (py_add_raises _ _ _ Ha).
Qed.

Lemma Decimal_sub_nan (x y : Decimal) :
  is_nan x || is_nan y = true ->
  Decimal_sub x y = Raise InvalidOperation
  \/ exists d, Decimal_sub x y = Ok d /\ is_nan d = true.
Proof.
  unfold Decimal_sub, check_nans.
  destruct x as [sx cx ex | sx | sx [|] px]; destruct y as [sy cy ey | sy | sy [|] py];
    cbn [is_nan orb]; intros H; try discriminate H; auto;
    right; eexists; (split; [reflexivity | reflexivity]).
Qed.

Lemma py_sub_nan (a b : number) :
  is_nan (to_Decimal a) || is_nan (to_Decimal b) = true ->
  poisoned (py_sub a b).
Proof.
  intros H.
  assert (E : py_sub a b = (r <- Decimal_sub (to_Decimal a) (to_Decimal b) ;; Ok (Dec r))).
  { destruct a; destruct b; try reflexivity. discriminate H. }
  rewrite E. apply poisoned_Dec, Decimal_sub_nan, H.
Qed.

Lemma balance_nan (w : World) (t : Transaction) :
  In t (transactions w) ->
  is_income t || is_expense t = true ->
  is_nan (amount t) = true ->
  poisoned (balance w).
Proof.
  intros HIn Hk Hn. unfold balance.
  apply orb_true_iff in Hk. destruct Hk as [Hk | Hk].
  - assert (P : poisoned (income_total w)).
    { apply (py_sum_from_nan _ _ (amount t)); [| exact Hn].
      apply in_map, filter_In. split; [exact HIn | exact Hk]. }
    destruct P as [(e & -> & He) | (d & -> & Hd)]; [apply poisoned_Raise, He |].
    cbn [rbind]. destruct (expense_total w) as [e | e] eqn:He; cbn [rbind].
    + apply py_sub_nan. cbn [to_Decimal]. rewrite Hd. reflexivity.
    + apply poisoned_Raise. exact (py_sum_from_raises _ _ _ He).
  - destruct (income_total w) as [i | e] eqn:Hi; cbn [rbind].
    + assert (P : poisoned (expense_total w)).
      { apply (py_sum_from_nan _ _ (amount t)); [| exact Hn].
        apply in_map, filter_In. split; [exact HIn | exact Hk]. }
      destruct P as [(e & -> & He) | (d & -> & Hd)]; [apply poisoned_Raise, He |].
      cbn [rbind]. apply py_sub_nan. cbn [to_Decimal]. rewrite Hd. apply orb_true_r.
    + apply poisoned_Raise. exact (py_sum_from_raises _ _ _ Hi).
Qed.

(** X20: an amount that is a NaN (the text "NaN" is accepted as an
    amount) disables the savings figure: as soon as one income or
    expense of the ledger carries a NaN, quiet or signaling,
    [savings_total] returns nothing, whatever the other transactions are:
    it raises InvalidOperation, or Overflow when a sum of the other
    amounts overflows before the NaN is met. *)
Theorem nan_amount_breaks_savings (w : World) (t : Transaction) :
  In t (transactions w) ->
  is_income t || is_expense t = true ->
  is_nan (amount t) = true ->
  exists e,
    savings_total w = Raise e /\ (e = InvalidOperation \/ e = Overflow).
Proof.
  intros HIn Hk Hn. unfold savings_total.
  destruct (balance_nan w t HIn Hk Hn) as [(e & -> & He) | (d & -> & Hd)];
    [exists e; split; [reflexivity | exact He] |].
  cbn [rbind]. unfold py_max. cbn [py_gt to_Decimal].
  unfold Decimal_gt, Decimal_order. rewrite Hd. cbn [orb rbind].
  exists InvalidOperation. split; [reflexivity | left; reflexivity].
Qed.

(** The sample income and an income of NaN. *)
Lemma nan_amount_breaks_savings_witness :
  exists e,
    savings_total nan_world = Raise e /\ (e = InvalidOperation \/ e = Overflow).
Proof.
  refine (nan_amount_breaks_savings nan_world nan_income _ _ _).
  - simpl. right. left. reflexivity.
  - reflexivity.
  - reflexivity.
Defined.

(** ** A goal that is reached *)

Lemma digits_rev_bounds (fuel : nat) : forall n,
  (n = 0%N \/ (N.to_nat (N.log2 n) < fuel)%nat) ->
  (n < 10 ^ N.of_nat (List.length (digits_rev fuel n)))%N
  /\ (n <> 0%N -> (10 ^ (N.of_nat (List.length (digits_rev fuel n)) - 1) <= n)%N).
Proof.
  induction fuel as [| f IH]; intros n H.
  - destruct H as [-> | H]; [| lia]. simpl. split; [lia | intros C; contradiction].
  - cbn [digits_rev]. destruct (N.eqb_spec n 0) as [-> | Hn].
    + simpl. split; [lia | intros C; contradiction].
    + assert (Hf : (n / 10 = 0)%N \/ (N.to_nat (N.log2 (n / 10)) < f)%nat).
      { destruct (N.eq_dec (n / 10) 0) as [E | E]; [left; exact E | right].
        destruct H as [H | H]; [contradiction |].
        pose proof (log2_div10 n E). lia. }
      destruct (IH (n / 10)%N Hf) as (Hu & Hl).
      cbn [List.length]. rewrite Nat2N.inj_succ.
      pose proof (N.div_mod n 10 ltac:(lia)) as Hdm.
      assert (Hm : (n mod 10 < 10)%N) by (apply N.mod_lt; lia).
      split.
      * rewrite N.pow_succ_r'. lia.
      * intros _. replace (N.succ (N.of_nat (List.length (digits_rev f (n / 10)))) - 1)%N
          with (N.of_nat (List.length (digits_rev f (n / 10)))) by lia.
        destruct (N.eq_dec (n / 10) 0) as [E | E].
        -- rewrite E. destruct f; simpl; lia.
        -- specialize (Hl E).
           assert (Hpos : (N.of_nat (List.length (digits_rev f (n / 10))) <> 0)%N).
           { destruct f; simpl; [contradiction E; destruct Hf as [Hf | Hf]; [exact Hf | lia] |].
             destruct (N.eqb_spec (n / 10) 0); [contradiction |]. cbn [List.length]. lia. }
           set (k := N.of_nat (List.length (digits_rev f (n / 10)))) in *.
           assert (Ek : (10 ^ k = 10 * 10 ^ (k - 1))%N).
           { rewrite <- N.pow_succ_r'. f_equal. lia. }
           rewrite Ek. apply N.le_trans with (10 * (n / 10))%N;
             [apply N.mul_le_mono_l; exact Hl | apply N.Div0.mul_div_le].
Qed.

Lemma ndigits_spec (c : N) :
  c <> 0%N ->
  (1 <= ndigits c)%Z /\ (10 ^ (ndigits c - 1) <= Z.of_N c < 10 ^ ndigits c)%Z.
Proof.
  intros Hc. unfold ndigits, N_digits.
  destruct (N.eqb_spec c 0) as [| _]; [contradiction |].
  rewrite length_rev.
  destruct (digits_rev_bounds (S (N.to_nat (N.log2 c))) c) as (Hu & Hl); [right; lia |].
  specialize (Hl Hc).
  set (k := List.length (digits_rev (S (N.to_nat (N.log2 c))) c)) in *.
  assert (Hk : (k <> 0)%nat).
  { unfold k. cbn [digits_rev]. destruct (N.eqb_spec c 0); [contradiction |]. discriminate. }
  split; [lia |].
  split.
  - replace (Z.of_nat k - 1)%Z with (Z.of_N (N.of_nat k - 1)) by lia.
    change 10%Z with (Z.of_N 10). rewrite <- N2Z.inj_pow. lia.
  - replace (Z.of_nat k) with (Z.of_N (N.of_nat k)) by lia.
    change 10%Z with (Z.of_N 10). rewrite <- N2Z.inj_pow. lia.
Qed.

Lemma pow10_Z (k : Z) : (0 <= k)%Z -> Z.of_N (pow10 k) = (10 ^ k)%Z.
Proof.
  intros H. unfold pow10. rewrite Z2N.id; [reflexivity | apply Z.pow_nonneg; lia].
Qed.

Lemma pow10_pos (k : Z) : (0 <= k)%Z -> (0 < 10 ^ k)%Z.
Proof. intros H. apply Z.pow_pos_nonneg; lia. Qed.

Lemma pow10_nonpos (x : Z) : (x <= 0)%Z -> (10 ^ x <= 1)%Z.
Proof.
  intros H. destruct (Z.eq_dec x 0) as [-> | Hx]; [simpl; lia |].
  rewrite Z.pow_neg_r by lia. lia.
Qed.

(** Rounding to [prec] digits keeps a number that is at least 1 at least
    1, when it does not overflow. *)
Lemma Decimal_fix_at_least_one (c : N) (e : Z) :
  at_least_one (Dfin false c e) ->
  at_least_one_or_overflow (Decimal_fix (Dfin false c e)).
Proof.
  cbn [at_least_one]. intros (H1 & He). unfold Decimal_fix, at_least_one_or_overflow.
  destruct (N.eqb_spec c 0) as [-> | Hc]; [lia |].
  destruct (ndigits_spec c Hc) as (Hn & Hlo & Hhi).
  cbv zeta.
  set (xm := (ndigits c + e - prec)%Z).
  assert (Hxm : (- 27 <= xm)%Z).
  { unfold xm, prec. destruct (Z.le_gt_cases 0 e) as [H0 | H0]; [lia |].
    assert (- e < ndigits c)%Z; [| lia].
    apply (Z.pow_lt_mono_r_iff 10); lia. }
  destruct (Z.ltb_spec Etop xm) as [_ | Htop]; [left; reflexivity |].
  rewrite Z.max_l by (unfold Etiny; lia).
  destruct (Z.ltb_spec e xm) as [Hlt | _];
    [| right; eexists; split; [reflexivity | cbn [at_least_one]; auto]].
  set (k := (xm - e)%Z).
  assert (Hk : (0 < k)%Z) by (unfold k; lia).
  set (q := (c / pow10 k)%N).
  assert (Hq : Z.of_N q = (Z.of_N c / 10 ^ k)%Z).
  { unfold q. rewrite N2Z.inj_div, pow10_Z by lia. reflexivity. }
  assert (Hq27 : (10 ^ 27 <= Z.of_N q)%Z).
  { rewrite Hq. apply Z.div_le_lower_bound; [apply pow10_pos; lia |].
    rewrite <- Z.pow_add_r by lia.
    replace (k + 27)%Z with (ndigits c - 1)%Z by (unfold k, xm, prec; lia).
    exact Hlo. }
  assert (Hqe : (10 ^ (- xm) <= Z.of_N q)%Z).
  { destruct (Z.le_gt_cases 0 xm) as [Hx | Hx].
    - pose proof (pow10_nonpos (- xm)). lia.
    - rewrite Hq. apply Z.div_le_lower_bound; [apply pow10_pos; lia |].
      rewrite <- Z.pow_add_r by lia.
      replace (k + - xm)%Z with (- e)%Z by (unfold k; lia). exact He. }
  match goal with
  | |- context [if ?up then (q + 1)%N else q] => set (q' := if up then (q + 1)%N else q)
  end.
  assert (Hq' : (Z.of_N q <= Z.of_N q')%Z).
  { unfold q'. match goal with |- context [if ?b then _ else _] => destruct b end; lia. }
  destruct (Z.ltb_spec prec (ndigits q')) as [Hov | _];
    [destruct (Z.ltb_spec Etop (xm + 1)) as [_ | _]
    | destruct (Z.ltb_spec Etop xm) as [_ | _]];
    try (left; reflexivity); right;
    eexists; (split; [reflexivity |]); cbn [at_least_one]; [| split; lia].
  assert (Hq0 : q' <> 0%N) by lia.
  destruct (ndigits_spec q' Hq0) as (_ & Hlo' & _).
  assert (H28 : (10 ^ 28 <= Z.of_N q')%Z).
  { apply Z.le_trans with (10 ^ (ndigits q' - 1))%Z; [| exact Hlo'].
    apply Z.pow_le_mono_r; unfold prec in Hov; lia. }
  rewrite N2Z.inj_div. change (Z.of_N 10) with 10%Z.
  split.
  - apply Z.div_le_lower_bound; lia.
  - destruct (Z.le_gt_cases 0 (xm + 1)) as [Hx | Hx].
    + pose proof (pow10_nonpos (- (xm + 1))).
      assert (1 <= Z.of_N q' / 10)%Z by (apply Z.div_le_lower_bound; lia). lia.
    + apply Z.div_le_lower_bound; [lia |].
      replace (10 * 10 ^ (- (xm + 1)))%Z with (10 ^ (- xm))%Z; [lia |].
      replace (- xm)%Z with (Z.succ (- (xm + 1))) by lia.
      rewrite Z.pow_succ_r by lia. reflexivity.
Qed.

Lemma shed_zeros_at_least_one (fuel : nat) (ideal : Z) : forall c e,
  at_least_one (Dfin false c e) ->
  at_least_one (Dfin false (fst (shed_zeros fuel c e ideal))
                  (snd (shed_zeros fuel c e ideal))).
Proof.
  induction fuel as [| f IH]; intros c e H; cbn [shed_zeros]; [exact H |].
  destruct ((e <? ideal)%Z && (c mod 10 =? 0)%N) eqn:Hb; [| exact H].
  apply IH. apply andb_true_iff in Hb. destruct Hb as [_ Hm].
  apply N.eqb_eq in Hm. cbn [at_least_one] in *. destruct H as (H1 & He).
  pose proof (N.div_mod c 10 ltac:(lia)) as Hdm. rewrite Hm in Hdm.
  rewrite N2Z.inj_div. change (Z.of_N 10) with 10%Z.
  assert (H10 : (1 <= Z.of_N c / 10)%Z) by (apply Z.div_le_lower_bound; lia).
  split; [exact H10 |].
  destruct (Z.le_gt_cases 0 (e + 1)) as [Hx | Hx].
  - pose proof (pow10_nonpos (- (e + 1))). lia.
  - apply Z.div_le_lower_bound; [lia |].
    replace (10 * 10 ^ (- (e + 1)))%Z with (10 ^ (- e))%Z; [lia |].
    replace (- e)%Z with (Z.succ (- (e + 1))) by lia.
    rewrite Z.pow_succ_r by lia. reflexivity.
Qed.

(** A quotient of a finite number by a positive one that is not larger is
    at least 1, when the division does not overflow. *)
Lemma Decimal_div_at_least_one (cx : N) (ex : Z) (cy : N) (ey : Z) :
  cy <> 0%N ->
  (Z.of_N cy * 10 ^ (ey - Z.min ex ey) <= Z.of_N cx * 10 ^ (ex - Z.min ex ey))%Z ->
  at_least_one_or_overflow (Decimal_div (Dfin false cx ex) (Dfin false cy ey)).
Proof.
  intros Hy H.
  assert (Hx : cx <> 0%N).
  { intros ->. rewrite Z.mul_0_l in H.
    pose proof (pow10_pos (ey - Z.min ex ey) ltac:(lia)). nia. }
  unfold Decimal_div. cbn [check_nans xorb].
  destruct (N.eqb_spec cy 0) as [| _]; [contradiction |].
  destruct (N.eqb_spec cx 0) as [| _]; [contradiction |].
  cbv zeta.
  destruct (ndigits_spec cx Hx) as (Hnx & Hlox & Hhix).
  destruct (ndigits_spec cy Hy) as (Hny & Hloy & Hhiy).
  set (shift := (ndigits cy - ndigits cx + prec + 1)%Z).
  set (e := (ex - ey - shift)%Z).
  set (num := if (0 <=? shift)%Z then (cx * pow10 shift)%N else cx).
  set (den := if (0 <=? shift)%Z then cy else (cy * pow10 (- shift))%N).
  assert (Hden : (0 < Z.of_N den)%Z).
  { unfold den. destruct (Z.leb_spec 0 shift); [lia |].
    rewrite N2Z.inj_mul, pow10_Z by lia. pose proof (pow10_pos (- shift) ltac:(lia)). nia. }
  assert (HA : (Z.of_N den * 10 ^ 28 <= Z.of_N num)%Z).
  { unfold num, den. destruct (Z.leb_spec 0 shift) as [Hs | Hs].
    - rewrite N2Z.inj_mul, pow10_Z by lia.
      apply Z.le_trans with (10 ^ (ndigits cx - 1) * 10 ^ shift)%Z.
      + rewrite <- Z.pow_add_r by lia.
        replace (ndigits cx - 1 + shift)%Z with (ndigits cy + 28)%Z
          by (unfold shift, prec; lia).
        rewrite Z.pow_add_r by lia.
        apply Z.mul_le_mono_nonneg_r; [apply Z.pow_nonneg |]; lia.
      + apply Z.mul_le_mono_nonneg_r; [apply Z.pow_nonneg; lia | exact Hlox].
    - rewrite N2Z.inj_mul, pow10_Z by lia.
      apply Z.le_trans with (10 ^ (ndigits cx - 1))%Z; [| exact Hlox].
      replace (ndigits cx - 1)%Z with (ndigits cy + (- shift) + 28)%Z
        by (unfold shift, prec; lia).
      rewrite !Z.pow_add_r by lia.
      apply Z.mul_le_mono_nonneg_r; [apply Z.pow_nonneg; lia |].
      apply Z.mul_le_mono_nonneg_r; [apply Z.pow_nonneg |]; lia. }
  assert (HB : (e < 0 -> Z.of_N den * 10 ^ (- e) <= Z.of_N num)%Z).
  { intros Hneg. unfold num, den. destruct (Z.leb_spec 0 shift) as [Hs | Hs].
    - rewrite N2Z.inj_mul, pow10_Z by lia.
      destruct (Z.le_gt_cases ey ex) as [Hle | Hgt].
      + rewrite Z.min_r, Z.sub_diag, Z.mul_1_r in H by lia.
        replace shift with ((ex - ey) + (- e))%Z at 1 by (unfold e; lia).
        rewrite Z.pow_add_r, Z.mul_assoc by (unfold e in *; lia).
        apply Z.mul_le_mono_nonneg_r; [apply Z.pow_nonneg; lia | exact H].
      + rewrite Z.min_l, Z.sub_diag, Z.mul_1_r in H by lia.
        replace (- e)%Z with ((ey - ex) + shift)%Z by (unfold e; lia).
        rewrite Z.pow_add_r, Z.mul_assoc by lia.
        apply Z.mul_le_mono_nonneg_r; [apply Z.pow_nonneg; lia | exact H].
    - rewrite N2Z.inj_mul, pow10_Z by lia.
      assert (Hgt : (ex < ey)%Z) by (unfold e in Hneg; lia).
      rewrite Z.min_l, Z.sub_diag, Z.mul_1_r in H by lia.
      rewrite <- Z.mul_assoc, <- Z.pow_add_r by lia.
      replace (- shift + - e)%Z with (ey - ex)%Z by (unfold e; lia).
      exact H. }
  set (coeff := (num / den)%N).
  assert (Hcoeff : at_least_one (Dfin false coeff e)).
  { cbn [at_least_one]. unfold coeff. rewrite N2Z.inj_div.
    assert (H28 : (10 ^ 28 <= Z.of_N num / Z.of_N den)%Z)
      by (apply Z.div_le_lower_bound; [exact Hden | exact HA]).
    split; [lia |].
    destruct (Z.le_gt_cases 0 e) as [He | He].
    - pose proof (pow10_nonpos (- e)). lia.
    - apply Z.div_le_lower_bound; [exact Hden | apply HB; exact He]. }
  destruct (N.eqb_spec (num mod den) 0) as [_ | _].
  - pose proof (shed_zeros_at_least_one (Z.to_nat (ex - ey - e)) (ex - ey) coeff e Hcoeff)
      as Hs.
    destruct (shed_zeros (Z.to_nat (ex - ey - e)) coeff e (ex - ey)) as [c' e'].
    cbn [fst snd] in Hs.
    apply Decimal_fix_at_least_one. exact Hs.
  - apply Decimal_fix_at_least_one.
    cbn [at_least_one] in *.
    destruct (coeff mod 5 =? 0)%N; [| exact Hcoeff].
    rewrite N2Z.inj_add. change (Z.of_N 1) with 1%Z. lia.
Qed.

(** The double nearest to a ratio that is at least 1 is not below 1. *)
Lemma float_of_ratio_at_least_one (n d : N) :
  d <> 0%N -> (d <= n)%N -> float_lt_Z (float_of_ratio false n d) 1 = false.
Proof.
  intros Hd Hn. unfold float_of_ratio.
  destruct (N.eqb_spec n 0) as [| _]; [lia |].
  cbv zeta.
  set (zn := Z.of_N n). set (zd := Z.of_N d).
  assert (Hzd : (0 < zd)%Z) by (unfold zd; lia).
  assert (Hzn : (zd <= zn)%Z) by (unfold zn, zd; lia).
  set (b0 := (Z.log2 zn - Z.log2 zd)%Z).
  set (reaches := if (0 <=? b0)%Z then (zd * 2 ^ b0 <=? zn)%Z
                  else (zd <=? zn * 2 ^ (- b0))%Z).
  set (b := if reaches then b0 else (b0 - 1)%Z).
  set (e2 := Z.max (b - 52) (-1074)).
  assert (K : (0 <= e2 -> zd * 2 ^ e2 <= zn)%Z).
  { intros He. assert (Hb : (52 <= b)%Z /\ e2 = (b - 52)%Z) by (unfold e2 in *; lia).
    destruct Hb as (Hb & ->).
    apply Z.le_trans with (zd * 2 ^ b)%Z.
    - apply Z.mul_le_mono_nonneg_l; [lia |]. apply Z.pow_le_mono_r; lia.
    - unfold b, reaches in *. destruct (Z.leb_spec 0 b0) as [H0 | H0].
      + destruct (Z.leb_spec (zd * 2 ^ b0) zn) as [Hr | Hr]; [exact Hr |].
        pose proof (Z.log2_spec zn ltac:(lia)) as (Hln & _).
        pose proof (Z.log2_spec zd Hzd) as (_ & Hld).
        pose proof (Z.log2_nonneg zd) as Hl0.
        apply Z.le_trans with (2 ^ Z.log2 zn)%Z; [| exact Hln].
        replace (Z.log2 zn) with (Z.succ (Z.log2 zd) + (b0 - 1))%Z by (unfold b0; lia).
        rewrite Z.pow_add_r by lia.
        apply Z.mul_le_mono_nonneg_r; [apply Z.pow_nonneg |]; lia.
      + destruct (zd <=? zn * 2 ^ (- b0))%Z; lia. }
  match goal with
  | |- context [if ?up then (?q + 1)%Z else ?q] =>
      set (m := if up then (q + 1)%Z else q);
      assert (Hm : (q <= m)%Z) by (unfold m; destruct up; lia)
  end.
  match goal with |- context [if ?c then Finf false else _] => destruct c end;
    [reflexivity |].
  cbn [float_lt_Z signed].
  destruct (Z.leb_spec 0 e2) as [He | He].
  - rewrite Z.leb_le in He || idtac.
    assert (Hq : (1 <= zn / (zd * 2 ^ e2))%Z).
    { apply Z.div_le_lower_bound; [pose proof (pow10_pos 0); apply Z.mul_pos_pos;
        [exact Hzd | apply Z.pow_pos_nonneg; lia] | rewrite Z.mul_1_r; apply K; exact He]. }
    rewrite Z2N.id by lia.
    apply Z.ltb_ge.
    assert (H2 : (1 <= 2 ^ e2)%Z) by (pose proof (Z.pow_pos_nonneg 2 e2); lia).
    nia.
  - assert (Hq : (2 ^ (- e2) <= zn * 2 ^ (- e2) / zd)%Z).
    { apply Z.div_le_lower_bound; [exact Hzd |].
      apply Z.mul_le_mono_nonneg_r; [apply Z.pow_nonneg; lia | exact Hzn]. }
    assert (H2 : (0 < 2 ^ (- e2))%Z) by (apply Z.pow_pos_nonneg; lia).
    rewrite Z2N.id by lia.
    apply Z.ltb_ge. lia.
Qed.

Lemma Decimal_float_at_least_one (d : Decimal) :
  at_least_one d -> exists f, Decimal_float d = Ok f /\ float_lt_Z f 1 = false.
Proof.
  destruct d as [[|] c e | [|] | s sg p]; cbn [at_least_one]; try contradiction.
  - intros (H1 & He). unfold Decimal_float.
    destruct (Z.leb_spec 0 e) as [H0 | H0]; eexists; (split; [reflexivity |]);
      apply float_of_ratio_at_least_one.
    + discriminate.
    + assert (Z.of_N 1 <= Z.of_N (c * pow10 e))%Z; [| lia].
      rewrite N2Z.inj_mul, pow10_Z by lia. pose proof (pow10_pos e H0). simpl Z.of_N. nia.
    + assert (0 < Z.of_N (pow10 (- e)))%Z; [| lia].
      rewrite pow10_Z by lia. apply pow10_pos. lia.
    + assert (Z.of_N (pow10 (- e)) <= Z.of_N c)%Z; [| lia].
      rewrite pow10_Z by lia. exact He.
  - intros _. exists (Finf false). split; reflexivity.
Qed.

Lemma quotient_at_least_one (x : Decimal) (cy : N) (ey : Z) :
  is_nan x = false -> cy <> 0%N ->
  Decimal_cmp x (Dfin false cy ey) <> Lt ->
  at_least_one_or_overflow (Decimal_div x (Dfin false cy ey)).
Proof.
  intros Hn Hy Hc. destruct x as [sx cx ex | sx | sx sg p]; [| | discriminate Hn].
  - assert (Hp : (0 < Z.of_N cy * 10 ^ (ey - Z.min ex ey))%Z).
    { apply Z.mul_pos_pos; [lia | apply pow10_pos; lia]. }
    unfold Decimal_cmp in Hc. rewrite Z.compare_lt_iff in Hc.
    cbn [signed] in Hc.
    assert (Hs : sx = false).
    { destruct sx; [| reflexivity]. cbn [signed] in Hc.
      pose proof (pow10_pos (ex - Z.min ex ey) ltac:(lia)). nia. }
    subst sx. cbn [signed] in Hc.
    apply Decimal_div_at_least_one; [exact Hy | lia].
  - destruct sx; [contradiction Hc; reflexivity |].
    right. exists (Dinf false). split; [reflexivity | exact I].
Qed.

(** X21: a goal that is reached is shown as complete.  When the target is
    a finite number above 0 and the balance is at least the target, the
    progress of the goal is exactly 1 (the int 1 of [min(1, ...)]), unless
    the quotient [bal / target] overflows, in which case the progress is
    not computed: neither the rounding of the quotient to 28 digits nor
    its conversion to a float can bring it below 1. *)
Theorem reached_goal_is_full (w : World) (g : Goal) (bal : number) :
  balance w = Ok bal ->
  is_finite (target g) = true ->
  py_gt (Dec (target g)) (Int 0) = Ok true ->
  py_ge bal (Dec (target g)) = Ok true ->
  goal_progress w g = Ok (RInt 1)
  \/ (py_div bal (target g) = Raise Overflow
      /\ goal_progress w g = Raise Overflow).
Proof.
  intros Hb Ht Hgt Hge. unfold goal_progress, goal_pct. rewrite Hb. cbn [rbind].
  rewrite Hgt. cbn [rbind].
  destruct (target g) as [sy cy ey | |] eqn:Et; try discriminate Ht.
  assert (Hpos : sy = false /\ cy <> 0%N).
  { cbn [py_gt to_Decimal] in Hgt. unfold Decimal_gt, Decimal_order in Hgt.
    cbn [is_nan orb] in Hgt. apply positive_Decimal with (e := ey).
    destruct (Decimal_cmp (Dfin sy cy ey) (Decimal_of_Z 0)); try discriminate Hgt.
    reflexivity. }
  destruct Hpos as [-> Hcy].
  assert (Hx : is_nan (to_Decimal bal) = false
               /\ Decimal_cmp (to_Decimal bal) (Dfin false cy ey) <> Lt).
  { destruct bal as [x | d]; cbn [py_ge to_Decimal] in *.
    - split; [reflexivity |].
      unfold Decimal_order in Hge. cbn [is_nan orb] in Hge.
      rewrite (Decimal_cmp_antisym (Dfin false cy ey) (Decimal_of_Z x)) by reflexivity.
      destruct (Decimal_cmp (Dfin false cy ey) (Decimal_of_Z x));
        try discriminate; discriminate Hge.
    - unfold Decimal_ge, Decimal_order in Hge.
      destruct (is_nan d); [discriminate Hge |]. split; [reflexivity |].
      cbn [orb is_nan] in Hge.
      destruct (Decimal_cmp d (Dfin false cy ey)); try discriminate; discriminate Hge. }
  destruct Hx as (Hn & Hc). unfold py_div.
  destruct (quotient_at_least_one _ cy ey Hn Hcy Hc) as [-> | (q & -> & Hq)];
    cbn [rbind]; [right; split; reflexivity | left].
  destruct (Decimal_float_at_least_one q Hq) as (f & -> & Hf).
  cbn [rbind py_min_1]. rewrite Hf. reflexivity.
Qed.

(** The sample ledger, whose balance is 799.50, and a goal of 100. *)
Lemma reached_goal_is_full_witness :
  goal_progress sample_world goal_100 = Ok (RInt 1)
  \/ (py_div (Dec (Dfin false 79950 (-2))) (target goal_100) = Raise Overflow
      /\ goal_progress sample_world goal_100 = Raise Overflow).
Proof.
  apply (reached_goal_is_full sample_world goal_100 (Dec (Dfin false 79950 (-2))));
    reflexivity.
Defined.

(** ** Totals beyond the largest number of the context *)

Lemma ndigits_unique (c : N) (n : Z) :
  (1 <= n)%Z -> (10 ^ (n - 1) <= Z.of_N c < 10 ^ n)%Z -> ndigits c = n.
Proof.
  intros Hn [Hlo Hhi].
  assert (Hc : c <> 0%N).
  { pose proof (pow10_pos (n - 1) ltac:(lia)). lia. }
  destruct (ndigits_spec c Hc) as (Hm & Hlo' & Hhi').
  assert (H1 : (n - 1 < ndigits c)%Z) by (apply (Z.pow_lt_mono_r_iff 10); lia).
  assert (H2 : (ndigits c - 1 < n)%Z) by (apply (Z.pow_lt_mono_r_iff 10); lia).
  lia.
Qed.

Lemma ndigits_shift (c : N) (k : Z) :
  c <> 0%N -> (0 <= k)%Z ->
  ndigits (Z.abs_N (Z.of_N c * 10 ^ k)) = (ndigits c + k)%Z.
Proof.
  intros Hc Hk.
  destruct (ndigits_spec c Hc) as (Hn & Hlo & Hhi).
  pose proof (pow10_pos k Hk) as Hp.
  apply ndigits_unique; [lia |].
  rewrite N2Z.inj_abs_N, Z.abs_eq by nia.
  replace (ndigits c + k - 1)%Z with (ndigits c - 1 + k)%Z by lia.
  rewrite !Z.pow_add_r by lia. nia.
Qed.

Lemma Decimal_fix_overflow (s : bool) (c : N) (e : Z) :
  c <> 0%N -> (Emax < ndigits c + e - 1)%Z -> Decimal_fix (Dfin s c e) = Raise Overflow.
Proof.
  intros Hc H. unfold Decimal_fix.
  destruct (N.eqb_spec c 0) as [| _]; [contradiction |]. cbv zeta.
  destruct (Z.ltb_spec Etop (ndigits c + e - prec)) as [_ | H']; [reflexivity |].
  unfold Etop, Emax, prec in *. lia.
Qed.

(** The first addition of a sum, [0 + d], overflows for a number [d]
    above the largest number of the context. *)
Lemma first_addition_overflows (s : bool) (c : N) (e : Z) :
  c <> 0%N -> (Emax < ndigits c + e - 1)%Z ->
  py_add (Int 0) (Dec (Dfin s c e)) = Raise Overflow.
Proof.
  intros Hc H. cbn [py_add]. unfold Decimal_add, Decimal_of_Z.
  cbn [check_nans Z.ltb Z.compare Z.abs_N]. cbv zeta.
  change (signed false 0) with 0%Z. rewrite Z.mul_0_l, Z.add_0_r.
  set (m := Z.min e 0).
  assert (Hk : (0 <= e - m)%Z) by (unfold m; lia).
  pose proof (pow10_pos (e - m) Hk) as Hp.
  assert (Hs : (signed s c <> 0)%Z) by (destruct s; cbn [signed]; lia).
  destruct (Z.eqb_spec (signed s c * 10 ^ (e - m)) 0) as [E | _]; [nia |].
  assert (Ea : Z.abs_N (signed s c * 10 ^ (e - m)) = Z.abs_N (Z.of_N c * 10 ^ (e - m))).
  { destruct s; cbn [signed]; [| reflexivity].
    rewrite Z.mul_opp_l. apply Zabs2N.inj_opp. }
  rewrite Ea, Decimal_fix_overflow; [reflexivity | |].
  - intros E. apply (f_equal Z.of_N) in E. rewrite N2Z.inj_abs_N in E.
    simpl Z.of_N in E. nia.
  - rewrite ndigits_shift by assumption. unfold m. lia.
Qed.

(** X23: an amount above the largest number of the context (its adjusted
    exponent, digits + exponent - 1, above Emax = 999999) cannot be
    totalled: when it is the first income of the ledger, [income_total],
    [balance] and [savings_total] raise Overflow, whatever the other
    transactions are. *)
Theorem first_income_beyond_Emax (w : World) (t : Transaction) (rest : list Transaction)
    (s : bool) (c : N) (e : Z) :
  filter is_income (transactions w) = t :: rest ->
  amount t = Dfin s c e -> c <> 0%N -> (Emax < ndigits c + e - 1)%Z ->
  income_total w = Raise Overflow
  /\ balance w = Raise Overflow
  /\ savings_total w = Raise Overflow.
Proof.
  intros Hf Ha Hc He.
  assert (Hi : income_total w = Raise Overflow).
  { unfold income_total. fold is_income. rewrite Hf. cbn [map]. rewrite Ha.
    unfold py_sum. cbn [py_sum_from].
    rewrite (first_addition_overflows s c e Hc He). reflexivity. }
  unfold savings_total, balance. rewrite Hi. repeat split.
Qed.

(** A single income of 1E+1000000. *)
Lemma first_income_beyond_Emax_witness :
  income_total (mkWorld [mkTransaction (JStr "05/01/2025 08:00") (JStr "Prize")
                           (Dfin false 1 1000000) (JStr "Income") (JStr "Other")]
                  [] None 0 [])
  = Raise Overflow.
Proof.
  refine (proj1 (first_income_beyond_Emax
                   (mkWorld [mkTransaction (JStr "05/01/2025 08:00") (JStr "Prize")
                               (Dfin false 1 1000000) (JStr "Income") (JStr "Other")]
                      [] None 0 [])
                   _ [] false 1 1000000 eq_refl eq_refl _ _)).
  - discriminate.
  - vm_compute. reflexivity.
Defined.
